(** * Securitybot: a shallow embedding of the conversation engine

    The Python sources embedded here are
      securitybot/util.py, state_machine.py, sql.py, auth/duo.py,
      tasker/sql_tasker.py, ignored_alerts.py, user.py, bot.py, commands.py.

    Conventions.
    - The code is Python 2: [str] is a byte string, modelled as [string]
      (a list of 8-bit characters).
    - Mutable objects keep their state in an explicit store; a method is a
      function from the store to an outcome and the store it leaves behind.
      An exception is an outcome, and the store mutations made before the
      raise persist, as they do in Python.
    - Instants and durations are integers counting microseconds, the
      resolution of [datetime] and [timedelta]. *)

From Stdlib Require Import ZArith List String Ascii Bool Lia.
From stdpp Require Import base gmap strings list fin_maps.
Import ListNotations.

Set Default Proof Using "Type".

(** ** Exceptions and the store-passing monad *)

Inductive exn : Type :=
| IndexError
| AttributeError
| KeyError
| ValueError
| UnicodeDecodeError
| OverflowError
| StateMachineException
| SecurityBotException
| SQLEngineException (msg : string)
| MySQLOperationalError (args : list string)
| MySQLError (args : list string).

Inductive result (A : Type) : Type :=
| Ok (a : A)
| Raise (e : exn).
Arguments Ok {A} a.
Arguments Raise {A} e.

(** A computation over a store [S]: the store is returned in both outcomes. *)
Definition M (S A : Type) : Type := S -> result A * S.

Definition ret {S A} (a : A) : M S A := fun s => (Ok a, s).
Definition raise {S A} (e : exn) : M S A := fun s => (Raise e, s).
Definition bind {S A B} (c : M S A) (k : A -> M S B) : M S B :=
  fun s => match c s with
           | (Ok a, s') => k a s'
           | (Raise e, s') => (Raise e, s')
           end.
Definition get {S} : M S S := fun s => (Ok s, s).
Definition gets {S A} (f : S -> A) : M S A := fun s => (Ok (f s), s).
Definition modify {S} (f : S -> S) : M S unit := fun s => (Ok tt, f s).

Declare Scope py_scope.
Delimit Scope py_scope with py.
Notation "x <- c ;; k" := (bind c (fun x => k))
  (at level 100, c at next level, right associativity) : py_scope.
Notation "c ;;; k" := (bind c (fun _ => k))
  (at level 100, right associativity) : py_scope.
Local Open Scope py_scope.

(** [for x in xs: body x] *)
Fixpoint for_each {S A} (xs : list A) (body : A -> M S unit) : M S unit :=
  match xs with
  | [] => ret tt
  | x :: xs' => body x ;;; for_each xs' body
  end.

(** ** securitybot/util.py *)

Module Util.
Local Open Scope Z_scope.

Definition SECOND : Z := 1000000.
Definition MINUTE : Z := 60 * SECOND.
Definition HOUR : Z := 60 * MINUTE.
Definition DAY : Z := 24 * HOUR.

(** [timedelta]: a signed number of microseconds. *)
Definition timedelta := Z.
Definition hours (h : Z) : timedelta := h * HOUR.
Definition minutes (m : Z) : timedelta := m * MINUTE.
Definition seconds (s : Z) : timedelta := s * SECOND.
Definition days (d : Z) : timedelta := d * DAY.

(** A [tzinfo] object. pytz keeps one instance for every period of a zone,
    each with a fixed offset from UTC; [pytz.utc] is one more. Two fields
    tell the instances apart, so [o1 is o2] is equality of the records. *)
Record tzinfo_obj := mk_tzinfo { tzname : string; utcoffset : Z }.
Definition same_object (o1 o2 : tzinfo_obj) : bool :=
  String.eqb (tzname o1) (tzname o2) && (utcoffset o1 =? utcoffset o2).
Definition pytz_utc : tzinfo_obj := mk_tzinfo "UTC" 0.

(** [datetime]: the wall-clock fields, as microseconds since 1970-01-01
    00:00:00 on the datetime's own calendar, and the attached [tzinfo];
    [None] is a naive datetime. *)
Record datetime := mk_datetime { wall : Z; tzinfo : option tzinfo_obj }.

(** A pytz zone such as [pytz.timezone('America/Los_Angeles')]:
    - [zone_default] is the instance the call returns, the one of the zone's
      first period; it is what a datetime gets when the zone is passed as
      [tzinfo=] to the [datetime] constructor;
    - [zone_fromutc u] is the instance of the period in force at the UTC
      instant [u], which is what the zone's [fromutc] attaches. *)
Record zone := mk_zone { zone_default : tzinfo_obj; zone_fromutc : Z -> tzinfo_obj }.

Definition utc_zone : zone := mk_zone pytz_utc (fun _ => pytz_utc).

Definition hour (t : datetime) : Z := (wall t / HOUR) mod 24.
(** 1970-01-01 was a Thursday: ISO weekday 4. *)
Definition isoweekday (t : datetime) : Z := (wall t / DAY + 3) mod 7 + 1.
(** The UTC instant of an aware datetime (a naive one is read as UTC). *)
Definition utc_instant (t : datetime) : Z :=
  wall t - match tzinfo t with Some o => utcoffset o | None => 0 end.

(** The proleptic Gregorian day number of a civil date, counted from
    1970-01-01. *)
Definition days_from_civil (y m d : Z) : Z :=
  let y' := if m <=? 2 then y - 1 else y in
  let era := y' / 400 in
  let yoe := y' - era * 400 in
  let mp := (m + 9) mod 12 in
  let doy := (153 * mp + 2) / 5 + d - 1 in
  let doe := yoe * 365 + yoe / 4 - yoe / 100 + doy in
  era * 146097 + doe - 719468.

(** [datetime.min] and [datetime.max]: the years 1 to 9999. Arithmetic that
    leaves them raises [OverflowError] (date value out of range). *)
Definition MIN_WALL : Z := days_from_civil 1 1 1 * DAY.
Definition MAX_WALL : Z := days_from_civil 9999 12 31 * DAY + DAY - 1.
Definition in_range (w : Z) : bool := (MIN_WALL <=? w) && (w <=? MAX_WALL).

Definition replace_tzinfo (t : datetime) (o : tzinfo_obj) : datetime :=
  {| wall := wall t; tzinfo := Some o |}.
(** [t + d]: wall-clock arithmetic, the tzinfo is kept. *)
Definition add (t : datetime) (d : timedelta) : result datetime :=
  if in_range (wall t + d) then Ok {| wall := wall t + d; tzinfo := tzinfo t |}
  else Raise OverflowError.
(** [t.astimezone(z)], [z] being the zone's default instance. Conversion to
    the datetime's own tzinfo object returns the datetime as it is;
    otherwise the wall clock is taken to UTC and handed to the zone's
    [fromutc], which adds the offset of the period and attaches its
    instance. A naive datetime is refused. *)
Definition astimezone (z : zone) (t : datetime) : result datetime :=
  match tzinfo t with
  | None => Raise ValueError
  | Some o =>
      if same_object o (zone_default z) then Ok t
      else
        let u := wall t - utcoffset o in
        if in_range u then
          let o' := zone_fromutc z u in
          if in_range (u + utcoffset o') then
            Ok {| wall := u + utcoffset o'; tzinfo := Some o' |}
          else Raise OverflowError
        else Raise OverflowError
  end.
(** [a - b] for aware datetimes: the difference of the instants. *)
Definition sub (a b : datetime) : timedelta := utc_instant a - utc_instant b.
(** [a == b] for aware datetimes compares instants. *)
Definition same_instant (a b : datetime) : Prop := utc_instant a = utc_instant b.

Definition OPENING_HOUR : Z := 10.
Definition CLOSING_HOUR : Z := 18.

Section LocalZone.
(** [LOCAL_TZ = pytz.timezone('America/Los_Angeles')]; the zone's offset
    table is pytz's, not the repository's, and stays a parameter here. *)
Variable LOCAL_TZ : zone.

Definition during_business_hours (time : datetime) : result bool :=
  match
    match tzinfo time with
    | Some _ => astimezone LOCAL_TZ time
    | None => astimezone LOCAL_TZ (replace_tzinfo time pytz_utc)
    end
  with
  | Ok here =>
      Ok (((OPENING_HOUR <=? hour here) && (hour here <? CLOSING_HOUR))
          && ((1 <=? isoweekday time) && (isoweekday time <=? 5)))
  | Raise e => Raise e
  end.

(** [datetime(year=start.year, month=start.month, day=start.day,
              hour=CLOSING_HOUR, tzinfo=LOCAL_TZ)] *)
Definition end_of_day (start : datetime) : datetime :=
  {| wall := wall start / DAY * DAY + CLOSING_HOUR * HOUR;
     tzinfo := Some (zone_default LOCAL_TZ) |}.

(** [while not during_business_hours(next_day): next_day += timedelta(days=1)].
    The recursion is on the whole days left before [datetime.max]: when
    none is left the addition is the one that raises [OverflowError]. *)
Fixpoint march (days_left : nat) (next_day : datetime) : result datetime :=
  match during_business_hours next_day with
  | Ok true => Ok next_day
  | Ok false =>
      match days_left with
      | O => Raise OverflowError
      | S days_left' =>
          match add next_day (days 1) with
          | Ok next_day' => march days_left' next_day'
          | Raise e => Raise e
          end
      end
  | Raise e => Raise e
  end.
Definition days_left (t : datetime) : nat := Z.to_nat ((MAX_WALL - wall t) / DAY).

Definition get_expiration_time (start : datetime) (time : timedelta) : result datetime :=
  let start := match tzinfo start with
               | None => replace_tzinfo start pytz_utc
               | Some _ => start
               end in
  match add start time with
  | Ok end_ =>
      match during_business_hours end_ with
      | Ok true => Ok end_
      | Ok false =>
          let eod := end_of_day start in
          let delta := sub end_ eod in
          match add eod (hours ((OPENING_HOUR - CLOSING_HOUR) mod 24)) with
          | Ok next_day =>
              (* This may land on a weekend, so march to the next weekday *)
              match march (days_left next_day) next_day with
              | Ok next_day => add next_day delta
              | Raise e => Raise e
              end
          | Raise e => Raise e
          end
      | Raise e => Raise e
      end
  | Raise e => Raise e
  end.
End LocalZone.

(** [datetime(y, mo, d, h, mi, s, tzinfo=z)] *)
Definition civil (y mo d h mi s : Z) (z : zone) : datetime :=
  {| wall := days_from_civil y mo d * DAY + h * HOUR + mi * MINUTE + s * SECOND;
     tzinfo := Some (zone_default z) |}.

(** America/Los_Angeles as pytz resolves it for the instants of 2016, the
    year of the dates in tests/util_test.py: the instance returned by
    [pytz.timezone] is that of the zone's first period, local mean time
    -7:53; [fromutc] attaches the instance of daylight time (UTC-7) from
    2016-03-13T10:00Z to 2016-11-06T09:00Z and that of standard time
    (UTC-8) outside it. *)
Definition Los_Angeles_2016 : zone :=
  {| zone_default := mk_tzinfo "LMT" (- (7 * HOUR + 53 * MINUTE));
     zone_fromutc := fun u =>
       if (1457863200 * SECOND <=? u) && (u <? 1478422800 * SECOND)
       then mk_tzinfo "PDT" (- (7 * HOUR)) else mk_tzinfo "PST" (- (8 * HOUR)) |}.

(** [tuple_builder(answer=None, text=None)]: the last parsed message. *)
Record Response := mk_response { answer : option bool; text : string }.
Definition tuple_builder (answer : option bool) (text : option string) : Response :=
  {| answer := answer; text := default ""%string text |}.

End Util.

(** ** securitybot/state_machine.py *)

Module StateMachine.
Section Machine.
(** The callbacks are closures over the objects of the program that uses
    the machine; [W] is the store those objects live in. *)
Context {W : Type}.

Record State := mk_State {
  name : string;
  _during : option (M W unit);
  _on_enter : option (M W unit);
  _on_exit : option (M W unit) }.

Definition during (s : State) : M W unit :=
  match _during s with Some f => f | None => ret tt end.
Definition on_enter (s : State) : M W unit :=
  match _on_enter s with Some f => f | None => ret tt end.
Definition on_exit (s : State) : M W unit :=
  match _on_exit s with Some f => f | None => ret tt end.

Record Transition := mk_Transition {
  source : State;
  dest : State;
  _condition : option (M W bool);
  _action : option (M W unit) }.

(** Conditions default to True if none is provided. *)
Definition condition (t : Transition) : M W bool :=
  match _condition t with None => ret true | Some c => c end.
Definition action (t : Transition) : M W unit :=
  match _action t with Some f => f | None => ret tt end.

(** One of the dictionaries of the constructor's [transitions] argument. *)
Record transition_dict := mk_transition_dict {
  d_source : string;
  d_dest : string;
  d_condition : option (M W bool);
  d_action : option (M W unit) }.

Record StateMachine := mk_StateMachine {
  _states : gmap string State;
  state : State;
  (** a [defaultdict(list)]: a missing key reads as the empty list *)
  _transitions : gmap string (list Transition) }.

Definition set_state (m : StateMachine) (s : State) : StateMachine :=
  {| _states := _states m; state := s; _transitions := _transitions m |}.

Definition transitions_from (m : StateMachine) (n : string) : list Transition :=
  default [] (_transitions m !! n).

(** [for state in states: self._states[state] = State(state, during.get(state), ...)] *)
Definition build_states (states : list string)
    (during on_enter on_exit : gmap string (M W unit)) : gmap string State :=
  foldl (fun acc s => <[s := mk_State s (during !! s) (on_enter !! s) (on_exit !! s)]> acc)
        ∅ states.

(** [for transition in transitions: ...], appending to the list filed under
    the transition's source. *)
Fixpoint build_transitions (sts : gmap string State) (ts : list transition_dict)
    (acc : gmap string (list Transition)) : result (gmap string (list Transition)) :=
  match ts with
  | [] => Ok acc
  | t :: ts' =>
      match sts !! d_source t with
      | None => Raise StateMachineException     (* Invalid source state *)
      | Some source_state =>
          match sts !! d_dest t with
          | None => Raise StateMachineException (* Invalid destination state *)
          | Some dest_state =>
              build_transitions sts ts'
                (<[d_source t :=
                     default [] (acc !! d_source t) ++
                     [mk_Transition source_state dest_state (d_condition t) (d_action t)]]> acc)
          end
      end
  end.

(** [StateMachine.__init__]. The test
    [sorted(list(set(states))) != sorted(states)] holds exactly when a name
    occurs twice. *)
Definition new (states : list string) (transitions : list transition_dict)
    (initial : string) (during on_enter on_exit : gmap string (M W unit))
    : result StateMachine :=
  if bool_decide (NoDup states) then
    let sts := build_states states during on_enter on_exit in
    match sts !! initial with
    | None => Raise StateMachineException       (* Invalid initial state *)
    | Some init =>
        match build_transitions sts transitions ∅ with
        | Raise e => Raise e
        | Ok trs => Ok (mk_StateMachine sts init trs)
        end
    end
  else Raise StateMachineException.             (* Duplicate state names *)

(** The machine object and the store of its callbacks. *)
Definition fsm_store : Type := StateMachine * W.

Definition lift {A} (c : M W A) : M fsm_store A :=
  fun s => let '(r, w') := c (snd s) in (r, (fst s, w')).
Definition current : M fsm_store State := gets (fun s => state (fst s)).
Definition assign_state (st : State) : M fsm_store unit :=
  modify (fun s => (set_state (fst s) st, snd s)).

(** The body of [for transition in ...: if transition.condition(): ...; break]. *)
Fixpoint step_loop (ts : list Transition) : M fsm_store unit :=
  match ts with
  | [] => ret tt
  | transition :: rest =>
      c <- lift (condition transition) ;;
      if c then
        lift (action transition) ;;;
        old <- current ;;
        lift (on_exit old) ;;;
        assign_state (dest transition) ;;;
        new_ <- current ;;
        lift (on_enter new_)
      else step_loop rest
  end.

Definition step : M fsm_store unit :=
  cur <- current ;;
  lift (during cur) ;;;
  m <- gets fst ;;
  step_loop (transitions_from m (name (state m))).

End Machine.
Arguments State : clear implicits.
Arguments Transition : clear implicits.
Arguments transition_dict : clear implicits.
Arguments StateMachine : clear implicits.
Arguments fsm_store : clear implicits.
End StateMachine.

(** ** securitybot/sql.py *)

Module SQL.

Definition rows : Type := list (list string).

(** What one pass through the [try] body
    ([cursor.execute; cursor.fetchall; conn.commit]) comes to. *)
Inductive attempt : Type :=
| Fetched (r : rows)
| Failed (e : exn).

(** The MySQL server and the network, as the client meets them: the outcome
    of the [n]-th statement sent and of the [n]-th [MySQLdb.connect]
    ([None]: the connection is made). *)
Record Server := mk_Server {
  on_execute : nat -> string -> list string -> attempt;
  on_connect : nat -> option exn }.

Record credentials := mk_credentials {
  c_host : option string;
  c_user : option string;
  c_passwd : option string;
  c_db : option string }.

(** The class attributes of [SQLEngine]; a connection and its cursor are
    named by the number of the connect call that made them. *)
Record SQLEngine := mk_SQLEngine {
  _saved : credentials;       (* _host, _user, _passwd, _db *)
  _created : bool;
  _conn : option nat;
  _cursor : option nat }.

Definition initial_engine : SQLEngine :=
  mk_SQLEngine (mk_credentials None None None None) false None None.

(** The store: the engine, its surroundings, and a record of every
    statement sent (cursor, query, params) and every connect made. *)
Record Store := mk_Store {
  server : Server;
  engine : SQLEngine;
  executed : list (nat * string * list string);
  connected : list credentials }.

Definition set_engine (s : Store) (e : SQLEngine) : Store :=
  mk_Store (server s) e (executed s) (connected s).

(** [SQLEngine._create_engine(host, user, passwd, db)] *)
Definition _create_engine (c : credentials) : M Store unit :=
  fun s =>
    let n := length (connected s) in
    let s1 := mk_Store (server s) (engine s) (executed s) (connected s ++ [c]) in
    match on_connect (server s) n with
    | Some e => (Raise e, s1)
    | None =>
        (Ok tt, set_engine s1 (mk_SQLEngine (_saved (engine s)) (_created (engine s))
                                            (Some n) (Some n)))
    end.

(** [SQLEngine.__init__(host, user, passwd, db)] *)
Definition init (c : credentials) : M Store unit :=
  fun s =>
    if _created (engine s) then (Ok tt, s)
    else
      let e := engine s in
      let s1 := set_engine s (mk_SQLEngine c (_created e) (_conn e) (_cursor e)) in
      match _create_engine c s1 with
      | (Ok _, s2) =>
          let e2 := engine s2 in
          (Ok tt, set_engine s2 (mk_SQLEngine (_saved e2) true (_conn e2) (_cursor e2)))
      | (Raise x, s2) => (Raise x, s2)
      end.

(** The [try] body. With no cursor, [SQLEngine._cursor.execute] is an
    attribute access on [None]. *)
Definition try_body (query : string) (params : list string) : M Store attempt :=
  fun s =>
    match _cursor (engine s) with
    | None => (Ok (Failed AttributeError), s)
    | Some cur =>
        let n := length (executed s) in
        (Ok (on_execute (server s) n query params),
         mk_Store (server s) (engine s) (executed s ++ [(cur, query, params)]) (connected s))
    end.

(** ['MySQL error [{0}]: {1}'.format(e.args[0], e.args[1])], and on
    [IndexError] ['MySQL error: {0}'.format(e)]. *)
Definition error_message (args : list string) : string :=
  match args with
  | a0 :: a1 :: _ => "MySQL error [" +:+ a0 +:+ "]: " +:+ a1
  | [a0] => "MySQL error: " +:+ a0
  | [] => "MySQL error: "
  end.

(** [SQLEngine.execute(query, params)]. After a transport error the function
    calls itself; [calls] is the number of nested calls followed, and [None]
    says that the run needs more of them. What ends a run that needs more
    than the interpreter allows (a [RuntimeError] raised somewhere inside
    the deepest call, in the driver, in [logging] or in [MySQLdb.connect])
    is outside the model. *)
Fixpoint execute (calls : nat) (query : string) (params : option (list string))
    (s : Store) : option (result rows * Store) :=
  match calls with
  | O => None
  | S calls' =>
      let params := default [] params in
      match try_body query params s with
      | (Ok (Fetched rs), s1) => Some (Ok rs, s1)
      | (Ok (Failed AttributeError), s1) | (Ok (Failed (MySQLOperationalError _)), s1) =>
          (* Recover from lost connection *)
          match _create_engine (_saved (engine s1)) s1 with
          | (Ok _, s2) => execute calls' query (Some params) s2
          | (Raise e, s2) => Some (Raise e, s2)
          end
      | (Ok (Failed (MySQLError args)), s1) =>
          Some (Raise (SQLEngineException (error_message args)), s1)
      | (Ok (Failed e), s1) => Some (Raise e, s1)
      | (Raise e, s1) => Some (Raise e, s1)
      end
  end.

End SQL.

(** ** securitybot/auth/auth.py and securitybot/auth/duo.py *)

Module Auth.
Local Open Scope Z_scope.

Inductive AUTH_STATES : Type := NONE | PENDING | AUTHORIZED | DENIED.

#[global] Instance AUTH_STATES_eq_dec : EqDecision AUTH_STATES.
Proof. solve_decision. Defined.

(** Allowable time before 2FA is checked again. *)
Definition AUTH_TIME : Util.timedelta := Util.hours 2.

(** [datetime.min], 0001-01-01 00:00:00. *)
Definition datetime_min : Z := Util.days_from_civil 1 1 1 * Util.DAY.

(** The Duo Auth API client: the answers of the service. *)
Record preauth_response := mk_preauth {
  pre_result : string;
  pre_devices : list (list string) }.        (* each device's capabilities *)
Record status_response := mk_status { waiting : bool; success : bool }.
Record DuoClient := mk_DuoClient {
  client_preauth : string -> preauth_response;
  (** [client.auth(username=..., pushinfo=...)['txid']]; the push carries
      the reason when one is given *)
  client_auth : string -> option string -> string;
  client_auth_status : option string -> status_response }.

Record DuoAuth := mk_DuoAuth {
  username : string;
  txid : option string;
  auth_time : Z;               (* a naive datetime *)
  state : AUTH_STATES }.

(** [DuoAuth.__init__] *)
Definition new (username : string) : DuoAuth :=
  mk_DuoAuth username None datetime_min NONE.

Definition can_auth (client : DuoClient) (self : DuoAuth) : bool :=
  let res := client_preauth client (username self) in
  if String.eqb (pre_result res) "auth" then
    existsb (fun capabilities => existsb (String.eqb "push") capabilities) (pre_devices res)
  else false.

(** [if reason:] is false for [None] and for the empty string. *)
Definition auth (client : DuoClient) (reason : option string) (self : DuoAuth) : DuoAuth :=
  let reason := match reason with
                | Some r => if String.eqb r "" then None else Some r
                | None => None
                end in
  mk_DuoAuth (username self) (Some (client_auth client (username self) reason))
             (auth_time self) PENDING.

(** [now] is the value of [datetime.now()] *)
Definition _recently_authed (now : Z) (self : DuoAuth) : bool :=
  now - auth_time self <? AUTH_TIME.

Definition auth_status (client : DuoClient) (now : Z) (self : DuoAuth)
    : AUTH_STATES * DuoAuth :=
  let self' :=
    match state self with
    | PENDING =>
        let res := client_auth_status client (txid self) in
        if negb (waiting res) then
          if success res
          then mk_DuoAuth (username self) (txid self) now AUTHORIZED
          else mk_DuoAuth (username self) (txid self) datetime_min DENIED
        else self
    | AUTHORIZED =>
        if negb (_recently_authed now self)
        then mk_DuoAuth (username self) (txid self) (auth_time self) NONE
        else self
    | _ => self
    end in
  (state self', self').

Definition reset (self : DuoAuth) : DuoAuth :=
  mk_DuoAuth (username self) None (auth_time self) NONE.

(** The calls a user session and the commands make on the object, each
    with the surroundings it meets: the Duo service and the clock. *)
Inductive call : Type :=
| CallAuth (client : DuoClient) (reason : option string)
| CallStatus (client : DuoClient) (now : Z)
| CallReset.

(** One call; the second component is what [auth_status] returned. *)
Definition run_call (c : call) (self : DuoAuth) : DuoAuth * option AUTH_STATES :=
  match c with
  | CallAuth client reason => (auth client reason self, None)
  | CallStatus client now =>
      let '(r, self') := auth_status client now self in (self', Some r)
  | CallReset => (reset self, None)
  end.

Definition run_calls (cs : list call) (self : DuoAuth) : DuoAuth :=
  foldl (fun a c => fst (run_call c a)) self cs.

End Auth.

(** ** securitybot/tasker/tasker.py and sql_tasker.py, ignored_alerts.py,
       blacklist/sql_blacklist.py: the objects and the tables

    The stores below are written for runs in which every
    [SQLEngine.execute] returns; what [execute] does when it does not is
    module [SQL]. *)

Module Tasker.
Local Open Scope Z_scope.

(** [STATUS_LEVELS = enum('OPEN', 'INPROGRESS', 'VERIFICATION')] *)
Definition OPEN : Z := 0.
Definition INPROGRESS : Z := 1.
Definition VERIFICATION : Z := 2.

(** An [SQLTask] object. *)
Record Task := mk_Task {
  hash : string;
  title : string;
  username : string;
  reason : string;
  description : string;
  url : string;
  performed : bool;
  comment : string;
  authenticated : bool;
  status : Z }.

Definition set_comment (t : Task) (c : string) : Task :=
  mk_Task (hash t) (title t) (username t) (reason t) (description t) (url t)
          (performed t) c (authenticated t) (status t).
Definition set_performed (t : Task) (p : bool) : Task :=
  mk_Task (hash t) (title t) (username t) (reason t) (description t) (url t)
          p (comment t) (authenticated t) (status t).
Definition set_authenticated (t : Task) (a : bool) : Task :=
  mk_Task (hash t) (title t) (username t) (reason t) (description t) (url t)
          (performed t) (comment t) a (status t).

Record alert_row := mk_alert_row {
  a_ldap : string; a_title : string; a_description : string;
  a_reason : string; a_url : string; a_event_time : Z }.
Record response_row := mk_response_row {
  r_comment : string; r_performed : bool; r_authenticated : bool }.
Record ignored_row := mk_ignored_row { i_reason : string; i_until : Z }.

(** The tables, each keyed by its primary key: [hash] (in hexadecimal),
    [(ldap, title)] for [ignored] (a map per ldap), [ldap] for [blacklist].
    [until] and [NOW()] count whole seconds. *)
Record Database := mk_Database {
  alerts : gmap string alert_row;
  alert_status : gmap string Z;
  user_responses : gmap string response_row;
  ignored : gmap string (gmap string ignored_row);
  blacklist : gset string }.

Definition set_alert_status (d : Database) (m : gmap string Z) : Database :=
  mk_Database (alerts d) m (user_responses d) (ignored d) (blacklist d).
Definition set_user_responses (d : Database) (m : gmap string response_row) : Database :=
  mk_Database (alerts d) (alert_status d) m (ignored d) (blacklist d).
Definition set_ignored (d : Database) (m : gmap string (gmap string ignored_row)) : Database :=
  mk_Database (alerts d) (alert_status d) (user_responses d) m (blacklist d).
Definition set_blacklist (d : Database) (b : gset string) : Database :=
  mk_Database (alerts d) (alert_status d) (user_responses d) (ignored d) b.

(** [UPDATE alert_status SET status=%s WHERE hash=UNHEX(%s)]: a row that
    is not there is not made. *)
Definition _set_status (st : Z) (t : Task) (d : Database) : Database :=
  set_alert_status d
    (match alert_status d !! hash t with
     | Some _ => <[hash t := st]> (alert_status d)
     | None => alert_status d
     end).

(** [UPDATE user_responses SET comment=%s, performed=%s, authenticated=%s
     WHERE hash=UNHEX(%s)] *)
Definition _set_response (t : Task) (d : Database) : Database :=
  set_user_responses d
    (match user_responses d !! hash t with
     | Some _ => <[hash t := mk_response_row (comment t) (performed t) (authenticated t)]>
                   (user_responses d)
     | None => user_responses d
     end).

Definition set_open (t : Task) (d : Database) : Database := _set_status OPEN t d.
Definition set_in_progress (t : Task) (d : Database) : Database := _set_status INPROGRESS t d.
Definition set_verifying (t : Task) (d : Database) : Database :=
  _set_response t (_set_status VERIFICATION t d).

(** [SQLTasker._get_tasks(level)]: the rows of [GET_ALERTS], the join of
    the three tables on the hash with [WHERE status = level], each made
    into an [SQLTask]. The query has no [ORDER BY]; the rows come here in
    the order of the hashes' table. *)
Definition SQLTask (h : string) (a : alert_row) (r : response_row) (st : Z) : Task :=
  mk_Task h (a_title a) (a_ldap a) (a_reason a) (a_description a) (a_url a)
          (r_performed r) (r_comment r) (r_authenticated r) st.

Definition GET_ALERTS_row (level : Z) (d : Database) (row : string * alert_row)
    : option Task :=
  match user_responses d !! fst row, alert_status d !! fst row with
  | Some r, Some st => if st =? level then Some (SQLTask (fst row) (snd row) r st) else None
  | _, _ => None
  end.

Definition _get_tasks (level : Z) (d : Database) : list Task :=
  omap (GET_ALERTS_row level d) (map_to_list (alerts d)).

Definition get_new_tasks : Database -> list Task := _get_tasks OPEN.
Definition get_active_tasks : Database -> list Task := _get_tasks INPROGRESS.
Definition get_pending_tasks : Database -> list Task := _get_tasks VERIFICATION.

(** ignored_alerts.py *)

(** [DELETE FROM ignored WHERE until <= NOW()] *)
Definition __update_ignored_list (now_s : Z) (d : Database) : Database :=
  set_ignored d
    ((fun per_user => filter (fun kv => (now_s <? i_until (snd kv)) = true) per_user)
       <$> ignored d).

(** [get_ignored(username)]: the pruned table and the dictionary of the
    user's ignored titles. *)
Definition get_ignored (now_s : Z) (username : string) (d : Database)
    : gmap string string * Database :=
  let d' := __update_ignored_list now_s d in
  (i_reason <$> default ∅ (ignored d' !! username), d').

(** [ignore_task(username, title, reason, ttl)]: [INSERT ... ON DUPLICATE
    KEY UPDATE]; [strftime('%Y-%m-%d %H:%M:%S')] drops the microseconds of
    [datetime.now(tz=pytz.utc) + ttl]. *)
Definition ignore_task (utc_now : Z) (username title reason : string)
    (ttl : Util.timedelta) (d : Database) : Database :=
  let expiry_time := utc_now + ttl in
  set_ignored d
    (<[username := <[title := mk_ignored_row reason (expiry_time / Util.SECOND)]>
                     (default ∅ (ignored d !! username))]> (ignored d)).

End Tasker.

(** ** Python 2 text: [str] and [unicode] *)

Module Text.
Local Open Scope Z_scope.

(** A text value is a byte string ([str]) or a string of code points
    ([unicode]); the chat adapter hands the bot what the JSON parser
    produced, and [clean_input] and [clean_command] turn it into [str]. *)
Inductive text : Type :=
| Str (s : string)
| Unicode (u : list Z).

(** What the interpreter's libraries decide and the repository does not:
    the Unicode case and white-space tables behind [unicode.lower] and
    [unicode.split], and [shlex.split] ([None]: it raised [ValueError]). *)
Record Library := mk_Library {
  unicode_lower : Z -> Z;
  unicode_isspace : Z -> bool;
  shlex_split : string -> option (list string) }.

Definition code (c : ascii) : Z := Z.of_N (N_of_ascii c).
Definition chr (n : Z) : ascii := ascii_of_N (Z.to_N n).

Definition is_ascii (c : ascii) : bool := code c <? 128.
Definition is_upper (c : ascii) : bool := (65 <=? code c) && (code c <=? 90).
(** [str.lower] in the C locale: only A..Z change. *)
Definition lower_byte (c : ascii) : ascii :=
  if is_upper c then chr (code c + 32) else c.
(** The bytes [str.split()] splits on: tab, LF, VT, FF, CR and space. *)
Definition is_space (c : ascii) : bool :=
  ((9 <=? code c) && (code c <=? 13)) || (code c =? 32).

Definition bytes (s : string) : list ascii := list_ascii_of_string s.
Definition of_bytes (l : list ascii) : string := string_of_list_ascii l.

Definition lower (s : string) : string := of_bytes (map lower_byte (bytes s)).
Definition all_ascii (s : string) : bool := forallb is_ascii (bytes s).

(** [s.split()]: the maximal runs of characters that are not white space;
    [cur] is the run being read, last character first. *)
Fixpoint split_runs {A} (space : A -> bool) (l cur : list A) : list (list A) :=
  match l with
  | [] => match cur with [] => [] | _ => [rev cur] end
  | c :: l' =>
      if space c then
        match cur with
        | [] => split_runs space l' []
        | _ => rev cur :: split_runs space l' []
        end
      else split_runs space l' (c :: cur)
  end.

Definition split (s : string) : list string :=
  map of_bytes (split_runs is_space (bytes s) []).

(** [s.split(sep)] for a one-character separator: the pieces between the
    separators, empty ones kept. *)
Fixpoint split_on_aux (sep : ascii) (l cur : list ascii) : list string :=
  match l with
  | [] => [of_bytes (rev cur)]
  | c :: l' =>
      if Ascii.eqb c sep then of_bytes (rev cur) :: split_on_aux sep l' []
      else split_on_aux sep l' (c :: cur)
  end.
Definition split_on (sep : ascii) (s : string) : list string :=
  split_on_aux sep (bytes s) [].

(** [sep.join(l)] *)
Fixpoint join (sep : string) (l : list string) : string :=
  match l with
  | [] => ""
  | [x] => x
  | x :: rest => x +:+ sep +:+ join sep rest
  end.

Definition newline : string := String (chr 10) "".

(** UTF-8 of one code point. *)
Definition utf8 (c : Z) : list ascii :=
  if c <? 128 then [chr c]
  else if c <? 2048 then [chr (192 + c / 64); chr (128 + c mod 64)]
  else if c <? 65536 then
    [chr (224 + c / 4096); chr (128 + (c / 64) mod 64); chr (128 + c mod 64)]
  else
    [chr (240 + c / 262144); chr (128 + (c / 4096) mod 64);
     chr (128 + (c / 64) mod 64); chr (128 + c mod 64)].

(** [t.encode('utf-8')]. On a [str] Python 2 first decodes the bytes as
    ASCII, which raises on a byte above 127. *)
Definition encode_utf8 (t : text) : result string :=
  match t with
  | Str s => if all_ascii s then Ok s else Raise UnicodeDecodeError
  | Unicode u => Ok (of_bytes (flat_map utf8 u))
  end.

(** [t.lower()] *)
Definition text_lower (lib : Library) (t : text) : text :=
  match t with
  | Str s => Str (lower s)
  | Unicode u => Unicode (map (unicode_lower lib) u)
  end.

(** [t.split()] *)
Definition text_split (lib : Library) (t : text) : list text :=
  match t with
  | Str s => map Str (split s)
  | Unicode u => map Unicode (split_runs (unicode_isspace lib) u [])
  end.

(** [s.translate(string.maketrans('', ''), deletechars)]: the identity
    table, after the characters of [deletechars] are removed. *)
Definition translate_delete (deletechars : string) (s : string) : string :=
  of_bytes (List.filter (fun c => negb (existsb (Ascii.eqb c) (bytes deletechars)))
                   (bytes s)).

(** Tables that know ASCII only, for the places where a concrete [Library]
    is needed: on ASCII text they are the real tables, and the white-space
    split is what [shlex.split] returns on text without quotes, backslashes,
    VT or FF. *)
Definition ascii_library : Library :=
  {| unicode_lower := fun c => if (65 <=? c) && (c <=? 90) then c + 32 else c;
     unicode_isspace := fun c => ((9 <=? c) && (c <=? 13)) || (c =? 32);
     shlex_split := fun s => Some (split s) |}.

End Text.

(** ** The store of the bot: its objects and its surroundings *)

Module World.
Import Tasker Auth.

(** Objects are named by references. *)
Definition task_ref : Type := nat.
Definition user_ref : Type := nat.

(** A member dictionary that [chat.get_users()] returns: [_populate_users]
    reads [member['id']] and [member['name']] of each. *)
Record ChatUser := mk_ChatUser {
  u_id : string;
  u_name : string;
  (** [profile['first_name']], when both keys are there *)
  u_first_name : option string }.

(** A [User] object. [fsm_state] is the name of [self._fsm.state]: the
    machine that [__init__] builds is fixed except for its current state,
    so the store keeps the state's name and [User.user_fsm] rebuilds the
    machine from the same tables. *)
Record User := mk_User {
  _user : ChatUser;
  tasks : list task_ref;
  pending_task : option task_ref;
  auth : DuoAuth;
  _last_message : Util.Response;
  _last_auth : AUTH_STATES;
  _escalation_time : Util.datetime;
  fsm_state : string }.

Definition set_tasks (u : User) (ts : list task_ref) : User :=
  mk_User (_user u) ts (pending_task u) (auth u) (_last_message u) (_last_auth u)
          (_escalation_time u) (fsm_state u).
Definition set_pending_task (u : User) (p : option task_ref) : User :=
  mk_User (_user u) (tasks u) p (auth u) (_last_message u) (_last_auth u)
          (_escalation_time u) (fsm_state u).
Definition set_auth (u : User) (a : DuoAuth) : User :=
  mk_User (_user u) (tasks u) (pending_task u) a (_last_message u) (_last_auth u)
          (_escalation_time u) (fsm_state u).
Definition set_last_message (u : User) (r : Util.Response) : User :=
  mk_User (_user u) (tasks u) (pending_task u) (auth u) r (_last_auth u)
          (_escalation_time u) (fsm_state u).
Definition set_last_auth (u : User) (a : AUTH_STATES) : User :=
  mk_User (_user u) (tasks u) (pending_task u) (auth u) (_last_message u) a
          (_escalation_time u) (fsm_state u).
Definition set_escalation_time (u : User) (t : Util.datetime) : User :=
  mk_User (_user u) (tasks u) (pending_task u) (auth u) (_last_message u) (_last_auth u)
          t (fsm_state u).
Definition set_fsm_state (u : User) (s : string) : User :=
  mk_User (_user u) (tasks u) (pending_task u) (auth u) (_last_message u) (_last_auth u)
          (_escalation_time u) s.

(** The functions of commands.py, by name. *)
Inductive handler : Type :=
| fn_hi | fn_help | fn_add_to_blacklist | fn_remove_from_blacklist
| fn_positive_response | fn_negative_response | fn_ignore | fn_test
| fn_default.                 (* DEFAULT_COMMAND's lambda *)

Record Command := mk_Command {
  fn : handler;
  info : string;
  hidden : bool;
  usage : option (list string);
  success_msg : option string;
  failure_msg : option string }.

(** A message as sent: a template of messages.yaml with the values
    [str.format] is given, in the order the source gives them. *)
Inductive rendered : Type :=
| Plain (s : string)
| Format (template : string) (args : list string)
| Concat (a b : rendered).

Inductive recipient : Type :=
| ToUser (u : user_ref)       (* chat.message_user(user, ...) *)
| ToChannel (c : string).     (* chat.send_message(channel, ...) *)

(** The [SecurityBot] object. *)
Record Bot := mk_Bot {
  reporting_channel : option string;
  messages : gmap string string;
  commands : gmap string Command;
  users : gmap string user_ref;
  users_by_name : gmap string user_ref;
  active_users : gmap string user_ref;
  (** [SQLBlacklist._blacklist] *)
  _blacklist : gset string }.

Definition set_active_users (b : Bot) (a : gmap string user_ref) : Bot :=
  mk_Bot (reporting_channel b) (messages b) (commands b) (users b) (users_by_name b)
         a (_blacklist b).
Definition set__blacklist (b : Bot) (bl : gset string) : Bot :=
  mk_Bot (reporting_channel b) (messages b) (commands b) (users b) (users_by_name b)
         (active_users b) bl.

Record World := mk_World {
  (** surroundings *)
  utc_now : Z;                 (* datetime.now(tz=pytz.utc) *)
  local_now : Z;               (* datetime.now() *)
  LOCAL_TZ : Util.zone;
  duo : DuoClient;
  fresh_key : string;          (* binascii.hexlify(os.urandom(32)) *)
  lib : Text.Library;
  db : Database;
  chat_log : list (recipient * rendered);      (* oldest first *)
  (** objects *)
  task_objs : gmap task_ref Task;
  user_objs : gmap user_ref User;
  bot : Bot }.

Definition set_db (w : World) (d : Database) : World :=
  mk_World (utc_now w) (local_now w) (LOCAL_TZ w) (duo w) (fresh_key w) (lib w)
           d (chat_log w) (task_objs w) (user_objs w) (bot w).
Definition set_chat_log (w : World) (l : list (recipient * rendered)) : World :=
  mk_World (utc_now w) (local_now w) (LOCAL_TZ w) (duo w) (fresh_key w) (lib w)
           (db w) l (task_objs w) (user_objs w) (bot w).
Definition set_task_objs (w : World) (h : gmap task_ref Task) : World :=
  mk_World (utc_now w) (local_now w) (LOCAL_TZ w) (duo w) (fresh_key w) (lib w)
           (db w) (chat_log w) h (user_objs w) (bot w).
Definition set_user_objs (w : World) (h : gmap user_ref User) : World :=
  mk_World (utc_now w) (local_now w) (LOCAL_TZ w) (duo w) (fresh_key w) (lib w)
           (db w) (chat_log w) (task_objs w) h (bot w).
Definition set_bot (w : World) (b : Bot) : World :=
  mk_World (utc_now w) (local_now w) (LOCAL_TZ w) (duo w) (fresh_key w) (lib w)
           (db w) (chat_log w) (task_objs w) (user_objs w) b.

(** Reading and writing objects. A reference the store does not hold
    stands for [None]: using it is an [AttributeError]. *)
Definition the_user (self : user_ref) : M World User :=
  fun w => match user_objs w !! self with
           | Some u => (Ok u, w)
           | None => (Raise AttributeError, w)
           end.
Definition update_user (self : user_ref) (f : User -> User) : M World unit :=
  fun w => match user_objs w !! self with
           | Some u => (Ok tt, set_user_objs w (<[self := f u]> (user_objs w)))
           | None => (Raise AttributeError, w)
           end.
Definition the_task (t : option task_ref) : M World Task :=
  fun w => match t with
           | Some r => match task_objs w !! r with
                       | Some o => (Ok o, w)
                       | None => (Raise AttributeError, w)
                       end
           | None => (Raise AttributeError, w)
           end.
Definition update_task (t : option task_ref) (f : Task -> Task) : M World unit :=
  fun w => match t with
           | Some r => match task_objs w !! r with
                       | Some o => (Ok tt, set_task_objs w (<[r := f o]> (task_objs w)))
                       | None => (Raise AttributeError, w)
                       end
           | None => (Raise AttributeError, w)
           end.
Definition update_db (f : Database -> Database) : M World unit :=
  modify (fun w => set_db w (f (db w))).

(** [self.messages[key]] *)
Definition message (key : string) : M World string :=
  fun w => match messages (bot w) !! key with
           | Some m => (Ok m, w)
           | None => (Raise KeyError, w)
           end.
Definition chat_send (to : recipient) (m : rendered) : M World unit :=
  modify (fun w => set_chat_log w (chat_log w ++ [(to, m)])).

(** [task.set_verifying()], [task.set_in_progress()] on a task object *)
Definition task_set_verifying (t : option task_ref) : M World unit :=
  (o <- the_task t ;; update_db (set_verifying o))%py.
Definition task_set_in_progress (t : option task_ref) : M World unit :=
  (o <- the_task t ;; update_db (set_in_progress o))%py.

End World.

(** ** securitybot/user.py *)

Module User.
Import Tasker Auth World.
Local Open Scope Z_scope.

Definition ESCALATION_TIME : Util.timedelta := Util.hours 2.
Definition BACKOFF_TIME : Util.timedelta := Util.hours 21.

(** [datetime.max.replace(tzinfo=pytz.utc)] *)
Definition datetime_max_utc : Util.datetime :=
  {| Util.wall := Util.days_from_civil 9999 12 31 * Util.DAY + Util.DAY - 1;
     Util.tzinfo := Some Util.pytz_utc |}.

(** [self['name']], [self['id']] *)
Definition user_name (self : user_ref) : M World string :=
  u <- the_user self ;; ret (u_name (_user u)).
Definition user_id (self : user_ref) : M World string :=
  u <- the_user self ;; ret (u_id (_user u)).

(** [get_name]: the first name when the profile has a non-empty one. *)
Definition get_name (self : user_ref) : M World string :=
  u <- the_user self ;;
  match u_first_name (_user u) with
  | Some f => if String.eqb f "" then ret (u_name (_user u)) else ret f
  | None => ret (u_name (_user u))
  end.

(** [send_message(key)] *)
Definition send_message (self : user_ref) (key : string) : M World unit :=
  m <- message key ;; chat_send (ToUser self) (Plain m).

(** The two methods of the parent bot that a session calls (bot.py).

    [SecurityBot.alert_user(user, task)] *)
Definition alert_user (user : user_ref) (task : option task_ref) : M World unit :=
  t <- the_task task ;;
  let reason :=
    Text.join Text.newline (map (fun s => ">" +:+ s) (Text.split_on (Text.chr 10) (reason t))) in
  alert <- message "alert" ;;
  prompt <- message "action_prompt" ;;
  chat_send (ToUser user)
    (Concat (Format alert [description t; reason]) (Concat (Plain Text.newline) (Plain prompt))).

(** [SecurityBot.cleanup_user(user)]: [self.active_users.pop(user['id'], None)] *)
Definition cleanup_user (user : user_ref) : M World unit :=
  i <- user_id user ;;
  modify (fun w => set_bot w (set_active_users (bot w) (delete i (active_users (bot w))))).

(** *** Authorization methods *)

Definition begin_auth (self : user_ref) : M World unit :=
  send_message self "sending_push" ;;;
  u <- the_user self ;;
  t <- the_task (pending_task u) ;;
  client <- gets duo ;;
  update_user self (fun u => set_auth u (Auth.auth client (Some (description t)) (auth u))).

Definition auth_status (self : user_ref) : M World AUTH_STATES :=
  u <- the_user self ;;
  client <- gets duo ;;
  now <- gets local_now ;;
  let '(r, a) := Auth.auth_status client now (auth u) in
  update_user self (fun u => set_auth u a) ;;;
  ret r.

Definition reset_auth (self : user_ref) : M World unit :=
  update_user self (fun u => set_auth u (Auth.reset (auth u))).

Definition _update_auth (self : user_ref) : M World unit :=
  r <- auth_status self ;;
  update_user self (fun u => set_last_auth u r).

(** *** State conditions *)

Definition _has_tasks (self : user_ref) : M World bool :=
  u <- the_user self ;; ret (negb (Nat.eqb (length (tasks u)) 0)).

(** [self._last_message.answer is True] *)
Definition _performed_action (self : user_ref) : M World bool :=
  u <- the_user self ;;
  ret (match Util.answer (_last_message u) with Some true => true | _ => false end).

Definition _already_authed (self : user_ref) : M World bool :=
  p <- _performed_action self ;;
  if p then (r <- auth_status self ;; ret (bool_decide (r = AUTHORIZED)))
  else ret false.

Definition _cannot_2fa (self : user_ref) : M World bool :=
  p <- _performed_action self ;;
  if p then
    (u <- the_user self ;; client <- gets duo ;; ret (negb (Auth.can_auth client (auth u))))
  else ret false.

Definition _did_not_perform_action (self : user_ref) : M World bool :=
  u <- the_user self ;;
  ret (match Util.answer (_last_message u) with Some false => true | _ => false end).

(** [datetime.now(tz=pytz.utc) > self._escalation_time] *)
Definition _slow_response_time (self : user_ref) : M World bool :=
  u <- the_user self ;;
  now <- gets utc_now ;;
  ret (Util.utc_instant (_escalation_time u) <? now).

Definition _allows_authorization (self : user_ref) : M World bool :=
  u <- the_user self ;;
  ret (match Util.answer (_last_message u) with Some true => true | _ => false end).

Definition _denies_authorization (self : user_ref) : M World bool :=
  u <- the_user self ;;
  ret (match Util.answer (_last_message u) with Some false => true | _ => false end).

Definition _auth_completed (self : user_ref) : M World bool :=
  u <- the_user self ;;
  ret (bool_decide (_last_auth u = AUTHORIZED) || bool_decide (_last_auth u = DENIED)).

(** *** State actions *)

Definition _auto_escalate (self : user_ref) : M World unit :=
  u <- the_user self ;;
  _ <- the_task (pending_task u) ;;           (* the log line reads its description *)
  update_task (pending_task u)
    (fun t => set_comment t (comment t +:+ "Automatically escalated. No response received.")) ;;;
  task_set_verifying (pending_task u) ;;;
  update_user self (fun u => set_escalation_time u datetime_max_utc) ;;;
  send_message self "no_response".

Definition _act_on_not_performed (self : user_ref) : M World unit :=
  send_message self "escalated" ;;;
  channel <- gets (fun w => reporting_channel (bot w)) ;;
  match channel with
  | None => ret tt
  | Some ch =>
      u <- the_user self ;;
      let comment :=
        if String.eqb (Util.text (_last_message u)) "" then "No comment provided."
        else Util.text (_last_message u) in
      let comment :=
        Text.join Text.newline
          (map (fun s => "> " +:+ s) (Text.split_on (Text.chr 10) comment)) in
      report <- message "report" ;;
      t <- the_task (pending_task u) ;;
      chat_send (ToChannel ch)
        (Format report [u_name (_user u); title t; description t; comment; url t])
  end.

(** *** Exit actions *)

Definition _reset_message (self : user_ref) : M World unit :=
  update_user self (fun u => set_last_message u (Util.tuple_builder None None)).

Definition _update_task_response (self : user_ref) : M World unit :=
  u <- the_user self ;;
  match Util.answer (_last_message u) with
  | Some a =>
      update_task (pending_task u) (fun t => set_performed t a) ;;;
      update_task (pending_task u) (fun t => set_comment t (Util.text (_last_message u)))
  | None => ret tt
  end ;;;
  _reset_message self.

Definition _update_task_auth (self : user_ref) : M World unit :=
  u <- the_user self ;;
  if bool_decide (_last_auth u = AUTHORIZED) then
    send_message self "good_auth" ;;;
    update_task (pending_task u) (fun t => set_authenticated t true)
  else
    send_message self "bad_auth" ;;;
    reset_auth self ;;;
    update_task (pending_task u) (fun t => set_authenticated t false).

(** *** Task methods *)

(** The loop of [_update_tasks]: the tasks kept, in order. *)
Fixpoint sweep (ignored : gmap string string) (ts : list task_ref)
    : M World (list task_ref) :=
  match ts with
  | [] => ret []
  | task :: rest =>
      t <- the_task (Some task) ;;
      match ignored !! title t with
      | Some why =>
          update_task (Some task) (fun t => set_comment t why) ;;;
          task_set_verifying (Some task) ;;;
          sweep ignored rest
      | None =>
          cleaned <- sweep ignored rest ;;
          ret (task :: cleaned)
      end
  end.

Definition _update_tasks (self : user_ref) : M World unit :=
  u <- the_user self ;;
  now <- gets utc_now ;;
  d <- gets db ;;
  let '(ignored, d') := get_ignored (now / Util.SECOND) (u_name (_user u)) d in
  update_db (fun _ => d') ;;;
  cleaned_tasks <- sweep ignored (tasks u) ;;
  update_user self (fun u => set_tasks u cleaned_tasks).

Definition add_task (self : user_ref) (task : task_ref) : M World unit :=
  update_user self (fun u => set_tasks u (tasks u ++ [task])) ;;;
  _update_tasks self.

Definition _next_task (self : user_ref) : M World unit :=
  u <- the_user self ;;
  match tasks u with
  | [] => raise IndexError                     (* pop from empty list *)
  | first :: rest =>
      update_user self (fun u => set_pending_task (set_tasks u rest) (Some first)) ;;;
      alert_user self (Some first) ;;;
      _reset_message self ;;;
      now <- gets utc_now ;;
      z <- gets LOCAL_TZ ;;
      match Util.get_expiration_time z (Util.mk_datetime now (Some Util.pytz_utc))
                                     ESCALATION_TIME with
      | Ok t => update_user self (fun u => set_escalation_time u t)
      | Raise e => raise e
      end
  end.

Definition _complete_task (self : user_ref) : M World unit :=
  u <- the_user self ;;
  t <- the_task (pending_task u) ;;
  (if performed t then
     now <- gets utc_now ;;
     update_db (ignore_task now (u_name (_user u)) (title t)
                            "auto backoff after confirmation" BACKOFF_TIME)
   else ret tt) ;;;
  task_set_verifying (pending_task u) ;;;
  update_user self (fun u => set_pending_task u None) ;;;
  _reset_message self ;;;
  _update_tasks self ;;;
  u <- the_user self ;;
  match tasks u with
  | _ :: _ => send_message self "bwtm"
  | [] => send_message self "bye" ;;; cleanup_user self
  end.

(** *** Message methods *)

Definition positive_response (self : user_ref) (text : string) : M World unit :=
  update_user self (fun u => set_last_message u (Util.tuple_builder (Some true) (Some text))).
Definition negative_response (self : user_ref) (text : string) : M World unit :=
  update_user self (fun u => set_last_message u (Util.tuple_builder (Some false) (Some text))).

(** *** The state hierarchy of [__init__] *)

Definition states : list string :=
  ["need_task"; "action_performed_check"; "auth_permission_check"; "waiting_on_auth";
   "task_finished"].

Definition transitions (self : user_ref) : list (StateMachine.transition_dict World) :=
  [ (* Handle new tasks *)
    StateMachine.mk_transition_dict "need_task" "action_performed_check"
      (Some (_has_tasks self)) None;
    (* Finish task if user says action was performed and recently authorized *)
    StateMachine.mk_transition_dict "action_performed_check" "task_finished"
      (Some (_already_authed self)) None;
    (* Finish task if user says action was performed and no 2FA capability exists *)
    StateMachine.mk_transition_dict "action_performed_check" "task_finished"
      (Some (_cannot_2fa self)) (Some (send_message self "no_2fa"));
    (* Ask for 2FA if user says action was performed and can do 2FA *)
    StateMachine.mk_transition_dict "action_performed_check" "auth_permission_check"
      (Some (_performed_action self)) None;
    (* Finish task if user says action wasn't performed *)
    StateMachine.mk_transition_dict "action_performed_check" "task_finished"
      (Some (_did_not_perform_action self)) (Some (_act_on_not_performed self));
    (* Silently escalate and wait after some time goes by *)
    StateMachine.mk_transition_dict "action_performed_check" "task_finished"
      (Some (_slow_response_time self)) (Some (_auto_escalate self));
    (* Perform 2FA if permission is granted *)
    StateMachine.mk_transition_dict "auth_permission_check" "waiting_on_auth"
      (Some (_allows_authorization self)) None;
    (* Don't perform 2FA if permission is not granted *)
    StateMachine.mk_transition_dict "auth_permission_check" "task_finished"
      (Some (_denies_authorization self)) (Some (send_message self "escalated"));
    (* Silently escalate and wait after some time goes by again *)
    StateMachine.mk_transition_dict "auth_permission_check" "task_finished"
      (Some (_slow_response_time self)) (Some (_auto_escalate self));
    (* Wait for authorization response then finish the task *)
    StateMachine.mk_transition_dict "waiting_on_auth" "task_finished"
      (Some (_auth_completed self)) None;
    (* Go to the first needed task, possibly quitting, when task is completed *)
    StateMachine.mk_transition_dict "task_finished" "need_task" None None ].

Definition during (self : user_ref) : gmap string (M World unit) :=
  {[ "waiting_on_auth"%string := _update_auth self ]}.

Definition on_enter (self : user_ref) : gmap string (M World unit) :=
  <["auth_permission_check"%string := send_message self "2fa"]>
  (<["waiting_on_auth"%string := begin_auth self]> ∅).

Definition on_exit (self : user_ref) : gmap string (M World unit) :=
  <["need_task"%string := _next_task self]>
  (<["action_performed_check"%string := _update_task_response self]>
  (<["auth_permission_check"%string := _reset_message self]>
  (<["waiting_on_auth"%string := _update_task_auth self]>
  (<["task_finished"%string := _complete_task self]> ∅)))).

(** [self._fsm = StateMachine(states, transitions, 'need_task', ...)] *)
Definition user_fsm (self : user_ref) : result (StateMachine.StateMachine World) :=
  StateMachine.new states (transitions self) "need_task"
                   (during self) (on_enter self) (on_exit self).

(** [User.__init__(user, auth, parent)]: the object, in state [need_task]. *)
Definition new (user : ChatUser) (auth : DuoAuth) : User :=
  mk_User user [] None auth (Util.tuple_builder None None) NONE datetime_max_utc "need_task".

(** [step]: [self._fsm.step()], the machine being [user_fsm self] in the
    state the object holds; the state it ends in is written back. *)
Definition step (self : user_ref) : M World unit :=
  fun w =>
    match user_objs w !! self, user_fsm self with
    | Some u, Ok m =>
        match StateMachine._states m !! fsm_state u with
        | Some st =>
            let '(r, (m', w')) := StateMachine.step (StateMachine.set_state m st, w) in
            let w'' :=
              match user_objs w' !! self with
              | Some u' =>
                  set_user_objs w'
                    (<[self := set_fsm_state u' (StateMachine.name (StateMachine.state m'))]>
                       (user_objs w'))
              | None => w'
              end in
            (r, w'')
        | None => (Raise KeyError, w)
        end
    | None, _ => (Raise AttributeError, w)
    | _, Raise e => (Raise e, w)
    end.

End User.

(** ** securitybot/commands.py *)

Module Commands.
Import Tasker Auth World.
Local Open Scope Z_scope.

(** [bot.chat.message_user(user, bot.messages[key])] *)
Definition tell (user : user_ref) (key : string) : M World unit :=
  m <- message key ;; chat_send (ToUser user) (Plain m).

Definition hi (user : user_ref) (args : list string) : M World (option bool) :=
  m <- message "hi" ;;
  n <- User.get_name user ;;
  chat_send (ToUser user) (Format m [n]) ;;;
  ret None.

(** [sorted(bot.commands.items())]: insertion into a list ordered by name. *)
Fixpoint insert_sorted (x : string * Command) (l : list (string * Command))
    : list (string * Command) :=
  match l with
  | [] => [x]
  | y :: l' => if String.leb (fst x) (fst y) then x :: y :: l' else y :: insert_sorted x l'
  end.
Definition sorted_items (m : gmap string Command) : list (string * Command) :=
  foldr insert_sorted [] (map_to_list m).

(** [help]: the header, one entry per listed command (its name and info,
    then its usage lines when it has some), and the footer. *)
Definition help (user : user_ref) (args : list string) : M World (option bool) :=
  header <- message "help_header" ;;
  cmds <- gets (fun w => commands (bot w)) ;;
  let listed :=
    List.filter (fun kv => negb (hidden (snd kv)) || existsb (String.eqb "-a") args)
                (sorted_items cmds) in
  entries <-
    (fix go (l : list (string * Command)) : M World rendered :=
       match l with
       | [] => ret (Plain "")
       | (name, c) :: l' =>
           let line := Format ("`{0}`: {1}" +:+ Text.newline) [name; info c] in
           this <-
             match usage c with
             | Some (u :: us) =>
                 hu <- message "help_usage" ;;
                 ret (Concat line
                        (Format ("> {0}:" +:+ Text.newline +:+ "{1}" +:+ Text.newline)
                           [hu; Text.join Text.newline
                                  (map (fun s => "> " +:+ String (Text.chr 9) s) (u :: us))]))
             | _ => ret line
             end ;;
           others <- go l' ;;
           ret (Concat this others)
       end) listed ;;
  footer <- message "help_footer" ;;
  chat_send (ToUser user) (Concat (Format ("{0}" +:+ Text.newline +:+ Text.newline) [header]) (Concat entries (Plain footer))) ;;;
  ret None.

(** [SQLBlacklist.add], [SQLBlacklist.remove]; an [INSERT] of a name the
    table holds fails on its primary key. *)
Definition blacklist_add (name : string) : M World unit :=
  modify (fun w => set_bot w (set__blacklist (bot w) ({[name]} ∪ _blacklist (bot w)))) ;;;
  d <- gets db ;;
  if bool_decide (name ∈ blacklist d)
  then raise (SQLEngineException (SQL.error_message ["1062"; "Duplicate entry"]))
  else update_db (fun d => set_blacklist d ({[name]} ∪ blacklist d)).
Definition blacklist_remove (name : string) : M World unit :=
  bl <- gets (fun w => _blacklist (bot w)) ;;
  if bool_decide (name ∈ bl) then
    modify (fun w => set_bot w (set__blacklist (bot w) (_blacklist (bot w) ∖ {[name]}))) ;;;
    update_db (fun d => set_blacklist d (blacklist d ∖ {[name]}))
  else raise KeyError.

Definition add_to_blacklist (user : user_ref) (args : list string) : M World (option bool) :=
  name <- User.user_name user ;;
  bl <- gets (fun w => _blacklist (bot w)) ;;
  if negb (bool_decide (name ∈ bl)) then blacklist_add name ;;; ret (Some true)
  else ret (Some false).

Definition remove_from_blacklist (user : user_ref) (args : list string)
    : M World (option bool) :=
  name <- User.user_name user ;;
  bl <- gets (fun w => _blacklist (bot w)) ;;
  if bool_decide (name ∈ bl) then blacklist_remove name ;;; ret (Some true)
  else ret (Some false).

Definition positive_response (user : user_ref) (args : list string) : M World (option bool) :=
  User.positive_response user (Text.join " " args) ;;; ret None.
Definition negative_response (user : user_ref) (args : list string) : M World (option bool) :=
  User.negative_response user (Text.join " " args) ;;; ret None.

(** [TIME_REGEX = re.compile(r'([0-9]+h)?([0-9]+m)?', flags=re.IGNORECASE)] *)
Definition is_digit (c : ascii) : bool := (48 <=? Text.code c) && (Text.code c <=? 57).

Fixpoint span_digits (l : list ascii) : list ascii * list ascii :=
  match l with
  | c :: l' => if is_digit c then let '(ds, rest) := span_digits l' in (c :: ds, rest)
               else ([], l)
  | [] => ([], [])
  end.

(** One group [([0-9]+x)?] at the head of [l]: the group's text, when it
    takes part in the match, and what follows it. *)
Definition optional_group (letter : ascii) (l : list ascii)
    : option (list ascii) * list ascii :=
  match span_digits l with
  | (d :: ds, c :: rest) =>
      if Ascii.eqb (Text.lower_byte c) letter then (Some (d :: ds ++ [c]), rest) else (None, l)
  | _ => (None, l)
  end.

Record match_object := mk_match {
  group1 : option (list ascii);
  group2 : option (list ascii) }.

(** [TIME_REGEX.match(time)]: both groups are optional, so there is always
    a match at the start of the string. *)
Definition TIME_REGEX_match (time : string) : option match_object :=
  let '(g1, rest) := optional_group "h"%char (Text.bytes time) in
  let '(g2, _) := optional_group "m"%char rest in
  Some (mk_match g1 g2).

(** [int(s)] for a string of digits. *)
Definition int_of_digits (ds : list ascii) : Z :=
  fold_left (fun acc c => 10 * acc + (Text.code c - 48)) ds 0.
(** [int(group[:-1])]: the trailing letter is snipped off. *)
Definition group_value (g : option (list ascii)) : Z :=
  match g with
  | Some l => int_of_digits (removelast l)
  | None => 0
  end.

Definition OUTATIME : Util.timedelta := 0.
Definition TIME_LIMIT : Util.timedelta := Util.hours 4.

(** [timedelta(hours=h, minutes=m)]: a timedelta holds at most 999999999
    days. *)
Definition timedelta_hm (h m : Z) : result Util.timedelta :=
  let d := Util.hours h + Util.minutes m in
  if (d / Util.DAY <=? 999999999) && (-999999999 <=? d / Util.DAY) then Ok d
  else Raise OverflowError.

(** [ignore(bot, user, args)]. The [User] class defines no [old_tasks]
    attribute (user.py, [__init__]) and no [__getattr__], so reading
    [user.old_tasks] is an [AttributeError]. *)
Definition ignore (user : user_ref) (args : list string) : M World (option bool) :=
  match args with
  | [which; time] =>
      u <- the_user user ;;
      task <-
        (if String.eqb which "last" then raise AttributeError      (* user.old_tasks *)
         else if String.eqb which "current" then ret (pending_task u)
         else ret None) ;;
      match task with
      | None => ret (Some false)
      | Some task =>
          match TIME_REGEX_match time with
          | None => raise AttributeError                       (* match.group(0) on None *)
          | Some m =>
              let hours := group_value (group1 m) in
              let minutes := group_value (group2 m) in
              match timedelta_hm hours minutes with
              | Raise e => raise e
              | Ok ignoretime =>
                  if TIME_LIMIT <? ignoretime then
                    tell user "ignore_time" ;;;
                    t <- the_task (Some task) ;;
                    now <- gets utc_now ;;
                    update_db (ignore_task now (u_name (_user u)) (title t) "ignored" TIME_LIMIT) ;;;
                    ret (Some true)
                  else if ignoretime <=? OUTATIME then
                    tell user "ignore_no_time" ;;;
                    ret (Some false)
                  else
                    t <- the_task (Some task) ;;
                    now <- gets utc_now ;;
                    update_db (ignore_task now (u_name (_user u)) (title t) "ignored" ignoretime) ;;;
                    ret (Some true)
              end
          end
      end
  | _ => ret (Some false)
  end.

(** [create_new_alert(title, ldap, description, reason, url='N/A', key=None)]
    (util.py): three [INSERT]s; the first fails when the key is taken. *)
Definition create_new_alert (title ldap description reason : string) : M World unit :=
  key <- gets fresh_key ;;
  now <- gets utc_now ;;
  d <- gets db ;;
  match alerts d !! key with
  | Some _ => raise (SQLEngineException (SQL.error_message ["1062"; "Duplicate entry"]))
  | None =>
      update_db (fun d =>
        mk_Database (<[key := mk_alert_row ldap title description reason "N/A" now]> (alerts d))
                    (alert_status d) (user_responses d) (ignored d) (blacklist d)) ;;;
      d <- gets db ;;
      match user_responses d !! key with
      | Some _ => raise (SQLEngineException (SQL.error_message ["1062"; "Duplicate entry"]))
      | None =>
          update_db (fun d => set_user_responses d
                      (<[key := mk_response_row "" false false]> (user_responses d))) ;;;
          d <- gets db ;;
          match alert_status d !! key with
          | Some _ => raise (SQLEngineException (SQL.error_message ["1062"; "Duplicate entry"]))
          | None => update_db (fun d => set_alert_status d (<[key := 0]> (alert_status d)))
          end
      end
  end.

Definition test (user : user_ref) (args : list string) : M World (option bool) :=
  name <- User.user_name user ;;
  create_new_alert "testing_alert" name "Testing alert" "Testing Securitybot" ;;;
  ret (Some true).

(** [cmd['fn'](bot, user, args)] *)
Definition call (f : handler) (user : user_ref) (args : list string) : M World (option bool) :=
  match f with
  | fn_hi => hi user args
  | fn_help => help user args
  | fn_add_to_blacklist => add_to_blacklist user args
  | fn_remove_from_blacklist => remove_from_blacklist user args
  | fn_positive_response => positive_response user args
  | fn_negative_response => negative_response user args
  | fn_ignore => ignore user args
  | fn_test => test user args
  | fn_default => ret None
  end.

End Commands.

(** ** securitybot/bot.py *)

Module Bot.
Import Tasker Auth World Text.
Local Open Scope Z_scope.

(** [clean_input(text)]: smart quotes and dashes are replaced, then the
    text is encoded. [str.replace] with a [unicode] argument first decodes
    a [str] as ASCII. *)
Definition decode_ascii (t : text) : result (list Z) :=
  match t with
  | Str s => if all_ascii s then Ok (map code (bytes s)) else Raise UnicodeDecodeError
  | Unicode u => Ok u
  end.
Definition replace_smart (c : Z) : list Z :=
  if (c =? 8216) || (c =? 8217) then [39]          (* U+2018, U+2019: ' *)
  else if (c =? 8220) || (c =? 8221) then [34]     (* U+201C, U+201D: double quote *)
  else if (c =? 8211) || (c =? 8212) then [45; 45] (* U+2013, U+2014: -- *)
  else [c].
Definition clean_input (t : text) : result string :=
  match decode_ascii t with
  | Raise e => Raise e
  | Ok u => encode_utf8 (Unicode (flat_map replace_smart u))
  end.

(** [PUNCTUATION]: full stop, comma, exclamation mark, question mark,
    apostrophe, double quote and backquote. *)
Definition PUNCTUATION : string :=
  of_bytes [chr 46; chr 44; chr 33; chr 63; chr 39; chr 34; chr 96].

(** [clean_command(command)] *)
Definition clean_command (lib : Library) (command : text) : result string :=
  let command := text_lower lib command in
  (* Force to str *)
  match encode_utf8 command with
  | Raise e => Raise e
  | Ok command =>
      (* Remove punctuation *)
      Ok (translate_delete PUNCTUATION command)
  end.

Definition lift_result {A} (r : result A) : M World A :=
  match r with Ok a => ret a | Raise e => raise e end.

(** [is_command(command)]: [clean_command(command.split()[0]) in self.commands] *)
Definition is_command (command : text) : M World bool :=
  l <- gets lib ;;
  match text_split l command with
  | [] => raise IndexError                    (* list index out of range *)
  | first :: _ =>
      key <- lift_result (clean_command l first) ;;
      cmds <- gets (fun w => commands (bot w)) ;;
      ret (bool_decide (is_Some (cmds !! key)))
  end.

(** [parse_command(command)] *)
Definition parse_command (command : text) : M World (string * list string) :=
  l <- gets lib ;;
  command <- lift_result (clean_input command) ;;
  let split := match shlex_split l command with
               | Some tokens => tokens
               | None => Text.split command   (* Fall back to naive method *)
               end in
  match split with
  | [] => raise IndexError
  | first :: rest =>
      key <- lift_result (clean_command l (Str first)) ;;
      ret (key, rest)
  end.

(** [user_lookup(id)], [user_lookup_by_name(username)] *)
Definition user_lookup (id : string) : M World user_ref :=
  us <- gets (fun w => users (bot w)) ;;
  match us !! id with
  | Some u => ret u
  | None => raise SecurityBotException
  end.
Definition user_lookup_by_name (username : string) : M World user_ref :=
  us <- gets (fun w => users_by_name (bot w)) ;;
  match us !! username with
  | Some u => ret u
  | None => raise SecurityBotException
  end.

(** [if s:] for an optional string *)
Definition nonempty (s : option string) : option string :=
  match s with
  | Some x => if String.eqb x "" then None else Some x
  | None => None
  end.

(** [handle_command(user, command)] *)
Definition handle_command (user : user_ref) (command : text) : M World unit :=
  parsed <- parse_command command ;;
  let '(key, args) := parsed in
  _ <- User.user_name user ;;                       (* the log line *)
  cmds <- gets (fun w => commands (bot w)) ;;
  match cmds !! key with
  | None => raise KeyError
  | Some cmd =>
      r <- Commands.call (fn cmd) user args ;;
      match r with
      | Some true =>
          match nonempty (success_msg cmd) with
          | Some m => chat_send (ToUser user) (Plain m)
          | None => ret tt
          end
      | _ =>
          match nonempty (failure_msg cmd) with
          | Some m => chat_send (ToUser user) (Plain m)
          | None => ret tt
          end
      end
  end.

(** [handle_messages()], on the messages [chat.get_messages()] returned:
    each is the sender's id and the text. *)
Definition handle_message (message : string * text) : M World unit :=
  let '(user_id, text) := message in
  user <- user_lookup user_id ;;
  c <- is_command text ;;
  if c then handle_command user text
  else Commands.tell user "bad_command".

Definition handle_messages (messages : list (string * text)) : M World unit :=
  for_each messages handle_message.

(** [valid_user(username)] *)
Definition valid_user (username : string) : M World bool :=
  if negb (Nat.eqb (length (Text.split username)) 1) then ret false
  else
    fun w => match user_lookup_by_name username w with
             | (Ok _, w') => (Ok true, w')
             | (Raise SecurityBotException, w') => (Ok false, w')
             | (Raise e, w') => (Raise e, w')
             end.

(** [greet_user(user)] *)
Definition greet_user (user : user_ref) : M World unit :=
  m <- message "greeting" ;;
  n <- User.get_name user ;;
  chat_send (ToUser user) (Format m [n]).

(** [_add_task(task)] *)
Definition _add_task (task : task_ref) : M World unit :=
  t <- the_task (Some task) ;;
  let username := Tasker.username t in
  v <- valid_user username ;;
  if v then
    (* Ignore blacklisted users *)
    bl <- gets (fun w => _blacklist (bot w)) ;;
    if bool_decide (username ∈ bl) then
      update_task (Some task) (fun t => set_comment t "blacklisted") ;;;
      task_set_verifying (Some task)
    else
      user <- user_lookup_by_name username ;;
      user_id <- User.user_id user ;;
      act <- gets (fun w => active_users (bot w)) ;;
      match act !! user_id with
      | None =>
          modify (fun w => set_bot w (set_active_users (bot w)
                                        (<[user_id := user]> (active_users (bot w))))) ;;;
          greet_user user
      | Some _ => ret tt
      end ;;;
      User.add_task user task ;;;
      task_set_in_progress (Some task)
  else
    (* Escalate if no valid user is found *)
    update_task (Some task) (fun t => set_comment t "invalid user") ;;;
    task_set_verifying (Some task).

(** [handle_new_tasks()] and [recover_in_progress_tasks()], on the tasks
    the tasker returned. *)
Definition handle_new_tasks (new_tasks : list task_ref) : M World unit :=
  for_each new_tasks _add_task.
Definition recover_in_progress_tasks (active_tasks : list task_ref) : M World unit :=
  for_each active_tasks _add_task.

(** [handle_users()]: the keys are listed first, then each user is looked
    up again and stepped. *)
Definition handle_users : M World unit :=
  act <- gets (fun w => active_users (bot w)) ;;
  for_each (map fst (map_to_list act))
    (fun user_id =>
       act <- gets (fun w => active_users (bot w)) ;;
       match act !! user_id with
       | Some user => User.step user
       | None => raise KeyError
       end).

End Bot.

(** * The vocabulary of the statements, and concrete scenarios *)

Module UtilSpec.
Import Util.
Local Open Scope Z_scope.

(** [start] as [get_expiration_time] reads it: a naive one is taken as UTC. *)
Definition aware (start : datetime) : datetime :=
  match tzinfo start with
  | None => replace_tzinfo start pytz_utc
  | Some _ => start
  end.

(** The datetime [t + d] is, where the sum is one. *)
Definition shifted (t : datetime) (d : timedelta) : datetime :=
  {| wall := wall t + d; tzinfo := tzinfo t |}.
Definition representable (t : datetime) : bool := in_range (wall t).

(** The candidates of the loop: 10:00 on the day after [start]'s, and the
    same hour [k] days on, on the clock of the zone object itself. *)
Definition morning (z : zone) (start : datetime) (k : nat) : datetime :=
  {| wall := (wall start / DAY + 1 + Z.of_nat k) * DAY + OPENING_HOUR * HOUR;
     tzinfo := Some (zone_default z) |}.

Definition weekend (t : datetime) : bool := 5 <? isoweekday t.

(** Python refuses a tzinfo whose offset is a day or more. *)
Definition bounded_offsets (z : zone) : Prop :=
  - DAY < utcoffset (zone_default z) < DAY
  /\ forall u, - DAY < utcoffset (zone_fromutc z u) < DAY.

End UtilSpec.

Module StateMachineSpec.
Import StateMachine.
Section Spec.
Context {W : Type}.
(** The arguments of the constructor. *)
Variable transitions : list (transition_dict W).
Variables during_ on_enter_ on_exit_ : gmap string (M W unit).

(** The callable filed under a state's name, or nothing to do. *)
Definition hook (h : gmap string (M W unit)) (n : string) : M W unit :=
  default (ret tt) (h !! n).
(** A declared transition's condition, true when it has none, and its
    action. *)
Definition guard (t : transition_dict W) : M W bool := default (ret true) (d_condition t).
Definition effect (t : transition_dict W) : M W unit := default (ret tt) (d_action t).

(** The transitions declared with source [n], in declaration order. *)
Definition declared_from (n : string) : list (transition_dict W) :=
  List.filter (fun t => String.eqb (d_source t) n) transitions.

(** The conditions are examined in order; the first that returns true
    names the transition to take. *)
Fixpoint first_enabled (ts : list (transition_dict W)) : M W (option (transition_dict W)) :=
  match ts with
  | [] => ret None
  | t :: rest => (c <- guard t ;; if c then ret (Some t) else first_enabled rest)%py
  end.

(** The step of the specification, on the name of the current state and
    the callbacks' store. *)
Definition in_world {A} (c : M W A) : M (string * W) A :=
  fun s => let '(r, w') := c (snd s) in (r, (fst s, w')).

Definition take (t : transition_dict W) (cur : string) : M (string * W) unit :=
  (in_world (effect t) ;;;
   in_world (hook on_exit_ cur) ;;;
   modify (fun s => (d_dest t, snd s)) ;;;
   in_world (hook on_enter_ (d_dest t)))%py.

Definition choose_and_take (ts : list (transition_dict W)) (cur : string)
    : M (string * W) unit :=
  (chosen <- in_world (first_enabled ts) ;;
   match chosen with
   | Some t => take t cur
   | None => ret tt
   end)%py.

Definition step_spec : M (string * W) unit :=
  (cur <- gets fst ;;
   in_world (hook during_ cur) ;;;
   choose_and_take (declared_from cur) cur)%py.

(** The state object the constructor makes for the name [n], and the
    transition object it makes for a declaration. *)
Definition state_of (n : string) : State W :=
  mk_State n (during_ !! n) (on_enter_ !! n) (on_exit_ !! n).
Definition transition_of (t : transition_dict W) : Transition W :=
  mk_Transition (state_of (d_source t)) (state_of (d_dest t)) (d_condition t) (d_action t).

End Spec.
End StateMachineSpec.

(** tests/state_machine_test.py: [Helper], and the machines of
    [test_simple_condition] and of a step that logs its callbacks. *)
Module StateMachineTests.
Import StateMachine.

(** [Helper]: the store is [x]. *)
Definition increment : M nat unit := modify S.
Definition x_is_five : M nat bool := gets (fun x => Nat.eqb x 5).

Definition simple_condition : result (StateMachine nat) :=
  new ["one"; "two"]
      [ mk_transition_dict "one" "two" (Some x_is_five) None;
        mk_transition_dict "two" "one" None None ]
      "one" {[ "one"%string := increment ]} ∅ ∅.

(** Every callback appends its name to the store. *)
Definition say (s : string) : M (list string) unit := modify (fun l => l ++ [s]).
Definition logged : result (StateMachine (list string)) :=
  new ["one"; "two"]
      [ mk_transition_dict "one" "two" (Some (say "first condition" ;;; ret false)%py)
                           (Some (say "first action"));
        mk_transition_dict "two" "one" None (Some (say "back"));
        mk_transition_dict "one" "two" None (Some (say "second action"));
        mk_transition_dict "one" "one" None (Some (say "third action")) ]
      "one"
      (<["one"%string := say "during one"]> (<["two"%string := say "during two"]> ∅))
      (<["one"%string := say "enter one"]> (<["two"%string := say "enter two"]> ∅))
      (<["one"%string := say "exit one"]> (<["two"%string := say "exit two"]> ∅)).

(** Steps of a constructed machine. *)
Definition run_steps {W} (n : nat) (m : result (StateMachine W)) (w : W)
    : option (string * W) :=
  match m with
  | Ok m => let '(_, (m', w')) := Nat.iter n (fun s => step (snd s)) (Ok tt, (m, w)) in
            Some (name (state m'), w')
  | Raise _ => None
  end.

End StateMachineTests.

Module SQLSpec.
Import SQL.

(** The errors the first [except] clause catches: [AttributeError] and
    [MySQLdb.OperationalError]. *)
Definition is_transport (a : attempt) : bool :=
  match a with
  | Failed AttributeError | Failed (MySQLOperationalError _) => true
  | _ => false
  end.

(** What [execute] makes of an attempt that is not a transport error. *)
Definition surfaced (a : attempt) : result rows :=
  match a with
  | Fetched rs => Ok rs
  | Failed (MySQLError args) => Raise (SQLEngineException (error_message args))
  | Failed e => Raise e
  end.

(** The cursors the statements of a run are sent on: the first on the
    cursor the engine has, if it has one, and every one after a reconnect
    on the cursor of the connection just made; [made] connections exist
    beforehand and [k] statements meet a transport error. *)
Definition cursors_used (cursor : option nat) (made k : nat) : list nat :=
  match cursor with
  | Some c => c :: seq made k
  | None => seq made (S k)
  end.
(** The reconnects of such a run: one after each transport error, the
    [AttributeError] of an engine without a cursor included. *)
Definition reconnects (cursor : option nat) (k : nat) : nat :=
  match cursor with
  | Some _ => k
  | None => S k
  end.
(** The engine a run leaves: as it was when nothing was reconnected, and
    else holding the last connection made and its cursor. *)
Definition engine_after (e : SQLEngine) (made n : nat) : SQLEngine :=
  match n with
  | O => e
  | S n' => mk_SQLEngine (_saved e) (_created e) (Some (made + n')) (Some (made + n'))
  end.


(** A server that loses the connection during the first [losses]
    statements and answers the later ones; every connect succeeds. *)
Definition lossy (losses : nat) (answer : rows) : Server :=
  {| on_execute := fun n _ _ =>
       if Nat.ltb n losses
       then Failed (MySQLOperationalError ["2006"; "MySQL server has gone away"])
       else Fetched answer;
     on_connect := fun _ => None |}.

Definition localhost : credentials :=
  mk_credentials (Some "localhost") (Some "root") (Some "") (Some "securitybot").

(** The store once [init_sql()] has run against such a server. *)
Definition after_init (srv : Server) : Store :=
  snd (init localhost (mk_Store srv initial_engine [] [])).

End SQLSpec.

Module AuthSpec.
Import Auth.
Local Open Scope Z_scope.

(** A poll observes a successful resolution when the object is [PENDING]
    and the service answers that the transaction is over and succeeded;
    the observation is made at the poll's reading of the clock. *)
Definition observes_success (c : call) (self : DuoAuth) : option Z :=
  match c with
  | CallStatus client now =>
      let res := client_auth_status client (txid self) in
      if bool_decide (state self = PENDING) && negb (waiting res) && success res
      then Some now else None
  | _ => None
  end.

(** A run of calls, keeping beside the object the time of the latest
    successful observation. *)
Fixpoint run_observing (cs : list call) (self : DuoAuth) (last : option Z)
    : DuoAuth * option Z :=
  match cs with
  | [] => (self, last)
  | c :: cs' =>
      run_observing cs' (fst (run_call c self))
        (match observes_success c self with Some t => Some t | None => last end)
  end.

(** A service that has approved every push. *)
Definition approving : DuoClient :=
  {| client_preauth := fun _ => mk_preauth "auth" [["push"; "sms"]];
     client_auth := fun _ _ => "txid-1";
     client_auth_status := fun _ => mk_status false true |}.

End AuthSpec.

Module BotSpec.
Import Text Bot.

Definition is_punctuation (c : ascii) : bool := existsb (Ascii.eqb c) (bytes PUNCTUATION).

(** A key in canonical form: no upper-case letter and no punctuation. *)
Definition canonical (s : string) : bool :=
  forallb (fun c => negb (is_upper c) && negb (is_punctuation c)) (bytes s).
Definition no_punctuation (s : string) : bool :=
  forallb (fun c => negb (is_punctuation c)) (bytes s).

(** The tokens [parse_command] works on, for a text already cleaned. *)
Definition tokens (lib : Library) (cleaned : string) : list string :=
  match shlex_split lib cleaned with
  | Some ts => ts
  | None => Text.split cleaned
  end.

(** What the repository relies on of [unicode.lower]: it never yields an
    upper-case ASCII letter (it maps A..Z to a..z, and no other character
    to one of A..Z). *)
Definition is_upper_code (c : Z) : bool := ((65 <=? c) && (c <=? 90))%Z.
Definition lowers (lib : Library) : Prop :=
  forall c, is_upper_code (unicode_lower lib c) = false.

(** A library that knows, beyond ASCII, that U+212A KELVIN SIGN lowers to
    the letter k. *)
Definition kelvin_library : Library :=
  {| unicode_lower := fun c => if (c =? 8490)%Z then 107%Z
                               else unicode_lower ascii_library c;
     unicode_isspace := unicode_isspace ascii_library;
     shlex_split := shlex_split ascii_library |}.

(** U+00E9, e with acute accent, and its UTF-8 bytes C3 A9. *)
Definition e_acute : text := Unicode [233%Z].
Definition e_acute_utf8 : string := of_bytes [chr 195; chr 169].

End BotSpec.

(** A small deployment: one chat member, alice; two alerts in the store,
    one for alice and one for mallory, who is on the blacklist and not in
    the chat roster. It is Monday 18 July 2016, noon Pacific time. *)
Module Scenario.
Import Tasker Auth World.
Local Open Scope Z_scope.

Definition alice : ChatUser := mk_ChatUser "U1" "alice" (Some "Alice").
Definition alice_ref : user_ref := 0%nat.

Definition ssh_root : Task :=
  mk_Task "AB12" "ssh_root" "alice" "root login on prod" "ssh as root" "N/A"
          false "" false OPEN.
Definition sudo_mallory : Task :=
  mk_Task "CD34" "sudo" "mallory" "sudo on build host" "sudo su" "N/A"
          false "" false OPEN.

Definition the_messages : gmap string string :=
  list_to_map
    [ ("greeting", "Hi {0}!"); ("alert", "{0}: {1}"); ("action_prompt", "Was it you?");
      ("bad_command", "I did not get that."); ("hi", "Hello {0}"); ("2fa", "May I send a push?");
      ("sending_push", "Sending a push."); ("good_auth", "Thanks."); ("bad_auth", "Denied.");
      ("escalated", "Escalated."); ("no_2fa", "No 2FA device."); ("no_response", "No response.");
      ("bwtm", "But wait, there is more."); ("bye", "Bye."); ("ignore_time", "Capped at 4 hours.");
      ("ignore_no_time", "Give a time."); ("help_header", "Commands"); ("help_usage", "Usage");
      ("help_footer", "End."); ("report", "{username} {title} {description} {comment} {url}") ]%string.

Definition the_commands : gmap string Command :=
  list_to_map
    [ ("hi", mk_Command fn_hi "Say hello" false None None None);
      ("yes", mk_Command fn_positive_response "Confirm" false None None None);
      ("no", mk_Command fn_negative_response "Deny" false None None None);
      ("ignore", mk_Command fn_ignore "Ignore an alert" false
                            (Some ["ignore last 1h"; "ignore current 30m"])
                            (Some "Ignored.") (Some "Could not ignore.")) ]%string.

Definition the_bot : Bot :=
  {| reporting_channel := Some "C-security";
     messages := the_messages;
     commands := the_commands;
     users := {[ "U1"%string := alice_ref ]};
     users_by_name := {[ "alice"%string := alice_ref ]};
     active_users := ∅;
     _blacklist := {[ "mallory"%string ]} |}.

Definition the_database : Database :=
  {| alerts := <["AB12"%string := mk_alert_row "alice" "ssh_root" "ssh as root"
                                               "root login on prod" "N/A" 0]>
               (<["CD34"%string := mk_alert_row "mallory" "sudo" "sudo su"
                                                "sudo on build host" "N/A" 0]> ∅);
     alert_status := <["AB12"%string := OPEN]> (<["CD34"%string := OPEN]> ∅);
     user_responses := <["AB12"%string := mk_response_row "" false false]>
                       (<["CD34"%string := mk_response_row "" false false]> ∅);
     ignored := ∅;
     blacklist := {[ "mallory"%string ]} |}.

(** 2016-07-18 19:00 UTC. *)
Definition noon : Z := Util.wall (Util.civil 2016 7 18 19 0 0 Util.utc_zone).

Definition world0 : World :=
  {| utc_now := noon;
     local_now := noon - Util.hours 7;
     LOCAL_TZ := Util.Los_Angeles_2016;
     duo := AuthSpec.approving;
     fresh_key := "EF56";
     lib := Text.ascii_library;
     db := the_database;
     chat_log := [];
     task_objs := <[0%nat := ssh_root]> (<[1%nat := sudo_mallory]> ∅);
     user_objs := {[ alice_ref := User.new alice (Auth.new "alice") ]};
     bot := the_bot |}.

(** What happens between two steps of a session, then the step; the state
    of the session after each step. *)
Definition session_state (self : user_ref) (w : World) : string :=
  match user_objs w !! self with
  | Some u => fsm_state u
  | None => ""
  end.
Fixpoint session (self : user_ref) (events : list (M World unit)) (w : World)
    : list string :=
  match events with
  | [] => []
  | ev :: rest =>
      let w1 := snd (ev w) in
      let w2 := snd (User.step self w1) in
      session_state self w2 :: session self rest w2
  end.
Fixpoint session_end (self : user_ref) (events : list (M World unit)) (w : World) : World :=
  match events with
  | [] => w
  | ev :: rest => session_end self rest (snd (User.step self (snd (ev w))))
  end.

(** alice with her alert pending, and alice after she has answered it. *)
Definition alice_pending : World :=
  session_end alice_ref [Bot._add_task 0%nat] world0.
Definition alice_done : World :=
  session_end alice_ref
    [Bot._add_task 0%nat; User.negative_response alice_ref "I did not"; ret tt] world0.


Definition ignored_until (w : World) : option Z :=
  i_until <$> (default ∅ (ignored (db w) !! "alice"%string) !! "ssh_root"%string).

End Scenario.

Module UserSpec.
Import World.

(** The state a session's machine is in after [step()], when it is in the
    state named [s] before and the store is [w]. *)
Definition next (self : user_ref) (s : string) (w : World) : string :=
  match User.user_fsm self with
  | Ok m =>
      match StateMachine._states m !! s with
      | Some st =>
          StateMachine.name
            (StateMachine.state (fst (snd (StateMachine.step (StateMachine.set_state m st, w)))))
      | None => s
      end
  | Raise _ => s
  end.

(** The states after each of a series of [step()] calls; [ws] are the
    stores the calls find, which messages, new tasks, the clock and the
    2FA service may have changed at will in between. *)
Fixpoint trace_from (self : user_ref) (s : string) (ws : list World) : list string :=
  match ws with
  | [] => []
  | w :: ws' => let s' := next self s w in s' :: trace_from self s' ws'
  end.

(** A trace cut after the first arrival in [task_finished]. *)
Fixpoint upto_finished (l : list string) : option (list string) :=
  match l with
  | [] => None
  | s :: l' =>
      if String.eqb s "task_finished" then Some [s]
      else option_map (cons s) (upto_finished l')
  end.

(** The number of steps of a trace that changed the state, and the states
    they entered. *)
Fixpoint changes (prev : string) (l : list string) : nat :=
  match l with
  | [] => 0
  | s :: l' => (if String.eqb prev s then 0 else 1) + changes s l'
  end.
Fixpoint entered (prev : string) (l : list string) : list string :=
  match l with
  | [] => []
  | s :: l' => if String.eqb prev s then entered s l' else s :: entered s l'
  end.

Definition full_path : list string :=
  ["action_performed_check"; "auth_permission_check"; "waiting_on_auth"; "task_finished"].

(** The ways from a state to the first arrival in [task_finished]. *)
Definition paths_from (s : string) : list (list string) :=
  if String.eqb s "need_task" then
    [ ["action_performed_check"; "task_finished"];
      ["action_performed_check"; "auth_permission_check"; "task_finished"];
      full_path ]
  else if String.eqb s "action_performed_check" then
    [ ["task_finished"]; ["auth_permission_check"; "task_finished"];
      ["auth_permission_check"; "waiting_on_auth"; "task_finished"] ]
  else if String.eqb s "auth_permission_check" then
    [ ["task_finished"]; ["waiting_on_auth"; "task_finished"] ]
  else if String.eqb s "waiting_on_auth" then [ ["task_finished"] ]
  else [].

End UserSpec.

Module AdmitSpec.
Import Tasker World.

(** Whether the sweep of [_update_tasks] keeps a queued task: its title is
    not among the ignored ones. *)
Definition kept (ignored : gmap string string) (objs : gmap task_ref Task) (r : task_ref)
    : bool :=
  match objs !! r with
  | Some t => negb (bool_decide (is_Some (ignored !! title t)))
  | None => true
  end.

(** The task object as the sweep leaves it: a task with an ignored title
    gets the reason it is ignored for as its comment. *)
Definition swept (ignored : gmap string string) (t : Task) : Task :=
  match ignored !! title t with
  | Some why => set_comment t why
  | None => t
  end.
(** The object under a reference after the sweep of the queue [ts]. *)
Definition after_sweep (ignored : gmap string string) (ts : list task_ref)
    (objs : gmap task_ref Task) (r : task_ref) : option Task :=
  (if bool_decide (r ∈ ts) then swept ignored else id) <$> objs !! r.

(** Two collections of task objects with the same identities: under each
    reference the same hash and title. *)
Definition same_keys (objs objs' : gmap task_ref Task) : Prop :=
  forall r, (hash <$> objs' !! r) = (hash <$> objs !! r)
            /\ (title <$> objs' !! r) = (title <$> objs !! r).

(** Two states of the store with the same alerts on file. *)
Definition same_rows (d d' : Database) : Prop :=
  forall k, is_Some (alert_status d' !! k) <-> is_Some (alert_status d !! k).


(** The store after a task is escalated unseen with the comment [why]. *)
Definition escalated (w : World) (l : task_ref) (t : Task) (why : string) : World :=
  set_db (set_task_objs w (<[l := set_comment t why]> (task_objs w)))
         (set_verifying (set_comment t why) (db w)).

End AdmitSpec.


Module DuoSpec.
Import Auth.

(** A run of polls, each with the service and the clock it meets, and what
    the polls return one after the other. *)
Fixpoint poll_all (ps : list (DuoClient * Z)) (self : DuoAuth)
    : list AUTH_STATES * DuoAuth :=
  match ps with
  | [] => ([], self)
  | (client, now) :: ps' =>
      let '(r, self') := auth_status client now self in
      let '(rs, self'') := poll_all ps' self' in
      (r :: rs, self'')
  end.

(** A device list with a device that takes pushes. *)
Definition has_push (devices : list (list string)) : Prop :=
  exists capabilities, In capabilities devices /\ In "push"%string capabilities.

End DuoSpec.

Module ShlexSpec.
Import Text World.

(** [shlex.split] on text without backslashes and apostrophes: tokens are
    separated by blanks, tabs, CR and LF outside double quotes; the quotes
    group and are dropped; a quote left open is a [ValueError]. [cur] is
    the token being read, last character first; [started] tells whether
    there is one, [quoted] whether a quote is open. *)
Definition is_shlex_space (c : ascii) : bool :=
  (code c =? 32)%Z || (code c =? 9)%Z || (code c =? 13)%Z || (code c =? 10)%Z.

Fixpoint shlex_runs (l cur : list ascii) (started quoted : bool)
    : option (list (list ascii)) :=
  match l with
  | [] => if quoted then None else Some (if started then [rev cur] else [])
  | c :: l' =>
      if quoted then
        if (code c =? 34)%Z then shlex_runs l' cur true false
        else shlex_runs l' (c :: cur) true true
      else if (code c =? 34)%Z then shlex_runs l' cur true true
      else if is_shlex_space c then
        if started then option_map (cons (rev cur)) (shlex_runs l' [] false false)
        else shlex_runs l' [] false false
      else shlex_runs l' (c :: cur) true false
  end.

Definition quoting_library : Library :=
  {| unicode_lower := unicode_lower ascii_library;
     unicode_isspace := unicode_isspace ascii_library;
     shlex_split := fun s => option_map (map of_bytes) (shlex_runs (bytes s) [] false false) |}.

Definition with_lib (w : World) (l : Library) : World :=
  mk_World (utc_now w) (local_now w) (LOCAL_TZ w) (duo w) (fresh_key w) l
           (db w) (chat_log w) (task_objs w) (user_objs w) (bot w).

(** The message ["hi there"], with its double quotes. *)
Definition quoted_hi_there : text :=
  Str (String (chr 34) ("hi there" +:+ String (chr 34) EmptyString)).

End ShlexSpec.

Module InputSpec.
Local Open Scope Z_scope.

(** The code points [clean_input] replaces: the curly quotes U+2018,
    U+2019, U+201C, U+201D and the dashes U+2013, U+2014. *)
Definition is_smart (c : Z) : bool :=
  bool_decide (c ∈ [8216; 8217; 8220; 8221; 8211; 8212]).

End InputSpec.

Module SessionSpec.
Import Tasker World.

(** The alert as [alert_user] words it: the [alert] template with the
    task's description and its reason, each line of it quoted, then the
    prompt on a line of its own. *)
Definition alert_message (alert prompt : string) (t : Task) : rendered :=
  Concat (Format alert
            [description t;
             Text.join Text.newline
               (map (fun s => (">" +:+ s)%string) (Text.split_on (Text.chr 10) (reason t)))])
         (Concat (Plain Text.newline) (Plain prompt)).

(** The user's comment as [_act_on_not_performed] quotes it in the report
    to the reporting channel. *)
Definition quoted_comment (text : string) : string :=
  Text.join Text.newline
    (map (fun s => ("> " +:+ s)%string)
         (Text.split_on (Text.chr 10)
            (if String.eqb text EmptyString then "No comment provided."%string else text))).

(** The clock is not within days of the ends of the calendar (the years 1
    and 9999), and the zone's offsets are such as Python accepts. *)
Definition sane_clock (w : World) : Prop :=
  UtilSpec.bounded_offsets (LOCAL_TZ w)
  /\ (Util.MIN_WALL + Util.DAY <= utc_now w)%Z
  /\ (utc_now w + 5 * Util.DAY <= Util.MAX_WALL)%Z.

(** The store as a later turn of the main loop finds it, when only the
    clock has moved on. *)
Definition set_utc_now (w : World) (now : Z) : World :=
  mk_World now (local_now w) (LOCAL_TZ w) (duo w) (fresh_key w) (lib w)
           (db w) (chat_log w) (task_objs w) (user_objs w) (bot w).

End SessionSpec.
(** * Properties *)

(** ** The store-passing monad *)

Lemma bind_ret_l {S A B} (a : A) (k : A -> M S B) : bind (ret a) k = k a.
Proof. reflexivity. Qed.

Lemma bind_Ok {S A B} (c : M S A) (k : A -> M S B) s a s' :
  c s = (Ok a, s') -> bind c k s = k a s'.
Proof. intros H. unfold bind. now rewrite H. Qed.

Lemma bind_Raise {S A B} (c : M S A) (k : A -> M S B) s e s' :
  c s = (Raise e, s') -> bind c k s = (Raise e, s').
Proof. intros H. unfold bind. now rewrite H. Qed.

(** ** util.py: business hours *)

Module UtilFacts.
Import Util UtilSpec.
Local Open Scope Z_scope.

Lemma DAY_pos : 0 < DAY.
Proof. reflexivity. Qed.

Lemma MIN_WALL_eq : MIN_WALL = -62135596800000000.
Proof. reflexivity. Qed.
Lemma MAX_WALL_eq : MAX_WALL = 253402300799999999.
Proof. reflexivity. Qed.

Ltac in_numbers :=
  rewrite ?MIN_WALL_eq, ?MAX_WALL_eq in *;
  unfold OPENING_HOUR, CLOSING_HOUR, DAY, HOUR, MINUTE, SECOND in *.

Lemma same_object_refl o : same_object o o = true.
Proof. unfold same_object. now rewrite String.eqb_refl, Z.eqb_refl. Qed.

Lemma add_shifted t d :
  add t d = if representable (shifted t d) then Ok (shifted t d) else Raise OverflowError.
Proof. reflexivity. Qed.

(** Conversion to the zone object a datetime already carries changes
    nothing: such a datetime is read on its own clock. *)
Lemma astimezone_own z t :
  tzinfo t = Some (zone_default z) -> astimezone z t = Ok t.
Proof. intros H. unfold astimezone. now rewrite H, same_object_refl. Qed.

Lemma during_business_hours_own z t :
  tzinfo t = Some (zone_default z) ->
  during_business_hours z t
  = Ok (((OPENING_HOUR <=? hour t) && (hour t <? CLOSING_HOUR))
        && ((1 <=? isoweekday t) && (isoweekday t <=? 5))).
Proof.
  intros H. unfold during_business_hours. rewrite H.
  now rewrite (astimezone_own z t H).
Qed.

Lemma isoweekday_bounds t : 1 <= isoweekday t <= 7.
Proof.
  unfold isoweekday.
  pose proof (Z.mod_pos_bound (wall t / DAY + 3) 7 ltac:(lia)). lia.
Qed.

Lemma morning_day z start k :
  wall (morning z start k) / DAY = wall start / DAY + 1 + Z.of_nat k.
Proof.
  unfold morning. cbn [wall].
  rewrite Z.add_comm, Z.div_add by (pose proof DAY_pos; lia).
  rewrite (Z.div_small (OPENING_HOUR * HOUR) DAY) by (vm_compute; split; [discriminate | reflexivity]). lia.
Qed.

Lemma morning_hour z start k : hour (morning z start k) = OPENING_HOUR.
Proof.
  unfold hour, morning. cbn [wall].
  set (q := wall start / DAY + 1 + Z.of_nat k).
  replace (q * DAY + OPENING_HOUR * HOUR) with ((OPENING_HOUR + q * 24) * HOUR)
    by (unfold DAY; lia).
  rewrite Z.div_mul by discriminate.
  rewrite Z.mod_add by discriminate. reflexivity.
Qed.

(** A candidate is within business hours exactly when it is a weekday. *)
Lemma during_business_hours_morning z start k :
  during_business_hours z (morning z start k) = Ok (negb (weekend (morning z start k))).
Proof.
  rewrite during_business_hours_own by reflexivity.
  rewrite morning_hour. unfold weekend.
  pose proof (isoweekday_bounds (morning z start k)) as Hb.
  change ((OPENING_HOUR <=? OPENING_HOUR) && (OPENING_HOUR <? CLOSING_HOUR)) with true.
  cbn [andb]. f_equal.
  destruct (Z.ltb_spec 5 (isoweekday (morning z start k)));
    destruct (Z.leb_spec 1 (isoweekday (morning z start k)));
    destruct (Z.leb_spec (isoweekday (morning z start k)) 5); simpl; try reflexivity; lia.
Qed.

Lemma shifted_morning z start k :
  shifted (morning z start k) (days 1) = morning z start (S k).
Proof.
  unfold shifted, morning, days. cbn [wall tzinfo]. f_equal. lia.
Qed.

Lemma days_left_S t n :
  days_left t = S n ->
  wall t + days 1 <= MAX_WALL /\ days_left (shifted t (days 1)) = n.
Proof.
  unfold days_left, shifted, days. cbn [wall]. intros H.
  pose proof DAY_pos as HD.
  assert (Hq : (MAX_WALL - wall t) / DAY = Z.of_nat (S n)) by lia.
  replace (MAX_WALL - (wall t + 1 * DAY)) with (MAX_WALL - wall t + (-1) * DAY) by lia.
  rewrite Z.div_add by lia. rewrite Hq. split; [|lia].
  pose proof (Z.mul_div_le (MAX_WALL - wall t) DAY HD). nia.
Qed.

Lemma days_left_O t : days_left t = O -> MAX_WALL < wall t + days 1.
Proof.
  unfold days_left, days. intros H. pose proof DAY_pos as HD.
  assert (Hq : (MAX_WALL - wall t) / DAY <= 0) by lia.
  destruct (Z.le_gt_cases (wall t + 1 * DAY) MAX_WALL) as [Hle|]; [|lia].
  assert (1 <= (MAX_WALL - wall t) / DAY); [|lia].
  apply Z.div_le_lower_bound; lia.
Qed.

(** The loop of [get_expiration_time] equals its unfolding: the days left
    are a measure only. *)
Lemma march_unfold z t :
  march z (days_left t) t
  = match during_business_hours z t with
    | Ok true => Ok t
    | Ok false =>
        match add t (days 1) with
        | Ok t' => march z (days_left t') t'
        | Raise e => Raise e
        end
    | Raise e => Raise e
    end.
Proof.
  destruct (days_left t) as [|n] eqn:E; cbn [march].
  - destruct (during_business_hours z t) as [[|]|]; try reflexivity.
    apply days_left_O in E. rewrite add_shifted.
    unfold representable, shifted, in_range. cbn [wall].
    destruct (Z.leb_spec (wall t + days 1) MAX_WALL); [lia|].
    now rewrite andb_false_r.
  - destruct (during_business_hours z t) as [[|]|]; try reflexivity.
    apply days_left_S in E as [Hle E]. rewrite add_shifted.
    destruct (representable (shifted t (days 1))); [|reflexivity].
    now rewrite E.
Qed.

(** From a representable candidate, the loop reaches the first weekday
    among the candidates, or leaves the calendar. *)
Lemma march_mornings z start (k : nat) : forall j : nat,
  representable (morning z start j) = true ->
  (forall i, (i < k)%nat -> weekend (morning z start (j + i)) = true) ->
  weekend (morning z start (j + k)) = false ->
  march z (days_left (morning z start j)) (morning z start j)
  = if representable (morning z start (j + k)) then Ok (morning z start (j + k))
    else Raise OverflowError.
Proof.
  induction k as [|k IH]; intros j Hin Hbefore Hat.
  - rewrite Nat.add_0_r in *. rewrite march_unfold, during_business_hours_morning, Hat, Hin.
    reflexivity.
  - rewrite march_unfold, during_business_hours_morning.
    pose proof (Hbefore O ltac:(lia)) as H0. rewrite Nat.add_0_r in H0. rewrite H0.
    cbn [negb]. rewrite add_shifted, shifted_morning.
    replace (j + S k)%nat with (S j + k)%nat in * by lia.
    destruct (representable (morning z start (S j))) eqn:E.
    + apply IH; [exact E | | exact Hat].
      intros i Hi. replace (S j + i)%nat with (j + S i)%nat by lia. apply Hbefore. lia.
    + unfold representable, in_range, morning in *. cbn [wall] in *.
      pose proof DAY_pos.
      apply andb_prop in Hin as [Hlo Hhi]. apply Z.leb_le in Hlo.
      apply andb_false_iff in E as [E|E]; apply Z.leb_gt in E; [nia|].
      destruct (Z.leb_spec ((wall start / DAY + 1 + Z.of_nat (S j + k)) * DAY
                            + OPENING_HOUR * HOUR) MAX_WALL); [nia|].
      now rewrite andb_false_r.
Qed.

(** Weekends are two days long: of three mornings in a row, the first
    weekday is at most two days on. *)
Lemma weekday_within_two z start :
  exists k : nat, (k <= 2)%nat /\
    (forall j, (j < k)%nat -> weekend (morning z start j) = true) /\
    weekend (morning z start k) = false.
Proof.
  assert (Hw : forall j, weekend (morning z start j)
                         = (5 <? (wall start / DAY + 1 + Z.of_nat j + 3) mod 7 + 1)).
  { intros j. unfold weekend, isoweekday. now rewrite morning_day. }
  set (q := wall start / DAY + 1) in *.
  assert (Hm : 0 <= (q + 3) mod 7 < 7) by (apply Z.mod_pos_bound; lia).
  assert (Hm1 : (q + Z.of_nat 1 + 3) mod 7 = ((q + 3) mod 7 + 1) mod 7).
  { replace (q + Z.of_nat 1 + 3) with ((q + 3) + 1) by lia. rewrite Zplus_mod.
    rewrite (Z.mod_small 1 7) by lia. reflexivity. }
  assert (Hm2 : (q + Z.of_nat 2 + 3) mod 7 = ((q + 3) mod 7 + 2) mod 7).
  { replace (q + Z.of_nat 2 + 3) with ((q + 3) + 2) by lia. rewrite Zplus_mod.
    rewrite (Z.mod_small 2 7) by lia. reflexivity. }
  assert (Hm0 : (q + Z.of_nat 0 + 3) mod 7 = (q + 3) mod 7) by (f_equal; lia).
  destruct (Z_lt_dec ((q + 3) mod 7) 5) as [Hlt|Hge].
  - exists O. split; [lia|]. split; [intros j Hj; lia|].
    rewrite Hw, Hm0. apply Z.ltb_ge. lia.
  - destruct (Z.eq_dec ((q + 3) mod 7) 5) as [E5|N5].
    + exists 2%nat. split; [lia|]. split.
      * intros [|[|j]] Hj; [| |lia]; rewrite Hw.
        -- rewrite Hm0, E5. reflexivity.
        -- rewrite Hm1, E5. reflexivity.
      * rewrite Hw, Hm2, E5. reflexivity.
    + assert (E6 : (q + 3) mod 7 = 6) by lia.
      exists 1%nat. split; [lia|]. split.
      * intros [|j] Hj; [|lia]. rewrite Hw, Hm0, E6. reflexivity.
      * rewrite Hw, Hm1, E6. reflexivity.
Qed.

(** What [get_expiration_time] comes to, once the weekday the loop stops
    at is known. *)
Lemma get_expiration_time_at (z : zone) (start : datetime) (ttl : timedelta) (k : nat) :
  let start' := aware start in
  let end_ := shifted start' ttl in
  (forall j, (j < k)%nat -> weekend (morning z start' j) = true) ->
  weekend (morning z start' k) = false ->
  get_expiration_time z start ttl
  = (if representable end_ then
       match during_business_hours z end_ with
       | Ok true => Ok end_
       | Ok false =>
           if representable (morning z start' 0) && representable (morning z start' k)
           then add (morning z start' k) (sub end_ (end_of_day z start'))
           else Raise OverflowError
       | Raise e => Raise e
       end
     else Raise OverflowError).
Proof.
  intros start' end_ Hbefore Hat.
  unfold get_expiration_time. fold (aware start). fold start'.
  rewrite (add_shifted start' ttl). fold end_.
  destruct (representable end_); [|reflexivity].
  destruct (during_business_hours z end_) as [[|]|e]; try reflexivity.
  rewrite add_shifted.
  assert (E0 : shifted (end_of_day z start') (hours ((OPENING_HOUR - CLOSING_HOUR) mod 24))
               = morning z start' 0).
  { unfold shifted, end_of_day, morning, hours. cbn [wall tzinfo]. f_equal.
    change ((OPENING_HOUR - CLOSING_HOUR) mod 24) with 16. unfold DAY, CLOSING_HOUR,
      OPENING_HOUR. change (Z.of_nat 0) with 0. lia. }
  rewrite E0.
  destruct (representable (morning z start' 0)) eqn:Hin; [|reflexivity].
  rewrite (march_mornings z start' k 0 Hin Hbefore Hat). cbn [Nat.add andb].
  destruct (representable (morning z start' k)); reflexivity.
Qed.

(** Away from the ends of the calendar a deadline is returned. *)
Lemma get_expiration_time_returns (z : zone) (now : Z) (ttl : timedelta) :
  bounded_offsets z ->
  MIN_WALL + DAY <= now -> now + 5 * DAY <= MAX_WALL -> 0 <= ttl <= DAY ->
  exists r, get_expiration_time z (mk_datetime now (Some pytz_utc)) ttl = Ok r.
Proof.
  intros [Hdef Hoff] Hlo Hhi Httl.
  set (start := mk_datetime now (Some pytz_utc)).
  destruct (weekday_within_two z (aware start)) as (k & Hk & Hbefore & Hat).
  rewrite (get_expiration_time_at z start ttl k Hbefore Hat).
  change (aware start) with start.
  pose proof DAY_pos as HD.
  assert (Hin : forall x, MIN_WALL <= x <= MAX_WALL -> in_range x = true).
  { intros x [? ?]. unfold in_range. apply andb_true_intro.
    split; now apply Z.leb_le. }
  assert (Hend : representable (shifted start ttl) = true).
  { apply Hin. cbn [shifted wall start]. lia. }
  rewrite Hend.
  assert (Hbh : exists b, during_business_hours z (shifted start ttl) = Ok b).
  { unfold during_business_hours, astimezone. cbn [tzinfo shifted start wall utcoffset pytz_utc].
    destruct (same_object pytz_utc (zone_default z)); [eexists; reflexivity|].
    replace (now + ttl - 0) with (now + ttl) by lia.
    rewrite (Hin (now + ttl)) by lia.
    specialize (Hoff (now + ttl)).
    rewrite Hin by lia. eexists; reflexivity. }
  destruct Hbh as [[|] ->]; [eexists; reflexivity|].
  pose proof (Z.mul_div_le now DAY HD) as Hq1.
  pose proof (Z.mod_pos_bound now DAY HD) as Hq2.
  rewrite (Z.mod_eq now DAY) in Hq2 by lia.
  assert (Hm : forall j : nat, (j <= 2)%nat -> representable (morning z start j) = true).
  { intros j Hj. apply Hin. unfold morning. cbn [wall start]. in_numbers. lia. }
  rewrite !Hm by lia. cbn [andb]. rewrite add_shifted.
  assert (Hr : representable (shifted (morning z start k) (sub (shifted start ttl)
                                                              (end_of_day z start))) = true).
  { apply Hin. unfold shifted, sub, utc_instant, morning, end_of_day.
    cbn [wall tzinfo start utcoffset pytz_utc]. in_numbers. lia. }
  rewrite Hr. eexists; reflexivity.
Qed.

(** C3, as amended. [get_expiration_time(start, ttl)] always returns or
    raises [OverflowError]. It returns [start + ttl] when that instant is
    within business hours. Otherwise it returns the first weekday among
    10:00 on the day after [start]'s date and the same hour on the two
    following days (the candidate is then within business hours), shifted
    by the excess [delta] of [start + ttl] over 18:00 on [start]'s date;
    that instant is [start + ttl] moved 16 hours and [k <= 2] whole days
    on. The returned timestamp is not promised to be within business
    hours. [OverflowError] is raised exactly when one of the sums leaves
    the years 1 to 9999. *)
Theorem get_expiration_time_rolls (z : zone) (start : datetime) (ttl : timedelta) :
  let start' := aware start in
  let end_ := shifted start' ttl in
  let delta := sub end_ (end_of_day z start') in
  exists k : nat,
    (k <= 2)%nat /\
    (forall j, (j < k)%nat -> weekend (morning z start' j) = true) /\
    weekend (morning z start' k) = false /\
    during_business_hours z (morning z start' k) = Ok true /\
    get_expiration_time z start ttl
    = (if representable end_ then
         match during_business_hours z end_ with
         | Ok true => Ok end_
         | Ok false =>
             if representable (morning z start' 0) && representable (morning z start' k)
             then add (morning z start' k) delta
             else Raise OverflowError
         | Raise e => Raise e
         end
       else Raise OverflowError) /\
    (forall r,
       during_business_hours z end_ = Ok false ->
       get_expiration_time z start ttl = Ok r ->
       r = shifted (morning z start' k) delta /\
       utc_instant r = utc_instant end_ + hours 16 + days (Z.of_nat k)).
Proof.
  intros start' end_ delta.
  destruct (weekday_within_two z start') as (k & Hk & Hbefore & Hat).
  exists k.
  assert (Hbh : during_business_hours z (morning z start' k) = Ok true).
  { now rewrite during_business_hours_morning, Hat. }
  pose proof (get_expiration_time_at z start ttl k Hbefore Hat) as Hget.
  cbv zeta in Hget. fold start' end_ delta in Hget.
  split; [exact Hk|]. split; [exact Hbefore|]. split; [exact Hat|].
  split; [exact Hbh|]. split; [exact Hget|].
  intros r Hout Hr. rewrite Hget in Hr.
  destruct (representable end_); [|discriminate].
  rewrite Hout in Hr.
  destruct (representable (morning z start' 0) && representable (morning z start' k));
    [|discriminate].
  rewrite add_shifted in Hr.
  destruct (representable (shifted (morning z start' k) delta)); [|discriminate].
  injection Hr as <-. split; [reflexivity|].
  unfold delta, sub, utc_instant, shifted, morning, end_of_day, hours, days.
  cbn [wall tzinfo]. unfold DAY, CLOSING_HOUR, OPENING_HOUR. lia.
Qed.

(** The repository's weekend test: 17:00 on Friday 15 July 2016 plus two
    hours is 11:00 on Monday 18 July. *)
Lemma get_expiration_time_rolls_witness :
  get_expiration_time Los_Angeles_2016
    (civil 2016 7 15 17 0 0 Los_Angeles_2016) (hours 2)
  = Ok (civil 2016 7 18 11 0 0 Los_Angeles_2016).
Proof.
  destruct (get_expiration_time_rolls Los_Angeles_2016
              (civil 2016 7 15 17 0 0 Los_Angeles_2016) (hours 2))
    as (k & Hk & Hbefore & Hat & _ & Hget & _).
  rewrite Hget.
  destruct k as [|[|[|k]]]; [discriminate Hat | discriminate Hat | | lia].
  vm_compute. reflexivity.
Defined.

(** C3 as stated fails. An alert raised at 03:00 Pacific time on Monday
    18 July 2016 (10:00 UTC) with a two-hour ttl ends at 05:00, outside
    business hours; the excess over 18:00 is negative, and the timestamp
    returned is 20:07 that evening on the clock of [LOCAL_TZ] itself, 21:00
    Pacific daylight time: outside business hours on either clock. *)
Lemma get_expiration_time_outside_hours :
  let start := civil 2016 7 18 10 0 0 utc_zone in
  exists r pacific,
    get_expiration_time Los_Angeles_2016 start (hours 2) = Ok r /\
    during_business_hours Los_Angeles_2016 r = Ok false /\
    same_instant r (civil 2016 7 19 4 0 0 utc_zone) /\
    hour r = 20 /\
    astimezone Los_Angeles_2016 (civil 2016 7 19 4 0 0 utc_zone) = Ok pacific /\
    hour pacific = 21.
Proof.
  do 2 eexists. split; [vm_compute; reflexivity|]. repeat split; vm_compute; reflexivity.
Qed.

(** tests/util_test.py, BusinessHoursTest: the datetimes carry [LOCAL_TZ]
    itself and are read on their own clock. *)
Example test_weekday :
  let at_ h mi s := civil 2016 7 18 h mi s Los_Angeles_2016 in
  during_business_hours Los_Angeles_2016 (at_ OPENING_HOUR 0 0) = Ok true
  /\ during_business_hours Los_Angeles_2016 (at_ 12 0 0) = Ok true
  /\ during_business_hours Los_Angeles_2016 (at_ (CLOSING_HOUR - 1) 59 59) = Ok true
  /\ during_business_hours Los_Angeles_2016 (at_ (OPENING_HOUR - 1) 59 59) = Ok false
  /\ during_business_hours Los_Angeles_2016 (at_ CLOSING_HOUR 0 0) = Ok false.
Proof. repeat split; vm_compute; reflexivity. Qed.

Example test_weekend :
  during_business_hours Los_Angeles_2016 (civil 2016 7 17 OPENING_HOUR 0 0 Los_Angeles_2016)
  = Ok false.
Proof. vm_compute. reflexivity. Qed.

(** tests/util_test.py, ExpirationTimeTest. *)
Example test_same_day :
  let date := civil 2016 7 18 OPENING_HOUR 0 0 Los_Angeles_2016 in
  let td := hours (((CLOSING_HOUR - OPENING_HOUR) mod 24) / 2) in
  get_expiration_time Los_Angeles_2016 date td = add date td.
Proof. vm_compute. reflexivity. Qed.

Example test_next_weekday :
  let date := civil 2016 7 18 (CLOSING_HOUR - 1) 0 0 Los_Angeles_2016 in
  let next_date := civil 2016 7 19 (OPENING_HOUR + 1) 0 0 Los_Angeles_2016 in
  get_expiration_time Los_Angeles_2016 date (hours 2) = Ok next_date.
Proof. vm_compute. reflexivity. Qed.

Example test_edge_weekday :
  let date := civil 2016 7 18 (CLOSING_HOUR - 1) 59 59 Los_Angeles_2016 in
  let after := civil 2016 7 19 OPENING_HOUR 0 0 Los_Angeles_2016 in
  get_expiration_time Los_Angeles_2016 date (seconds 1) = Ok after.
Proof. vm_compute. reflexivity. Qed.

Example test_next_weekend :
  let date := civil 2016 7 15 (CLOSING_HOUR - 1) 0 0 Los_Angeles_2016 in
  let next_date := civil 2016 7 18 (OPENING_HOUR + 1) 0 0 Los_Angeles_2016 in
  get_expiration_time Los_Angeles_2016 date (hours 2) = Ok next_date.
Proof. vm_compute. reflexivity. Qed.

Example test_edge_weekend :
  let date := civil 2016 7 15 (CLOSING_HOUR - 1) 59 59 Los_Angeles_2016 in
  let after := civil 2016 7 18 OPENING_HOUR 0 0 Los_Angeles_2016 in
  get_expiration_time Los_Angeles_2016 date (seconds 1) = Ok after.
Proof. vm_compute. reflexivity. Qed.

End UtilFacts.

(** ** state_machine.py *)

Module StateMachineFacts.
Import StateMachine StateMachineSpec.

Section Facts.
Context {W : Type}.
Variable transitions : list (transition_dict W).
Variables during_ on_enter_ on_exit_ : gmap string (M W unit).

Local Abbreviation state_of := (state_of during_ on_enter_ on_exit_).
Local Abbreviation transition_of := (transition_of during_ on_enter_ on_exit_).

(** The state table holds, for each declared name, the state object made
    from the three dictionaries. *)
Lemma build_states_lookup (states : list string) (n : string) :
  build_states states during_ on_enter_ on_exit_ !! n
  = if bool_decide (n ∈ states) then Some (state_of n) else None.
Proof.
  unfold build_states.
  assert (G : forall acc : gmap string (State W),
    foldl (fun acc s => <[s := mk_State s (during_ !! s) (on_enter_ !! s) (on_exit_ !! s)]> acc)
          acc states !! n
    = if bool_decide (n ∈ states) then Some (state_of n) else acc !! n).
  { induction states as [|s l IH]; intros acc; simpl.
    - reflexivity.
    - rewrite IH. destruct (decide (n ∈ l)) as [Hin|Hnin].
      + rewrite !bool_decide_eq_true_2; [reflexivity | now right | assumption].
      + rewrite (bool_decide_eq_false_2 (n ∈ l)) by assumption.
        destruct (decide (n = s)) as [->|Hne].
        * rewrite lookup_insert_eq, bool_decide_eq_true_2; [reflexivity | now left].
        * rewrite lookup_insert_ne by congruence.
          rewrite bool_decide_eq_false_2; [reflexivity|].
          intros Hc. apply elem_of_cons in Hc as [?|?]; congruence. }
  rewrite G. now rewrite lookup_empty.
Qed.

Lemma build_states_some (states : list string) (n : string) (st : State W) :
  build_states states during_ on_enter_ on_exit_ !! n = Some st -> st = state_of n.
Proof.
  rewrite build_states_lookup. destruct (bool_decide (n ∈ states)); congruence.
Qed.

(** The list filed under a source holds the transitions declared with that
    source, in declaration order. *)
Lemma build_transitions_lookup (states : list string) :
  let sts := build_states states during_ on_enter_ on_exit_ in
  forall ts acc trs, build_transitions sts ts acc = Ok trs ->
  forall n, default [] (trs !! n)
            = default [] (acc !! n)
              ++ map transition_of (List.filter (fun t => String.eqb (d_source t) n) ts).
Proof.
  intros sts. induction ts as [|t ts IH]; intros acc trs H n; simpl in H.
  - injection H as <-. simpl. now rewrite app_nil_r.
  - destruct (sts !! d_source t) as [src|] eqn:Es; [|discriminate].
    destruct (sts !! d_dest t) as [dst|] eqn:Ed; [|discriminate].
    apply build_states_some in Es, Ed. subst src dst.
    rewrite (IH _ _ H n). simpl.
    destruct (String.eqb_spec (d_source t) n) as [E|Hne].
    + subst n. rewrite lookup_insert_eq. simpl. rewrite <- app_assoc. reflexivity.
    + rewrite lookup_insert_ne by assumption. reflexivity.
Qed.

Lemma hook_during n : during (state_of n) = hook during_ n.
Proof. unfold during, hook; simpl. now destruct (during_ !! n). Qed.
Lemma hook_on_enter n : on_enter (state_of n) = hook on_enter_ n.
Proof. unfold on_enter, hook; simpl. now destruct (on_enter_ !! n). Qed.
Lemma hook_on_exit n : on_exit (state_of n) = hook on_exit_ n.
Proof. unfold on_exit, hook; simpl. now destruct (on_exit_ !! n). Qed.
Lemma guard_condition t : condition (transition_of t) = guard t.
Proof. unfold condition, guard; simpl. now destruct (d_condition t). Qed.
Lemma effect_action t : action (transition_of t) = effect t.
Proof. unfold action, effect; simpl. now destruct (d_action t). Qed.

Lemma step_loop_cons (tr : Transition W) rest (m : StateMachine W) (w : W) :
  step_loop (tr :: rest) (m, w)
  = match condition tr w with
    | (Ok true, w1) =>
        (lift (action tr) ;;;
         old <- current ;;
         lift (on_exit old) ;;;
         assign_state (dest tr) ;;;
         new_ <- current ;;
         lift (on_enter new_))%py (m, w1)
    | (Ok false, w1) => step_loop rest (m, w1)
    | (Raise e, w1) => (Raise e, (m, w1))
    end.
Proof.
  simpl. unfold bind at 1, lift at 1. simpl.
  destruct (condition tr w) as [[[|]|e] w1]; reflexivity.
Qed.

Lemma choose_and_take_cons (t : transition_dict W) rest (cur : string) (w : W) :
  choose_and_take on_enter_ on_exit_ (t :: rest) cur (cur, w)
  = match guard t w with
    | (Ok true, w1) => take on_enter_ on_exit_ t cur (cur, w1)
    | (Ok false, w1) => choose_and_take on_enter_ on_exit_ rest cur (cur, w1)
    | (Raise e, w1) => (Raise e, (cur, w1))
    end.
Proof.
  unfold choose_and_take, bind, in_world. simpl. unfold bind.
  destruct (guard t w) as [[[|]|e] w1]; reflexivity.
Qed.

(** Taking a transition: the action, the old state's exit, the swap, the
    new state's entry, each only if the one before returned. *)
Lemma take_spec (m : StateMachine W) (cur : string) (t : transition_dict W) (w : W) :
  state m = state_of cur ->
  let '(r, (m', w')) :=
    (lift (action (transition_of t)) ;;;
     old <- current ;;
     lift (on_exit old) ;;;
     assign_state (dest (transition_of t)) ;;;
     new_ <- current ;;
     lift (on_enter new_))%py (m, w) in
  take on_enter_ on_exit_ t cur (cur, w) = (r, (name (state m'), w'))
  /\ (m' = m \/ m' = set_state m (state_of (d_dest t))).
Proof.
  intros Hcur.
  unfold take, bind, lift, in_world, current, assign_state, gets, modify; simpl.
  rewrite effect_action.
  destruct (effect t w) as [[[]|e] w2]; simpl; [|rewrite Hcur; simpl; auto].
  rewrite Hcur, hook_on_exit.
  destruct (hook on_exit_ cur w2) as [[[]|e] w3]; simpl; [|rewrite ?Hcur; simpl; auto].
  rewrite hook_on_enter.
  destruct (hook on_enter_ (d_dest t) w3) as [[[]|e] w4]; simpl; auto.
Qed.

(** The loop over a state's transitions against the specification's
    choose-then-take. *)
Lemma step_loop_spec (m : StateMachine W) (cur : string) :
  state m = state_of cur ->
  forall (ds : list (transition_dict W)) (w : W),
  let '(r, (m', w')) := step_loop (map transition_of ds) (m, w) in
  choose_and_take on_enter_ on_exit_ ds cur (cur, w) = (r, (name (state m'), w'))
  /\ (m' = m \/ exists t, In t ds /\ m' = set_state m (state_of (d_dest t))).
Proof.
  intros Hcur. induction ds as [|t ds IH]; intros w.
  - simpl. rewrite Hcur. simpl. auto.
  - change (map transition_of (t :: ds)) with (transition_of t :: map transition_of ds).
    rewrite step_loop_cons, choose_and_take_cons, guard_condition.
    destruct (guard t w) as [[[|]|e] w1].
    + pose proof (take_spec m cur t w1 Hcur) as Ht.
      destruct ((lift (action (transition_of t)) ;;;
                 old <- current ;;
                 lift (on_exit old) ;;;
                 assign_state (dest (transition_of t)) ;;;
                 new_ <- current ;;
                 lift (on_enter new_))%py (m, w1)) as [r [m' w']].
      destruct Ht as [Ht1 [Ht2|Ht2]]; split; auto.
      right. exists t. split; [now left | assumption].
    + specialize (IH w1).
      destruct (step_loop (map transition_of ds) (m, w1)) as [r [m' w']].
      destruct IH as [IH1 [IH2|(t' & Hin & IH2)]]; split; auto.
      right. exists t'. split; [now right | assumption].
    + rewrite Hcur. simpl. auto.
Qed.

Lemma step_unfold (m : StateMachine W) (w : W) :
  step (m, w)
  = match during (state m) w with
    | (Ok _, w1) => step_loop (transitions_from m (name (state m))) (m, w1)
    | (Raise e, w1) => (Raise e, (m, w1))
    end.
Proof.
  unfold step, bind, current, gets, lift. simpl.
  destruct (during (state m) w) as [[[]|e] w1]; reflexivity.
Qed.

Lemma step_spec_unfold (cur : string) (w : W) :
  step_spec transitions during_ on_enter_ on_exit_ (cur, w)
  = match hook during_ cur w with
    | (Ok _, w1) =>
        choose_and_take on_enter_ on_exit_ (declared_from transitions cur) cur (cur, w1)
    | (Raise e, w1) => (Raise e, (cur, w1))
    end.
Proof.
  unfold step_spec, bind, gets, in_world. simpl.
  destruct (hook during_ cur w) as [[[]|e] w1]; reflexivity.
Qed.

(** The constructor accepts only transitions between declared states. *)
Lemma build_transitions_valid (states : list string) :
  let sts := build_states states during_ on_enter_ on_exit_ in
  forall ts acc trs, build_transitions sts ts acc = Ok trs ->
  forall t, In t ts -> d_source t ∈ states /\ d_dest t ∈ states.
Proof.
  intros sts. induction ts as [|t ts IH]; intros acc trs H t' Hin; simpl in H.
  - destruct Hin.
  - destruct (sts !! d_source t) as [src|] eqn:Es; [|discriminate].
    destruct (sts !! d_dest t) as [dst|] eqn:Ed; [|discriminate].
    destruct Hin as [<-|Hin]; [|eapply IH; eauto].
    unfold sts in Es, Ed. rewrite build_states_lookup in Es, Ed.
    split; [destruct (decide (d_source t ∈ states)) as [?|Hn]
           | destruct (decide (d_dest t ∈ states)) as [?|Hn]]; auto;
      rewrite (bool_decide_eq_false_2 _ Hn) in *; discriminate.
Qed.

(** C1. A machine built by the constructor steps as the specification
    says: the current state's [during] hook runs first; then the
    transitions declared with the current state as source are examined in
    declaration order, and the first whose condition returns true (a
    transition without a condition counts as true) is taken; taking it runs
    its action, then the old state's [on_exit], then swaps the current
    state, then runs the new state's [on_enter]. At most one transition is
    taken, and when no condition holds the state is unchanged. An exception
    raised by a callback ends the step where it is raised, in both
    accounts. The machine after the step is again the constructed machine
    in one of its declared states. *)
Theorem step_takes_first_enabled (states : list string) (initial : string)
    (m : StateMachine W) :
  new states transitions initial during_ on_enter_ on_exit_ = Ok m ->
  state m = state_of initial /\ initial ∈ states /\
  forall (cur : string) (w : W),
    cur ∈ states ->
    let '(r, (m', w')) := step (set_state m (state_of cur), w) in
    step_spec transitions during_ on_enter_ on_exit_ (cur, w)
      = (r, (name (state m'), w'))
    /\ (name (state m') = cur
        \/ exists t, In t (declared_from transitions cur) /\ name (state m') = d_dest t)
    /\ m' = set_state m (state_of (name (state m')))
    /\ name (state m') ∈ states.
Proof.
  intros Hnew. unfold new in Hnew.
  destruct (bool_decide (NoDup states)); [|discriminate].
  destruct (build_states states during_ on_enter_ on_exit_ !! initial) as [init|] eqn:Ei;
    [|discriminate].
  destruct (build_transitions (build_states states during_ on_enter_ on_exit_) transitions ∅)
    as [trs|] eqn:Et; [|discriminate].
  injection Hnew as <-. simpl.
  pose proof (build_states_some _ _ _ Ei) as ->.
  rewrite build_states_lookup in Ei.
  split; [reflexivity|]. split.
  { destruct (decide (initial ∈ states)) as [?|Hn]; auto.
    rewrite (bool_decide_eq_false_2 _ Hn) in Ei. discriminate. }
  intros cur w Hcur.
  set (m0 := set_state _ (state_of cur)).
  assert (Hfrom : transitions_from m0 cur = map transition_of (declared_from transitions cur)).
  { unfold transitions_from, m0; simpl.
    rewrite (build_transitions_lookup states _ _ _ Et cur). now rewrite lookup_empty. }
  rewrite step_unfold, step_spec_unfold.
  change (state m0) with (state_of cur). change (name (state_of cur)) with cur.
  rewrite hook_during.
  destruct (hook during_ cur w) as [[[]|e] w1]; simpl.
  - rewrite Hfrom.
    pose proof (step_loop_spec m0 cur eq_refl (declared_from transitions cur) w1) as Hloop.
    destruct (step_loop (map transition_of (declared_from transitions cur)) (m0, w1))
      as [r [m' w']].
    destruct Hloop as [Hspec Hm']. split; [exact Hspec|].
    destruct Hm' as [->|(t & Hin & ->)]; simpl.
    + repeat split; auto.
    + split; [right; exists t; auto|]. split; [reflexivity|].
      apply (build_transitions_valid states _ _ _ Et t).
      unfold declared_from in Hin. apply filter_In in Hin. tauto.
  - repeat split; auto.
Qed.

(** The constructor succeeds on distinct state names, a declared initial
    state and transitions between declared states. *)
Lemma build_transitions_ok (states : list string) :
  let sts := build_states states during_ on_enter_ on_exit_ in
  forall ts acc,
  (forall t, In t ts -> d_source t ∈ states /\ d_dest t ∈ states) ->
  exists trs, build_transitions sts ts acc = Ok trs.
Proof.
  intros sts. induction ts as [|t ts IH]; intros acc H; simpl.
  - eauto.
  - destruct (H t (or_introl eq_refl)) as [Hs Hd].
    unfold sts at 1 2. rewrite !build_states_lookup.
    rewrite !bool_decide_eq_true_2 by assumption.
    apply IH. intros t' Ht'. apply H. now right.
Qed.

Lemma new_ok (states : list string) (initial : string) :
  NoDup states -> initial ∈ states ->
  (forall t, In t transitions -> d_source t ∈ states /\ d_dest t ∈ states) ->
  exists m, new states transitions initial during_ on_enter_ on_exit_ = Ok m.
Proof.
  intros Hnd Hi Ht. unfold new. rewrite bool_decide_eq_true_2 by assumption.
  rewrite build_states_lookup, bool_decide_eq_true_2 by assumption.
  destruct (build_transitions_ok states transitions ∅ Ht) as [trs ->]. eauto.
Qed.

Lemma new_states (states : list string) (initial : string) (m : StateMachine W) (n : string) :
  new states transitions initial during_ on_enter_ on_exit_ = Ok m ->
  _states m !! n = if bool_decide (n ∈ states) then Some (state_of n) else None.
Proof.
  intros Hnew. unfold new in Hnew.
  destruct (bool_decide (NoDup states)); [|discriminate].
  destruct (build_states states during_ on_enter_ on_exit_ !! initial); [|discriminate].
  destruct (build_transitions _ transitions ∅); [|discriminate].
  injection Hnew as <-. simpl. apply build_states_lookup.
Qed.

(** A step of a constructed machine, put into any state by name, is the
    specification's step from that name. *)
Lemma step_matches_spec (states : list string) (initial : string) (m : StateMachine W) :
  new states transitions initial during_ on_enter_ on_exit_ = Ok m ->
  forall (cur : string) (w : W),
  let '(r, (m', w')) := step (set_state m (state_of cur), w) in
  step_spec transitions during_ on_enter_ on_exit_ (cur, w) = (r, (name (state m'), w')).
Proof.
  intros Hnew. unfold new in Hnew.
  destruct (bool_decide (NoDup states)); [|discriminate].
  destruct (build_states states during_ on_enter_ on_exit_ !! initial) as [init|] eqn:Ei;
    [|discriminate].
  destruct (build_transitions (build_states states during_ on_enter_ on_exit_) transitions ∅)
    as [trs|] eqn:Et; [|discriminate].
  injection Hnew as <-. intros cur w.
  set (m0 := set_state _ (state_of cur)).
  assert (Hfrom : transitions_from m0 cur = map transition_of (declared_from transitions cur)).
  { unfold transitions_from, m0; simpl.
    rewrite (build_transitions_lookup states _ _ _ Et cur). now rewrite lookup_empty. }
  rewrite step_unfold, step_spec_unfold.
  change (state m0) with (state_of cur). change (name (state_of cur)) with cur.
  rewrite hook_during.
  destruct (hook during_ cur w) as [[[]|e] w1].
  - rewrite Hfrom.
    pose proof (step_loop_spec m0 cur eq_refl (declared_from transitions cur) w1) as Hloop.
    destruct (step_loop (map transition_of (declared_from transitions cur)) (m0, w1))
      as [r [m' w']].
    exact (proj1 Hloop).
  - reflexivity.
Qed.

(** A step of a constructed machine ends in the state it starts in or in
    the destination of a transition declared from it. *)
Lemma step_stays_or_follows (states : list string) (initial : string)
    (m : StateMachine W) :
  new states transitions initial during_ on_enter_ on_exit_ = Ok m ->
  forall (cur : string) (w : W),
  let '(r, (m', w')) := step (set_state m (state_of cur), w) in
  name (state m') = cur
  \/ exists t, In t (declared_from transitions cur) /\ name (state m') = d_dest t.
Proof.
  intros Hnew. unfold new in Hnew.
  destruct (bool_decide (NoDup states)); [|discriminate].
  destruct (build_states states during_ on_enter_ on_exit_ !! initial) as [init|] eqn:Ei;
    [|discriminate].
  destruct (build_transitions (build_states states during_ on_enter_ on_exit_) transitions ∅)
    as [trs|] eqn:Et; [|discriminate].
  injection Hnew as <-. intros cur w.
  set (m0 := set_state _ (state_of cur)).
  assert (Hfrom : transitions_from m0 cur = map transition_of (declared_from transitions cur)).
  { unfold transitions_from, m0; simpl.
    rewrite (build_transitions_lookup states _ _ _ Et cur). now rewrite lookup_empty. }
  rewrite step_unfold.
  change (state m0) with (state_of cur). change (name (state_of cur)) with cur.
  destruct (during (state_of cur) w) as [[[]|e] w1].
  - rewrite Hfrom.
    pose proof (step_loop_spec m0 cur eq_refl (declared_from transitions cur) w1) as Hloop.
    destruct (step_loop (map transition_of (declared_from transitions cur)) (m0, w1))
      as [r [m' w']].
    destruct Hloop as [_ [->|(t & Hin & ->)]]; [now left|].
    right. exists t. split; [exact Hin | reflexivity].
  - now left.
Qed.

End Facts.
(** tests/state_machine_test.py, [test_simple_condition]. *)
Example test_simple_condition :
  StateMachineTests.run_steps 4 StateMachineTests.simple_condition 0%nat = Some ("one", 4%nat)
  /\ StateMachineTests.run_steps 5 StateMachineTests.simple_condition 0%nat = Some ("two", 5%nat)
  /\ StateMachineTests.run_steps 6 StateMachineTests.simple_condition 0%nat = Some ("one", 5%nat)
  /\ StateMachineTests.run_steps 7 StateMachineTests.simple_condition 0%nat = Some ("one", 6%nat).
Proof. repeat split; vm_compute; reflexivity. Qed.

(** One step of a machine whose callbacks log their names: the condition
    that fails is examined first, the second transition declared from "one"
    is the one taken, and the third is never looked at. *)
Example step_order_logged :
  StateMachineTests.run_steps 1 StateMachineTests.logged []
  = Some ("two", ["during one"; "first condition"; "second action"; "exit one"; "enter two"]).
Proof. vm_compute. reflexivity. Qed.

Lemma step_takes_first_enabled_witness :
  match StateMachineTests.simple_condition with
  | Ok m =>
      let '(r, (m', w')) :=
        step (set_state m (state_of {[ "one"%string := StateMachineTests.increment ]} ∅ ∅ "one"),
              4%nat) in
      name (state m') = "one"
      \/ exists t,
           In t (declared_from
                   [ mk_transition_dict "one" "two" (Some StateMachineTests.x_is_five) None;
                     mk_transition_dict "two" "one" None None ] "one")
           /\ name (state m') = d_dest t
  | Raise _ => False
  end.
Proof.
  destruct StateMachineTests.simple_condition as [m|e] eqn:E.
  - pose proof (step_takes_first_enabled _ _ _ _ _ _ m E) as (_ & _ & H).
    specialize (H "one"%string 4%nat ltac:(apply list_elem_of_here)).
    destruct (step _) as [r [m' w']]. tauto.
  - vm_compute in E. discriminate.
Defined.


End StateMachineFacts.

(** ** sql.py *)

Module SQLFacts.
Import SQL SQLSpec.

Lemma create_engine_ok (c : credentials) (s : Store) :
  on_connect (server s) (length (connected s)) = None ->
  _create_engine c s
  = (Ok tt, mk_Store (server s)
                     (mk_SQLEngine (_saved (engine s)) (_created (engine s))
                                   (Some (length (connected s))) (Some (length (connected s))))
                     (executed s) (connected s ++ [c])).
Proof. intros H. unfold _create_engine. rewrite H. reflexivity. Qed.

Lemma try_body_cursor (q : string) (p : list string) (s : Store) (cur : nat) :
  _cursor (engine s) = Some cur ->
  try_body q p s
  = (Ok (on_execute (server s) (length (executed s)) q p),
     mk_Store (server s) (engine s) (executed s ++ [(cur, q, p)]) (connected s)).
Proof. intros H. unfold try_body. rewrite H. reflexivity. Qed.

Lemma try_body_no_cursor (q : string) (p : list string) (s : Store) :
  _cursor (engine s) = None ->
  try_body q p s = (Ok (Failed AttributeError), s).
Proof. intros H. unfold try_body. rewrite H. reflexivity. Qed.

(** One round of [execute] on an engine that has a cursor. *)
Lemma execute_round (calls : nat) (q : string) (p : list string) (s : Store) (cur : nat) :
  _cursor (engine s) = Some cur ->
  let s1 := mk_Store (server s) (engine s) (executed s ++ [(cur, q, p)]) (connected s) in
  let a := on_execute (server s) (length (executed s)) q p in
  execute (S calls) q (Some p) s
  = if is_transport a then
      match _create_engine (_saved (engine s)) s1 with
      | (Ok _, s2) => execute calls q (Some p) s2
      | (Raise e, s2) => Some (Raise e, s2)
      end
    else Some (surfaced a, s1).
Proof.
  intros Hcur s1 a. cbn [execute default from_option id].
  rewrite (try_body_cursor q p s cur Hcur).
  fold s1. fold a. destruct a as [rs|e]; [reflexivity|].
  destruct e; reflexivity.
Qed.

(** One round on an engine that has none: the [AttributeError] is met
    before anything is sent. *)
Lemma execute_round_no_cursor (calls : nat) (q : string) (p : list string) (s : Store) :
  _cursor (engine s) = None ->
  execute (S calls) q (Some p) s
  = match _create_engine (_saved (engine s)) s with
    | (Ok _, s2) => execute calls q (Some p) s2
    | (Raise e, s2) => Some (Raise e, s2)
    end.
Proof.
  intros Hcur. cbn [execute default from_option id].
  now rewrite (try_body_no_cursor q p s Hcur).
Qed.

(** The retries of an engine that has a cursor. *)
Lemma execute_retries_from_cursor (q : string) (p : list string) (k : nat) :
  forall (calls : nat) (s : Store) (cur : nat),
  (k < calls)%nat ->
  _cursor (engine s) = Some cur ->
  (forall i, (i < k)%nat ->
     is_transport (on_execute (server s) (length (executed s) + i) q p) = true) ->
  (forall i, (i < k)%nat -> on_connect (server s) (length (connected s) + i) = None) ->
  is_transport (on_execute (server s) (length (executed s) + k) q p) = false ->
  execute calls q (Some p) s
  = Some (surfaced (on_execute (server s) (length (executed s) + k) q p),
          mk_Store (server s)
                   (engine_after (engine s) (length (connected s)) k)
                   (executed s ++ map (fun c => (c, q, p))
                                      (cur :: seq (length (connected s)) k))
                   (connected s ++ repeat (_saved (engine s)) k)).
Proof.
  induction k as [|k IH]; intros calls s cur Hcalls Hcur Hlost Hconn Hlast.
  - destruct calls as [|calls]; [lia|].
    rewrite Nat.add_0_r in *.
    rewrite (execute_round calls q p s cur Hcur). rewrite Hlast.
    cbn [engine_after seq map repeat]. now rewrite app_nil_r.
  - destruct calls as [|calls]; [lia|].
    rewrite (execute_round calls q p s cur Hcur).
    pose proof (Hlost O ltac:(lia)) as H0. rewrite Nat.add_0_r in H0. rewrite H0.
    rewrite create_engine_ok;
      [|cbn [server connected]; specialize (Hconn O ltac:(lia));
        now rewrite Nat.add_0_r in Hconn].
    cbn [server engine executed connected _saved _created].
    set (m := length (connected s)).
    set (s2 := mk_Store _ _ _ _).
    assert (He : length (executed s2) = S (length (executed s))).
    { unfold s2. cbn [executed]. rewrite length_app. cbn. lia. }
    assert (Hc : length (connected s2) = S m).
    { unfold s2. cbn [connected]. rewrite length_app. cbn. lia. }
    rewrite (IH calls s2 m); [|lia|reflexivity| | |].
    + rewrite He, Hc. unfold s2. cbn [server engine executed connected _saved _created].
      replace (S (length (executed s)) + k)%nat with (length (executed s) + S k)%nat by lia.
      f_equal. f_equal. f_equal.
      * destruct k as [|k]; cbn [engine_after _saved _created].
        -- now rewrite Nat.add_0_r.
        -- f_equal; f_equal; lia.
      * rewrite <- app_assoc. reflexivity.
      * rewrite <- app_assoc. reflexivity.
    + intros i Hi. rewrite He. change (server s2) with (server s).
      replace (S (length (executed s)) + i)%nat with (length (executed s) + S i)%nat by lia.
      apply Hlost. lia.
    + intros i Hi. rewrite Hc. change (server s2) with (server s).
      replace (S m + i)%nat with (m + S i)%nat by lia.
      apply Hconn. lia.
    + rewrite He. change (server s2) with (server s).
      replace (S (length (executed s)) + k)%nat with (length (executed s) + S k)%nat by lia.
      exact Hlast.
Qed.

(** C2, as amended. After each transport error [execute] rebuilds the
    connection from the saved credentials and runs itself again on the same
    query and parameters, as many times as the error recurs. If the first
    [k] statements sent meet a transport error and the connects succeed,
    [k + 1] statements are sent, all with the given query and parameters:
    the first on the cursor the engine had and each later one on the cursor
    of the connection just rebuilt. [k] connects are made with the saved
    credentials; an engine that has no cursor meets an [AttributeError]
    before anything is sent and makes one connect more, at the start. The
    engine is left holding the last connection and its cursor, and the
    caller gets what the last attempt comes to: the fetched rows, or an
    [SQLEngineException] for any other [MySQLdb.Error]. *)
Theorem execute_retries_until_answered (q : string) (p : list string) (k : nat)
    (calls : nat) (s : Store) :
  let n := reconnects (_cursor (engine s)) k in
  (n < calls)%nat ->
  (forall i, (i < k)%nat ->
     is_transport (on_execute (server s) (length (executed s) + i) q p) = true) ->
  (forall i, (i < n)%nat -> on_connect (server s) (length (connected s) + i) = None) ->
  is_transport (on_execute (server s) (length (executed s) + k) q p) = false ->
  execute calls q (Some p) s
  = Some (surfaced (on_execute (server s) (length (executed s) + k) q p),
          mk_Store (server s)
                   (engine_after (engine s) (length (connected s)) n)
                   (executed s ++ map (fun c => (c, q, p))
                                      (cursors_used (_cursor (engine s))
                                                    (length (connected s)) k))
                   (connected s ++ repeat (_saved (engine s)) n)).
Proof.
  intros n Hcalls Hlost Hconn Hlast. subst n.
  destruct (_cursor (engine s)) as [cur|] eqn:Hcur; cbn [reconnects cursors_used] in *.
  - exact (execute_retries_from_cursor q p k calls s cur Hcalls Hcur Hlost Hconn Hlast).
  - destruct calls as [|calls]; [lia|].
    rewrite (execute_round_no_cursor calls q p s Hcur).
    rewrite create_engine_ok;
      [|specialize (Hconn O ltac:(lia)); now rewrite Nat.add_0_r in Hconn].
    set (m := length (connected s)).
    set (s2 := mk_Store _ _ _ _).
    assert (Hc : length (connected s2) = S m).
    { unfold s2. cbn [connected]. rewrite length_app. cbn. lia. }
    rewrite (execute_retries_from_cursor q p k calls s2 m); [|lia|reflexivity| | |].
    + rewrite Hc. unfold s2. cbn [server engine executed connected _saved _created].
      f_equal. f_equal. f_equal.
      * destruct k as [|k]; cbn [engine_after _saved _created].
        -- now rewrite Nat.add_0_r.
        -- f_equal; f_equal; lia.
      * rewrite <- app_assoc. reflexivity.
    + intros i Hi. apply Hlost. exact Hi.
    + intros i Hi. rewrite Hc. change (server s2) with (server s).
      replace (S m + i)%nat with (m + S i)%nat by lia.
      apply Hconn. lia.
    + exact Hlast.
Qed.

(** The connection is lost twice: three statements, the first on the
    cursor made by [init_sql()] and the others on those of the second and
    third connection, which the engine is left with. *)
Lemma execute_retries_until_answered_witness :
  exists s' : Store,
    execute 10 "SELECT 1" (Some []) (after_init (lossy 2 [["1"]])) = Some (Ok [["1"]], s')
    /\ executed s' = [(0, "SELECT 1", []); (1, "SELECT 1", []); (2, "SELECT 1", [])]%nat
    /\ connected s' = [localhost; localhost; localhost]
    /\ _cursor (engine s') = Some 2%nat.
Proof.
  eexists. split.
  - apply (execute_retries_until_answered "SELECT 1" [] 2 10 (after_init (lossy 2 [["1"]]))).
    + vm_compute. lia.
    + intros [|[|i]] Hi; [reflexivity | reflexivity | lia].
    + intros [|[|i]] Hi; [reflexivity | reflexivity | vm_compute in Hi; lia].
    + reflexivity.
  - repeat split; reflexivity.
Defined.

(** C2 as stated fails: a connection lost twice is rebuilt twice, and the
    query is sent three times. *)
Lemma execute_retries_twice :
  exists s',
    execute 10 "SELECT 1" None (after_init (lossy 2 [["1"]])) = Some (Ok [["1"]], s')
    /\ map snd (executed s') = [[]; []; []]
    /\ map (fun x => snd (fst x)) (executed s') = ["SELECT 1"; "SELECT 1"; "SELECT 1"]
    /\ length (connected (after_init (lossy 2 [["1"]]))) = 1%nat
    /\ length (connected s') = 3%nat.
Proof. eexists. split; [vm_compute; reflexivity|]. repeat split. Qed.



End SQLFacts.

(** ** auth/duo.py *)

Module AuthFacts.
Import Auth AuthSpec.
Local Open Scope Z_scope.

Lemma AUTH_TIME_two_hours : AUTH_TIME = 2 * 60 * 60 * 1000000.
Proof. reflexivity. Qed.

(** Along any run, an [AUTHORIZED] object carries the time of the latest
    successful observation. *)
Lemma stamp_is_latest_observation (cs : list call) :
  forall (self : DuoAuth) (last : option Z),
  (state self = AUTHORIZED -> last = Some (auth_time self)) ->
  let '(self', last') := run_observing cs self last in
  state self' = AUTHORIZED -> last' = Some (auth_time self').
Proof.
  induction cs as [|c cs IH]; intros self last Hinv; simpl.
  - exact Hinv.
  - apply IH. destruct c as [client reason|client now|]; simpl.
    + discriminate.
    + unfold auth_status.
      destruct self as [u tx t st]. simpl in *.
      destruct st; simpl; auto; try discriminate.
      * destruct (waiting (client_auth_status client tx)); simpl; [discriminate|].
        destruct (success (client_auth_status client tx)); simpl; [reflexivity|discriminate].
      * destruct (_recently_authed now _); simpl; [auto|discriminate].
    + discriminate.
Qed.

(** C5. A poll that finds the object [PENDING] and is told of a success
    stamps [auth_time] with the time of the poll and returns [AUTHORIZED];
    a poll of an [AUTHORIZED] object returns [AUTHORIZED] exactly while
    [now - auth_time < AUTH_TIME], and otherwise puts the object back to
    [NONE] and returns [NONE]; so along any run of calls on a new object a
    poll returns [AUTHORIZED] only within [AUTH_TIME] = 2 hours of the
    latest successful observation, which is the stamp the object carries. *)
Theorem authorized_only_within_auth_time :
  AUTH_TIME = Util.hours 2 /\
  (forall (client : DuoClient) (now : Z) (self : DuoAuth),
     state self = PENDING ->
     waiting (client_auth_status client (txid self)) = false ->
     success (client_auth_status client (txid self)) = true ->
     auth_status client now self
     = (AUTHORIZED, mk_DuoAuth (username self) (txid self) now AUTHORIZED)) /\
  (forall (client : DuoClient) (now : Z) (self : DuoAuth),
     state self = AUTHORIZED ->
     (now - auth_time self < AUTH_TIME -> auth_status client now self = (AUTHORIZED, self)) /\
     (AUTH_TIME <= now - auth_time self ->
        auth_status client now self
        = (NONE, mk_DuoAuth (username self) (txid self) (auth_time self) NONE))) /\
  (forall (user : string) (cs : list call) (client : DuoClient) (now : Z),
     let '(self, last) := run_observing cs (new user) None in
     let '(self', last') := run_observing [CallStatus client now] self last in
     fst (auth_status client now self) = AUTHORIZED ->
     exists t, last' = Some t /\ auth_time self' = t /\ now - t < AUTH_TIME).
Proof.
  split; [reflexivity|]. split; [|split].
  - intros client now self Hst Hw Hs. unfold auth_status. rewrite Hst, Hw, Hs. reflexivity.
  - intros client now self Hst. unfold auth_status, _recently_authed. rewrite Hst. split; intros H.
    + apply Z.ltb_lt in H. rewrite H. simpl. now rewrite Hst.
    + apply Z.ltb_ge in H. rewrite H. reflexivity.
  - intros user cs client now.
    pose proof (stamp_is_latest_observation cs (new user) None) as Hinv.
    destruct (run_observing cs (new user) None) as [self last].
    specialize (Hinv ltac:(discriminate)).
    simpl. unfold auth_status, _recently_authed.
    destruct self as [u tx t st]. simpl in *.
    destruct st; simpl; try discriminate.
    + destruct (waiting (client_auth_status client tx)); simpl; [discriminate|].
      destruct (success (client_auth_status client tx)); simpl; [|discriminate].
      intros _. exists now. repeat split. unfold AUTH_TIME, Util.hours, Util.HOUR, Util.MINUTE, Util.SECOND. lia.
    + destruct (now - t <? AUTH_TIME) eqn:E; simpl; [|discriminate].
      intros _. exists t. apply Z.ltb_lt in E. rewrite (Hinv eq_refl). repeat split. exact E.
Qed.

(** A push is approved and observed at 09:00; polls at 10:59 and at 11:00
    find the object [AUTHORIZED] and past its time. *)
Lemma authorized_only_within_auth_time_witness :
  let self := run_calls [CallAuth approving (Some "ssh as root");
                         CallStatus approving (Util.hours 9)] (new "alice") in
  state self = AUTHORIZED /\ auth_time self = Util.hours 9 /\
  auth_status approving (Util.hours 10 + Util.minutes 59) self = (AUTHORIZED, self) /\
  fst (auth_status approving (Util.hours 11) self) = NONE.
Proof.
  destruct authorized_only_within_auth_time as (_ & _ & H & _).
  set (self := run_calls _ _). cbv zeta.
  destruct (H approving (Util.hours 10 + Util.minutes 59) self eq_refl) as [H1 _].
  destruct (H approving (Util.hours 11) self eq_refl) as [_ H2].
  split; [reflexivity|]. split; [reflexivity|]. split.
  - apply H1. vm_compute. reflexivity.
  - rewrite H2; [reflexivity | vm_compute; discriminate].
Defined.

End AuthFacts.

(** ** Python 2 text *)

Module TextFacts.
Import Text.
Local Open Scope Z_scope.

Lemma bytes_of_bytes l : bytes (of_bytes l) = l.
Proof. apply list_ascii_of_string_of_list_ascii. Qed.
Lemma of_bytes_bytes s : of_bytes (bytes s) = s.
Proof. apply string_of_list_ascii_of_string. Qed.

Ltac each_byte c :=
  destruct c as [[] [] [] [] [] [] [] []]; vm_compute; try reflexivity; try discriminate; auto.

Lemma lower_byte_idem c : lower_byte (lower_byte c) = lower_byte c.
Proof. each_byte c. Qed.
Lemma lower_byte_not_upper c : is_upper (lower_byte c) = false.
Proof. each_byte c. Qed.
Lemma lower_byte_ascii c : is_ascii (lower_byte c) = is_ascii c.
Proof. each_byte c. Qed.

Lemma all_ascii_lower s : all_ascii (lower s) = all_ascii s.
Proof.
  unfold all_ascii, lower. rewrite bytes_of_bytes.
  induction (bytes s) as [|c l IH]; simpl; [reflexivity|].
  now rewrite lower_byte_ascii, IH.
Qed.

Lemma lower_idem s : lower (lower s) = lower s.
Proof.
  unfold lower. rewrite bytes_of_bytes, map_map. f_equal.
  apply map_ext. intros c. apply lower_byte_idem.
Qed.

(** White-space splitting yields nothing exactly on blank text. *)
Lemma split_runs_nil {A} (space : A -> bool) (l : list A) :
  split_runs space l [] = [] <-> forallb space l = true.
Proof.
  assert (G : forall l cur, cur <> [] -> split_runs space l cur <> []).
  { clear l. induction l as [|c l IH]; intros cur Hc; simpl.
    - destruct cur; [congruence | discriminate].
    - destruct (space c).
      + destruct cur; [congruence | discriminate].
      + apply IH. discriminate. }
  induction l as [|c l IH]; simpl; [tauto|].
  destruct (space c); simpl; [exact IH|].
  split; [|discriminate]. intros H. exfalso. revert H. apply G. discriminate.
Qed.

Lemma split_nil s : split s = [] <-> forallb is_space (bytes s) = true.
Proof.
  unfold split. rewrite <- split_runs_nil.
  destruct (split_runs is_space (bytes s) []); simpl; split; congruence.
Qed.

Lemma text_split_nil lib t :
  text_split lib t = [] <->
  match t with
  | Str s => forallb is_space (bytes s) = true
  | Unicode u => forallb (unicode_isspace lib) u = true
  end.
Proof.
  destruct t as [s|u]; simpl.
  - rewrite <- split_nil. destruct (split s); simpl; split; congruence.
  - rewrite <- split_runs_nil.
    destruct (split_runs (unicode_isspace lib) u []); simpl; split; congruence.
Qed.

End TextFacts.

(** ** bot.py: command keys *)

Module CommandKeyFacts.
Import Text Bot BotSpec TextFacts.
Local Open Scope Z_scope.

Lemma translate_delete_no_punctuation s :
  no_punctuation (translate_delete PUNCTUATION s) = true.
Proof.
  unfold no_punctuation, translate_delete, is_punctuation. rewrite bytes_of_bytes.
  apply forallb_forall. intros c Hc. apply filter_In in Hc. tauto.
Qed.

(** Nothing is removed from a string without punctuation. *)
Lemma translate_delete_id s :
  no_punctuation s = true -> translate_delete PUNCTUATION s = s.
Proof.
  unfold no_punctuation, translate_delete, is_punctuation. intros H.
  rewrite <- (of_bytes_bytes s) at 2. f_equal.
  induction (bytes s) as [|c l IH]; simpl in *; [reflexivity|].
  apply andb_prop in H as [Hc Hl]. rewrite Hc. f_equal. auto.
Qed.

Lemma lower_byte_punctuation c : is_punctuation (lower_byte c) = is_punctuation c.
Proof. each_byte c. Qed.

Lemma no_punctuation_lower s : no_punctuation (lower s) = no_punctuation s.
Proof.
  unfold no_punctuation, lower. rewrite bytes_of_bytes.
  induction (bytes s) as [|c l IH]; simpl; [reflexivity|].
  now rewrite lower_byte_punctuation, IH.
Qed.

Lemma all_ascii_translate_delete s :
  all_ascii s = true -> all_ascii (translate_delete PUNCTUATION s) = true.
Proof.
  unfold all_ascii, translate_delete. rewrite bytes_of_bytes. intros H.
  apply forallb_forall. intros c Hc. apply filter_In in Hc as [Hc _].
  eapply forallb_forall in H; eauto.
Qed.

Lemma map_filter_map_idem {A} (f : A -> A) (keep : A -> bool) (l : list A) :
  (forall x, f (f x) = f x) ->
  map f (List.filter keep (map f l)) = List.filter keep (map f l).
Proof.
  intros Hf. induction l as [|c l IH]; simpl; [reflexivity|].
  destruct (keep (f c)); simpl; [rewrite Hf|]; now rewrite IH.
Qed.

Lemma translate_delete_lower s :
  lower (translate_delete PUNCTUATION (lower s)) = translate_delete PUNCTUATION (lower s).
Proof.
  unfold translate_delete, lower. rewrite !bytes_of_bytes. f_equal.
  apply map_filter_map_idem, lower_byte_idem.
Qed.

Lemma canonical_lowered s :
  canonical (translate_delete PUNCTUATION (lower s)) = true.
Proof.
  unfold canonical, translate_delete, lower, is_punctuation. rewrite !bytes_of_bytes.
  apply forallb_forall. intros c Hc. apply filter_In in Hc as [Hc Hp].
  apply in_map_iff in Hc as (c0 & <- & _).
  rewrite lower_byte_not_upper. simpl. exact Hp.
Qed.

Lemma code_chr n : 0 <= n < 256 -> code (chr n) = n.
Proof.
  intros H. unfold code, chr. rewrite N_ascii_embedding by lia. lia.
Qed.

Lemma punctuation_is_ascii c : is_punctuation c = true -> is_ascii c = true.
Proof. each_byte c. Qed.

Lemma lower_byte_id c : is_upper c = false -> lower_byte c = c.
Proof. intros H. unfold lower_byte. now rewrite H. Qed.

(** The byte of a code point below 128 that is no upper-case letter. *)
Lemma chr_not_upper c : c < 128 -> is_upper_code c = false -> is_upper (chr c) = false.
Proof.
  intros Hc Hu. destruct (Z.neg_nonneg_cases c) as [Hneg|Hpos].
  - destruct c; try lia. reflexivity.
  - unfold is_upper. rewrite code_chr by lia. exact Hu.
Qed.

(** A continuation byte of UTF-8 is kept by the deletion of punctuation
    and is not ASCII. *)
Lemma continuation_byte c :
  is_ascii (chr (128 + c mod 64)) = false
  /\ is_punctuation (chr (128 + c mod 64)) = false.
Proof.
  pose proof (Z.mod_pos_bound c 64 ltac:(lia)) as Hm.
  assert (Ha : is_ascii (chr (128 + c mod 64)) = false).
  { unfold is_ascii. rewrite code_chr by lia. apply Z.ltb_ge. lia. }
  split; [exact Ha|].
  destruct (is_punctuation (chr (128 + c mod 64))) eqn:E; [|reflexivity].
  apply punctuation_is_ascii in E. congruence.
Qed.

Lemma utf8_last c : 128 <= c -> In (chr (128 + c mod 64)) (utf8 c).
Proof.
  intros Hc. unfold utf8. destruct (Z.ltb_spec c 128); [lia|].
  destruct (c <? 2048); [|destruct (c <? 65536)]; simpl; auto 6.
Qed.

(** The bytes of one lowered code point in an ASCII key. *)
Lemma utf8_key_step c :
  let keep := fun b => negb (existsb (Ascii.eqb b) (bytes PUNCTUATION)) in
  is_upper_code c = false ->
  forallb is_ascii (List.filter keep (utf8 c)) = true ->
  map lower_byte (List.filter keep (utf8 c)) = List.filter keep (utf8 c).
Proof.
  intros keep Hu Ha. destruct (Z.ltb_spec c 128) as [Hlt|Hge].
  - unfold utf8. apply Z.ltb_lt in Hlt as Hlt'. rewrite Hlt'. cbn [List.filter].
    destruct (keep (chr c)); [|reflexivity]. cbn [map]. f_equal.
    apply lower_byte_id, chr_not_upper; assumption.
  - exfalso. destruct (continuation_byte c) as [Hna Hnp].
    rewrite forallb_forall in Ha.
    specialize (Ha (chr (128 + c mod 64))). rewrite Hna in Ha.
    assert (true = true -> False); [|auto]. intros _.
    assert (Hin : In (chr (128 + c mod 64)) (List.filter keep (utf8 c))).
    { apply filter_In. split; [now apply utf8_last|].
      unfold keep. fold (is_punctuation (chr (128 + c mod 64))). now rewrite Hnp. }
    specialize (Ha Hin). discriminate.
Qed.

(** An ASCII key made from [unicode] text has no upper-case letter. *)
Lemma unicode_key_lowered (lib : Library) (u : list Z) :
  lowers lib ->
  let r := translate_delete PUNCTUATION
             (of_bytes (flat_map utf8 (map (unicode_lower lib) u))) in
  all_ascii r = true -> lower r = r.
Proof.
  intros Hl r Ha. subst r. unfold all_ascii, lower, translate_delete in *.
  rewrite !bytes_of_bytes in *. f_equal.
  assert (Hall : forall c, In c (List.map (unicode_lower lib) u) -> is_upper_code c = false).
  { intros c Hc. apply in_map_iff in Hc as (c0 & <- & _). apply Hl. }
  revert Hall Ha. generalize (List.map (unicode_lower lib) u) as l. clear u.
  induction l as [|c l IH]; intros Hall Ha; [reflexivity|].
  change (flat_map utf8 (c :: l)) with (utf8 c ++ flat_map utf8 l) in *.
  rewrite List.filter_app in *. rewrite forallb_app in Ha.
  apply andb_prop in Ha as [Hc Hu]. rewrite List.map_app. f_equal.
  - apply utf8_key_step; [apply Hall; now left | exact Hc].
  - apply IH; [intros c' Hc'; apply Hall; now right | exact Hu].
Qed.

(** C10, as amended. On a byte string [clean_command] either raises
    [UnicodeDecodeError] (the string has a byte above 127) or returns a key
    that is ASCII, has no upper-case letter and none of the punctuation
    characters, and that [clean_command] maps to itself. On a [unicode]
    string it returns the UTF-8 bytes of the lowered text without the
    punctuation characters. When that key is ASCII it has no upper-case
    letter either, [unicode.lower] yielding none, and [clean_command] maps
    it to itself; when it is not, [clean_command] raises
    [UnicodeDecodeError] on it. So [clean_command] is idempotent wherever
    it returns an ASCII key, and nowhere else. *)
Theorem clean_command_idempotent_on_str (lib : Library) :
  (forall s : string,
     match clean_command lib (Str s) with
     | Ok r => all_ascii s = true /\ all_ascii r = true /\ canonical r = true
               /\ clean_command lib (Str r) = Ok r
     | Raise e => e = UnicodeDecodeError /\ all_ascii s = false
     end) /\
  (lowers lib ->
   forall u : list Z,
     exists r, clean_command lib (Unicode u) = Ok r
       /\ no_punctuation r = true
       /\ (all_ascii r = true -> canonical r = true /\ clean_command lib (Str r) = Ok r)
       /\ (all_ascii r = false -> clean_command lib (Str r) = Raise UnicodeDecodeError)).
Proof.
  split.
  - intros s. unfold clean_command. simpl. rewrite all_ascii_lower.
    destruct (all_ascii s) eqn:Ea; [|split; reflexivity].
    split; [reflexivity|]. split; [|split].
    + apply all_ascii_translate_delete. now rewrite all_ascii_lower.
    + apply canonical_lowered.
    + rewrite all_ascii_lower, all_ascii_translate_delete by now rewrite all_ascii_lower.
      rewrite translate_delete_lower.
      rewrite translate_delete_id; [reflexivity | apply translate_delete_no_punctuation].
  - intros Hl u. unfold clean_command at 1. simpl. eexists. split; [reflexivity|].
    set (r := translate_delete PUNCTUATION _).
    assert (Hr : no_punctuation r = true) by apply translate_delete_no_punctuation.
    split; [exact Hr|]. unfold clean_command. simpl. rewrite all_ascii_lower.
    split; intros Ha; rewrite Ha; [|reflexivity].
    pose proof (unicode_key_lowered lib u Hl Ha) as Hlow. fold r in Hlow.
    rewrite Hlow. split.
    + rewrite <- Hlow, <- (translate_delete_id (lower r)) by now rewrite no_punctuation_lower.
      apply canonical_lowered.
    + now rewrite translate_delete_id.
Qed.

(** Three keys: of a byte string, of [unicode] text that is ASCII once
    lowered (U+212A KELVIN SIGN lowers to k), and again of the key. *)
Lemma clean_command_idempotent_on_str_witness :
  lowers kelvin_library
  /\ clean_command kelvin_library (Str "Ignore!") = Ok "ignore"
  /\ clean_command kelvin_library (Str "ignore") = Ok "ignore"
  /\ clean_command kelvin_library (Unicode [8490; 33]) = Ok "k"
  /\ clean_command kelvin_library (Str "k") = Ok "k".
Proof.
  assert (Hl : lowers kelvin_library).
  { intros c. unfold kelvin_library, ascii_library, is_upper_code. cbn [unicode_lower].
    destruct (Z.eqb_spec c 8490); [reflexivity|].
    destruct (Z.leb_spec 65 c), (Z.leb_spec c 90); cbn [andb];
      try (apply andb_false_iff; first [left; apply Z.leb_gt; lia | right; apply Z.leb_gt; lia]). }
  split; [exact Hl|].
  destruct (clean_command_idempotent_on_str kelvin_library) as [H1 H2].
  pose proof (H1 "Ignore!") as Hs.
  change (clean_command kelvin_library (Str "Ignore!")) with (@Ok string "ignore") in Hs.
  destruct (H2 Hl [8490; 33]) as (r & Er & _ & Hk & _).
  change (clean_command kelvin_library (Unicode [8490; 33])) with (@Ok string "k") in Er.
  injection Er as <-.
  split; [reflexivity|]. split; [apply Hs|]. split; [reflexivity|].
  apply (Hk eq_refl).
Defined.

(** C10 as stated fails on a [unicode] command with a character outside
    ASCII: the key is its UTF-8 encoding, and [clean_command] raises on
    that key, since [str.encode] first decodes it as ASCII. U+00E9 is a
    lower-case letter, which [unicode.lower] leaves as it is. *)
Lemma clean_command_not_idempotent :
  clean_command ascii_library e_acute = Ok e_acute_utf8
  /\ clean_command ascii_library (Str e_acute_utf8) = Raise UnicodeDecodeError.
Proof. split; vm_compute; reflexivity. Qed.

End CommandKeyFacts.

(** ** Scenarios of the specification, run on the model *)

Module ScenarioFacts.
Import Tasker Auth World Scenario.

(** The deny path: admit, alert, "no I did not", finish. *)
Example deny_path :
  session alice_ref
    [ Bot._add_task 0; User.negative_response alice_ref "I did not"; ret tt ] world0
  = ["action_performed_check"; "task_finished"; "need_task"].
Proof. vm_compute. reflexivity. Qed.

(** The happy 2FA path. *)
Example happy_path :
  session alice_ref
    [ Bot._add_task 0; User.positive_response alice_ref "I did this";
      User.positive_response alice_ref ""; ret tt; ret tt ] world0
  = ["action_performed_check"; "auth_permission_check"; "waiting_on_auth";
     "task_finished"; "need_task"].
Proof. vm_compute. reflexivity. Qed.

Example happy_path_outcome :
  let w := session_end alice_ref
             [ Bot._add_task 0; User.positive_response alice_ref "I did this";
               User.positive_response alice_ref ""; ret tt; ret tt ] world0 in
  alert_status (db w) !! "AB12"%string = Some VERIFICATION
  /\ user_responses (db w) !! "AB12"%string = Some (mk_response_row "I did this" true true)
  /\ active_users (bot w) = ∅
  /\ is_Some (default ∅ (ignored (db w) !! "alice"%string) !! "ssh_root"%string).
Proof. vm_compute. repeat split; eauto. Qed.

End ScenarioFacts.

(** ** bot.py: messages *)

Module MessageFacts.
Import Text World Bot BotSpec TextFacts.

Lemma for_each_app {S A} (body : A -> M S unit) (pre : list A) (x : A) (post : list A) (s : S) :
  for_each (pre ++ x :: post) body s
  = match for_each pre body s with
    | (Ok _, s1) =>
        match body x s1 with
        | (Ok _, s2) => for_each post body s2
        | (Raise e, s2) => (Raise e, s2)
        end
    | (Raise e, s1) => (Raise e, s1)
    end.
Proof.
  revert s. induction pre as [|y pre IH]; intros s; simpl.
  - unfold bind. destruct (body x s) as [[[]|e] s2]; reflexivity.
  - change (for_each (pre ++ x :: post) body) with
      (fun s => for_each (pre ++ x :: post) body s).
    unfold bind. destruct (body y s) as [[[]|e] s1]; [apply IH | reflexivity].
Qed.

Lemma is_command_unfold (t : text) (w : World) :
  is_command t w
  = match text_split (lib w) t with
    | [] => (Raise IndexError, w)
    | first :: _ =>
        match clean_command (lib w) first with
        | Ok key => (Ok (bool_decide (is_Some (commands (bot w) !! key))), w)
        | Raise e => (Raise e, w)
        end
    end.
Proof.
  unfold is_command, bind, gets. simpl.
  destruct (text_split (lib w) t) as [|first rest]; [reflexivity|].
  unfold lift_result. destruct (clean_command (lib w) first); reflexivity.
Qed.

Lemma parse_command_unfold (t : text) (w : World) :
  parse_command t w
  = match clean_input t with
    | Raise e => (Raise e, w)
    | Ok cleaned =>
        match tokens (lib w) cleaned with
        | [] => (Raise IndexError, w)
        | first :: rest =>
            match clean_command (lib w) (Str first) with
            | Ok key => (Ok (key, rest), w)
            | Raise e => (Raise e, w)
            end
        end
    end.
Proof.
  unfold parse_command, bind, gets, tokens. simpl.
  destruct (clean_input t) as [cleaned|e]; simpl; [|reflexivity].
  destruct (match shlex_split (lib w) cleaned with Some ts => ts | None => split cleaned end)
    as [|first rest]; [reflexivity|].
  unfold lift_result. destruct (clean_command (lib w) (Str first)); reflexivity.
Qed.

(** C9. [is_command] raises [IndexError] on every text whose white-space
    split is empty, that is, on empty and blank text, and returns a boolean
    only for text with a token; [parse_command] likewise raises
    [IndexError] when its tokenizer yields no token and returns only when
    there is one. [handle_messages] calls [is_command] on every message
    without a guard, so a blank message from a known sender ends the pass
    with that [IndexError]: the messages after it are not handled. *)
Theorem blank_message_aborts_handling :
  (forall (lib : Library) (s : string),
     text_split lib (Str s) = [] <-> forallb is_space (bytes s) = true) /\
  (forall (t : text) (w : World),
     text_split (lib w) t = [] -> is_command t w = (Raise IndexError, w)) /\
  (forall (t : text) (w w' : World) (b : bool),
     is_command t w = (Ok b, w') -> text_split (lib w) t <> []) /\
  (forall (t : text) (w : World) (cleaned : string),
     clean_input t = Ok cleaned -> tokens (lib w) cleaned = [] ->
     parse_command t w = (Raise IndexError, w)) /\
  (forall (t : text) (w w' : World) (r : string * list string),
     parse_command t w = (Ok r, w') ->
     exists cleaned, clean_input t = Ok cleaned /\ tokens (lib w) cleaned <> []) /\
  (forall (pre post : list (string * text)) (user_id : string) (t : text)
          (w w1 : World) (u : user_ref),
     handle_messages pre w = (Ok tt, w1) ->
     users (bot w1) !! user_id = Some u ->
     text_split (lib w1) t = [] ->
     handle_messages (pre ++ (user_id, t) :: post) w = (Raise IndexError, w1)).
Proof.
  split; [|split; [|split; [|split; [|split]]]].
  - intros lib s. apply (text_split_nil lib (Str s)).
  - intros t w H. rewrite is_command_unfold, H. reflexivity.
  - intros t w w' b H E. rewrite is_command_unfold, E in H. discriminate.
  - intros t w cleaned Hc Ht. rewrite parse_command_unfold, Hc, Ht. reflexivity.
  - intros t w w' r H. rewrite parse_command_unfold in H.
    destruct (clean_input t) as [cleaned|e]; [|discriminate].
    exists cleaned. split; [reflexivity|]. intros E. rewrite E in H. discriminate.
  - intros pre post user_id t w w1 u Hpre Hu Ht.
    unfold handle_messages in *. rewrite for_each_app, Hpre.
    assert (Hm : handle_message (user_id, t) w1 = (Raise IndexError, w1)).
    { cbv [handle_message bind user_lookup gets ret raise]. cbv beta. rewrite Hu.
      rewrite is_command_unfold, Ht. reflexivity. }
    rewrite Hm. reflexivity.
Qed.

(** alice greets the bot, sends a blank line, and greets it again: the
    first message is answered and the pass ends at the second. *)
Lemma blank_message_aborts_handling_witness :
  let w1 := snd (handle_messages [("U1"%string, Str "hi")] Scenario.world0) in
  handle_messages [("U1"%string, Str "hi"); ("U1"%string, Str "   ");
                   ("U1"%string, Str "hi")] Scenario.world0
  = (Raise IndexError, w1)
  /\ length (chat_log w1) = 1%nat.
Proof.
  intros w1.
  destruct blank_message_aborts_handling as (_ & _ & _ & _ & _ & H).
  split.
  - apply (H [("U1"%string, Str "hi")] [("U1"%string, Str "hi")] "U1"%string (Str "   ")
             Scenario.world0 w1 Scenario.alice_ref).
    + rewrite (surjective_pairing (handle_messages _ Scenario.world0)).
      apply (f_equal2 pair); [vm_compute; reflexivity | reflexivity].
    + vm_compute. reflexivity.
    + vm_compute. reflexivity.
  - vm_compute. reflexivity.
Defined.

End MessageFacts.

(** ** user.py *)

Module UserFacts.
Import Tasker Auth World User.

(** C8. On exit from [action_performed_check] the session runs
    [_update_task_response]: when the last message carries an answer, the
    pending task gets [performed := answer] and [comment := text], its
    other fields staying as they are; when it carries none, the task
    objects are left as they are; in both cases the last message is then
    reset to the unset value, and nothing else in the store changes. *)
Theorem update_task_response_commits (self : user_ref) (w : World) (u : User)
    (l : task_ref) (t : Task) :
  user_objs w !! self = Some u ->
  pending_task u = Some l ->
  task_objs w !! l = Some t ->
  on_exit self !! "action_performed_check"%string = Some (_update_task_response self)
  /\ exists w',
       _update_task_response self w = (Ok tt, w')
       /\ w' = set_user_objs
                 (set_task_objs w
                    (match Util.answer (_last_message u) with
                     | Some a =>
                         <[l := set_comment (set_performed t a)
                                            (Util.text (_last_message u))]> (task_objs w)
                     | None => task_objs w
                     end))
                 (<[self := set_last_message u (Util.tuple_builder None None)]> (user_objs w))
       /\ (forall a, Util.answer (_last_message u) = Some a ->
             exists t',
               task_objs w' !! l = Some t'
               /\ performed t' = a
               /\ comment t' = Util.text (_last_message u)
               /\ authenticated t' = authenticated t
               /\ status t' = status t
               /\ (hash t', title t', Tasker.username t') = (hash t, title t, Tasker.username t)
               /\ (reason t', description t', url t') = (reason t, description t, url t))
       /\ (Util.answer (_last_message u) = None -> task_objs w' = task_objs w)
       /\ (forall r, r <> l -> task_objs w' !! r = task_objs w !! r)
       /\ (exists u',
             user_objs w' !! self = Some u'
             /\ Util.answer (_last_message u') = None
             /\ Util.text (_last_message u') = ""%string
             /\ pending_task u' = Some l
             /\ tasks u' = tasks u
             /\ auth u' = auth u
             /\ fsm_state u' = fsm_state u)
       /\ (forall r, r <> self -> user_objs w' !! r = user_objs w !! r)
       /\ db w' = db w /\ chat_log w' = chat_log w /\ bot w' = bot w.
Proof.
  intros Hu Hp Ht. split; [reflexivity|].
  exists (set_user_objs
            (set_task_objs w
               (match Util.answer (_last_message u) with
                | Some a =>
                    <[l := set_comment (set_performed t a)
                                       (Util.text (_last_message u))]> (task_objs w)
                | None => task_objs w
                end))
            (<[self := set_last_message u (Util.tuple_builder None None)]> (user_objs w))).
  split.
  { cbv [_update_task_response _reset_message bind the_user update_user update_task ret].
    rewrite Hu, Hp. destruct (Util.answer (_last_message u)) as [a|].
    - rewrite Ht. cbn [task_objs set_task_objs]. rewrite lookup_insert_eq.
      cbn [user_objs set_task_objs]. rewrite Hu, insert_insert_eq. reflexivity.
    - rewrite Hu. destruct w. reflexivity. }
  split; [reflexivity|].
  split.
  { intros a Ha. rewrite Ha. cbn [task_objs set_task_objs set_user_objs].
    rewrite lookup_insert_eq. eexists. split; [reflexivity|].
    cbn [performed comment authenticated status hash title Tasker.username reason
         description url set_comment set_performed]. repeat split. }
  split.
  { intros Ha. rewrite Ha. reflexivity. }
  split.
  { intros r Hr. destruct (Util.answer (_last_message u)); [|reflexivity].
    cbn [task_objs set_task_objs set_user_objs]. now rewrite lookup_insert_ne. }
  split.
  { destruct (Util.answer (_last_message u));
      cbn [user_objs set_task_objs set_user_objs]; rewrite lookup_insert_eq;
      (eexists; split; [reflexivity|]);
      cbn [_last_message set_last_message pending_task tasks auth fsm_state];
      repeat split; assumption. }
  split.
  { intros r Hr. destruct (Util.answer (_last_message u));
      cbn [user_objs set_task_objs set_user_objs]; now rewrite lookup_insert_ne. }
  destruct (Util.answer (_last_message u)); repeat split.
Qed.

(** alice has answered "yes, I did this" to an alert whose object still
    says she did not: the exit hook writes [performed = True] and her
    words on her pending task. *)
Lemma update_task_response_commits_witness :
  let w := snd (positive_response Scenario.alice_ref "I did this"
             (snd (step Scenario.alice_ref (snd (Bot._add_task 0 Scenario.world0))))) in
  (performed <$> task_objs w !! 0%nat) = Some false
  /\ exists w',
    _update_task_response Scenario.alice_ref w = (Ok tt, w')
    /\ (performed <$> task_objs w' !! 0%nat) = Some true
    /\ (comment <$> task_objs w' !! 0%nat) = Some "I did this"%string
    /\ (_last_message <$> user_objs w' !! Scenario.alice_ref)
       = Some (Util.mk_response None "").
Proof.
  intros w. split; [vm_compute; reflexivity|].
  destruct (update_task_response_commits Scenario.alice_ref w
              (mk_User Scenario.alice [] (Some 0%nat) (Auth.new "alice")
                       (Util.mk_response (Some true) "I did this") NONE
                       (Util.mk_datetime (Scenario.noon + Util.hours 2) (Some Util.pytz_utc))
                       "action_performed_check")
              0%nat Scenario.ssh_root) as (_ & w' & E & _ & Hw & _ & _ & Hu & _).
  - vm_compute. reflexivity.
  - reflexivity.
  - vm_compute. reflexivity.
  - destruct (Hw true eq_refl) as (t' & Ht' & Hp & Hc & _).
    destruct Hu as (u' & Hu' & Ha & Htx & _).
    exists w'. split; [exact E|].
    split; [etransitivity; [exact (f_equal (fmap performed) Ht')|]; cbn; now rewrite Hp|].
    split; [etransitivity; [exact (f_equal (fmap comment) Ht')|]; cbn; now rewrite Hc|].
    etransitivity; [exact (f_equal (fmap _last_message) Hu')|]. cbn.
    destruct (_last_message u') as [a x]. cbn in Ha, Htx. now subst.
Defined.

(** *** The session's machine *)

Import UserSpec.

Lemma states_NoDup : NoDup states.
Proof. apply (bool_decide_unpack _). vm_compute. exact I. Qed.

Ltac in_states := unfold states; repeat (first [apply list_elem_of_here | apply list_elem_of_further]).

Lemma transitions_valid (self : user_ref) :
  forall t, In t (transitions self) -> StateMachine.d_source t ∈ states /\ StateMachine.d_dest t ∈ states.
Proof.
  intros t Ht. unfold transitions in Ht. cbn [In] in Ht.
  repeat (destruct Ht as [<-|Ht];
          [split; cbn [StateMachine.d_source StateMachine.d_dest]; in_states|]).
  destruct Ht.
Qed.

(** [User.__init__] builds its machine without error. *)
Lemma user_fsm_ok (self : user_ref) : exists m, user_fsm self = Ok m.
Proof.
  apply StateMachineFacts.new_ok.
  - apply states_NoDup.
  - in_states.
  - apply transitions_valid.
Qed.

(** [User.step] writes into the object the state the machine ends in. *)
Lemma step_writes_next (self : user_ref) (w : World) (u : User) :
  user_objs w !! self = Some u -> fsm_state u ∈ states ->
  match user_objs (snd (step self w)) !! self with
  | Some u' => fsm_state u' = next self (fsm_state u) w
  | None => True
  end.
Proof.
  intros Hu Hs. unfold step, next. rewrite Hu.
  destruct (user_fsm_ok self) as [m Hm]. rewrite Hm.
  rewrite (StateMachineFacts.new_states _ _ _ _ _ _ m (fsm_state u) Hm).
  rewrite bool_decide_eq_true_2 by assumption.
  destruct (StateMachine.step _) as [r [m' w']]. simpl.
  destruct (user_objs w' !! self) as [u'|] eqn:E; simpl.
  - rewrite lookup_insert_eq. reflexivity.
  - now rewrite E.
Qed.

(** The destinations of the transitions declared from each state. *)
Lemma destinations (self : user_ref) :
  map StateMachine.d_dest (StateMachineSpec.declared_from (transitions self) "need_task")
  = ["action_performed_check"]%string
  /\ map StateMachine.d_dest
         (StateMachineSpec.declared_from (transitions self) "action_performed_check")
     = ["task_finished"; "task_finished"; "auth_permission_check"; "task_finished";
        "task_finished"]%string
  /\ map StateMachine.d_dest
         (StateMachineSpec.declared_from (transitions self) "auth_permission_check")
     = ["waiting_on_auth"; "task_finished"; "task_finished"]%string
  /\ map StateMachine.d_dest
         (StateMachineSpec.declared_from (transitions self) "waiting_on_auth")
     = ["task_finished"]%string
  /\ map StateMachine.d_dest
         (StateMachineSpec.declared_from (transitions self) "task_finished")
     = ["need_task"]%string.
Proof. repeat split. Qed.

(** From each state a step stays or follows one of the declared edges. *)
Lemma next_cases (self : user_ref) (w : World) :
  (next self "need_task" w = "need_task"
   \/ next self "need_task" w = "action_performed_check")
  /\ (next self "action_performed_check" w = "action_performed_check"
      \/ next self "action_performed_check" w = "task_finished"
      \/ next self "action_performed_check" w = "auth_permission_check")
  /\ (next self "auth_permission_check" w = "auth_permission_check"
      \/ next self "auth_permission_check" w = "waiting_on_auth"
      \/ next self "auth_permission_check" w = "task_finished")
  /\ (next self "waiting_on_auth" w = "waiting_on_auth"
      \/ next self "waiting_on_auth" w = "task_finished").
Proof.
  destruct (user_fsm_ok self) as [m Hm].
  pose proof (StateMachineFacts.step_stays_or_follows _ _ _ _ _ _ m Hm) as Hstep.
  assert (G : forall s, s ∈ states ->
            next self s w = s
            \/ In (next self s w)
                  (map StateMachine.d_dest
                       (StateMachineSpec.declared_from (transitions self) s))).
  { intros s Hs. unfold next. rewrite Hm.
    rewrite (StateMachineFacts.new_states _ _ _ _ _ _ m s Hm).
    rewrite bool_decide_eq_true_2 by assumption.
    specialize (Hstep s w).
    destruct (StateMachine.step _) as [r [m' w']]. cbn [fst snd].
    destruct Hstep as [Hsame|(t & Ht & Hd)]; [now left|].
    right. rewrite Hd. now apply in_map. }
  destruct (destinations self) as (Dn & Da & Dp & Dw & _).
  split; [|split; [|split]].
  - destruct (G "need_task"%string ltac:(in_states)) as [?|Hin]; [now left|].
    rewrite Dn in Hin. cbn [In] in Hin. intuition.
  - destruct (G "action_performed_check"%string ltac:(in_states)) as [?|Hin]; [now left|].
    rewrite Da in Hin. cbn [In] in Hin. intuition.
  - destruct (G "auth_permission_check"%string ltac:(in_states)) as [?|Hin]; [now left|].
    rewrite Dp in Hin. cbn [In] in Hin. intuition.
  - destruct (G "waiting_on_auth"%string ltac:(in_states)) as [?|Hin]; [now left|].
    rewrite Dw in Hin. cbn [In] in Hin. intuition.
Qed.

Lemma changes_entered (prev : string) (l : list string) :
  changes prev l = length (entered prev l).
Proof.
  revert prev. induction l as [|s l IH]; intros prev; simpl; [reflexivity|].
  destruct (String.eqb prev s); simpl; now rewrite IH.
Qed.

Lemma changes_le_length (prev : string) (l : list string) : (changes prev l <= length l)%nat.
Proof.
  revert prev. induction l as [|s l IH]; intros prev; simpl; [lia|].
  specialize (IH s). destruct (String.eqb prev s); simpl; lia.
Qed.


(** The states entered on the way to the first arrival in
    [task_finished] form one of the ways listed by [paths_from]. *)
Lemma entered_paths (self : user_ref) (ws : list World) :
  forall (s : string) (trace : list string),
  s = "need_task"%string \/ s = "action_performed_check"%string
  \/ s = "auth_permission_check"%string \/ s = "waiting_on_auth"%string ->
  upto_finished (trace_from self s ws) = Some trace ->
  In (entered s trace) (paths_from s).
Proof.
  induction ws as [|w ws IH]; intros s trace Hs H; cbn [trace_from upto_finished] in H.
  - discriminate.
  - destruct (next_cases self w) as (Hn & Ha & Hp & Hw).
    destruct (String.eqb (next self s w) "task_finished") eqn:E.
    + injection H as <-. apply String.eqb_eq in E.
      destruct Hs as [-> | [-> | [-> | ->]]]; rewrite E in *; cbn.
      * destruct Hn; discriminate.
      * auto.
      * auto.
      * auto.
    + destruct (upto_finished (trace_from self (next self s w) ws)) as [tr|] eqn:E';
        [|discriminate].
      injection H as <-.
      assert (IH' := fun Hs' => IH (next self s w) tr Hs' E').
      cbn [entered].
      destruct Hs as [-> | [-> | [-> | ->]]].
      * destruct Hn as [Hn|Hn]; rewrite Hn in IH', E |- *; clear - IH' E;
          cbn in E; try discriminate; specialize (IH' ltac:(auto 6));
          cbn in IH' |- *; unfold full_path in *;
          repeat (destruct IH' as [<- | IH']; [auto 6|]); contradiction.
      * destruct Ha as [Ha|[Ha|Ha]]; rewrite Ha in IH', E |- *; clear - IH' E;
          cbn in E; try discriminate; specialize (IH' ltac:(auto 6));
          cbn in IH' |- *; unfold full_path in *;
          repeat (destruct IH' as [<- | IH']; [auto 6|]); contradiction.
      * destruct Hp as [Hp|[Hp|Hp]]; rewrite Hp in IH', E |- *; clear - IH' E;
          cbn in E; try discriminate; specialize (IH' ltac:(auto 6));
          cbn in IH' |- *; unfold full_path in *;
          repeat (destruct IH' as [<- | IH']; [auto 6|]); contradiction.
      * destruct Hw as [Hw|Hw]; rewrite Hw in IH', E |- *; clear - IH' E;
          cbn in E; try discriminate; specialize (IH' ltac:(auto 6));
          cbn in IH' |- *; unfold full_path in *;
          repeat (destruct IH' as [<- | IH']; [auto 6|]); contradiction.
Qed.

(** C4, as amended. Take any series of [step()] calls on a session that
    starts in [need_task], whatever the stores the calls find, up to the
    first arrival in [task_finished]. The calls that change the state
    number at least 2 (hence at least 1) and at most 4, the states they
    enter are one of the three ways from [need_task] to [task_finished],
    and 4 occurs only on the full path through [action_performed_check],
    [auth_permission_check] and [waiting_on_auth]. The calls that leave the
    state as it is (no guard holds) come on top and are not bounded. *)
Theorem transitions_to_task_finished (self : user_ref) (ws : list World)
    (trace : list string) :
  upto_finished (trace_from self "need_task" ws) = Some trace ->
  let path := entered "need_task" trace in
  (path = ["action_performed_check"; "task_finished"]
   \/ path = ["action_performed_check"; "auth_permission_check"; "task_finished"]
   \/ path = full_path)
  /\ changes "need_task" trace = length path
  /\ (2 <= changes "need_task" trace <= 4)%nat
  /\ (changes "need_task" trace = 4%nat -> path = full_path)
  /\ (changes "need_task" trace <= length trace)%nat.
Proof.
  intros H path.
  pose proof (entered_paths self ws "need_task" trace ltac:(tauto) H) as Hin.
  fold path in Hin. cbn in Hin.
  assert (Hp : path = ["action_performed_check"; "task_finished"]%string
               \/ path = ["action_performed_check"; "auth_permission_check";
                          "task_finished"]%string
               \/ path = full_path) by (intuition congruence).
  split; [exact Hp|]. rewrite changes_entered. fold path.
  split; [reflexivity|]. split; [|split].
  - destruct Hp as [-> | [-> | ->]]; simpl; lia.
  - destruct Hp as [-> | [-> | ->]]; simpl; intros; [lia | lia | reflexivity].
  - unfold path. rewrite <- (changes_entered "need_task" trace). apply changes_le_length.
Qed.


(** The deny path: the step that finds alice's alert queued, and the step
    that finds her answer "no". *)
Lemma transitions_to_task_finished_witness :
  let w1 := snd (Bot._add_task 0 Scenario.world0) in
  let w2 := snd (negative_response Scenario.alice_ref "I did not"
                   (snd (step Scenario.alice_ref w1))) in
  upto_finished (trace_from Scenario.alice_ref "need_task" [w1; w2])
  = Some ["action_performed_check"; "task_finished"]%string
  /\ (2 <= changes "need_task" ["action_performed_check"; "task_finished"]%string <= 4)%nat.
Proof.
  intros w1 w2.
  assert (H : upto_finished (trace_from Scenario.alice_ref "need_task" [w1; w2])
              = Some ["action_performed_check"; "task_finished"]%string)
    by (vm_compute; reflexivity).
  split; [exact H|].
  apply (transitions_to_task_finished Scenario.alice_ref [w1; w2] _ H).
Defined.

(** C4 as stated fails: the session is stepped on every turn of the main
    loop, also while nothing is queued and while the user has not answered.
    Here the fifth [step()] call is the first to find the session in
    [task_finished]; two of the five changed the state. *)
Lemma five_steps_to_task_finished :
  let trace :=
    Scenario.session Scenario.alice_ref
      [ ret tt; ret tt; Bot._add_task 0; ret tt;
        negative_response Scenario.alice_ref "I did not" ] Scenario.world0 in
  trace = ["need_task"; "need_task"; "action_performed_check"; "action_performed_check";
           "task_finished"]%string
  /\ upto_finished trace = Some trace
  /\ length trace = 5%nat
  /\ changes "need_task" trace = 2%nat.
Proof. vm_compute. repeat split. Qed.


End UserFacts.

(** ** commands.py *)

Module CommandsFacts.
Import Tasker Auth World Commands Scenario.
Local Open Scope Z_scope.

(** [ignore last <duration>] ends in an [AttributeError] for every user
    object and every duration, before anything is recorded. *)
Lemma ignore_last_raises (user : user_ref) (time : string) (w : World) :
  ignore user ["last"%string; time] w = (Raise AttributeError, w).
Proof.
  cbv [ignore bind the_user raise]. destruct (user_objs w !! user); reflexivity.
Qed.

(** C7 on the model. For [current] the command does what the claim says:
    the duration is parsed, capped at four hours, rejected when zero, and
    recorded otherwise. For [last] it raises [AttributeError], also once
    alice has completed a task, and records nothing: [User] has no
    [old_tasks]. *)
Theorem ignore_last_fails :
  (let '(r, w) := ignore alice_ref ["current"; "1h30m"]%string alice_pending in
   r = Ok (Some true)
   /\ ignored_until w = Some ((noon + Util.hours 1 + Util.minutes 30) / Util.SECOND))
  /\ (let '(r, w) := ignore alice_ref ["current"; "5H"]%string alice_pending in
      r = Ok (Some true)
      /\ ignored_until w = Some ((noon + TIME_LIMIT) / Util.SECOND))
  /\ (let '(r, w) := ignore alice_ref ["current"; "0m"]%string alice_pending in
      r = Ok (Some false) /\ ignored_until w = None)
  /\ session_state alice_ref alice_done = "need_task"%string
  /\ alert_status (db alice_done) !! "AB12"%string = Some VERIFICATION
  /\ ignore alice_ref ["last"; "1h"]%string alice_done = (Raise AttributeError, alice_done)
  /\ ignore alice_ref ["last"; "1h"]%string alice_pending = (Raise AttributeError, alice_pending).
Proof.
  split; [vm_compute; split; reflexivity|].
  split; [vm_compute; split; reflexivity|].
  split; [vm_compute; split; reflexivity|].
  split; [vm_compute; reflexivity|].
  split; [vm_compute; reflexivity|].
  split; apply ignore_last_raises.
Qed.

(** The same through the bot: the message "ignore last 1h" is recognised
    as a command and ends the message pass with the [AttributeError]. *)
Example ignore_last_message :
  fst (Bot.handle_messages [("U1"%string, Text.Str "ignore last 1h")] alice_done)
  = Raise AttributeError.
Proof. vm_compute. reflexivity. Qed.

End CommandsFacts.

(** ** bot.py: admitting a task *)

Module AdmitFacts.
Import Tasker World Bot AdmitSpec.

Lemma same_keys_refl objs : same_keys objs objs.
Proof. intros r. auto. Qed.

Lemma same_keys_trans a b c : same_keys a b -> same_keys b c -> same_keys a c.
Proof.
  intros H1 H2 r. destruct (H1 r) as [? ?], (H2 r) as [? ?]. split; congruence.
Qed.

Lemma same_keys_insert objs r t t' :
  objs !! r = Some t -> hash t' = hash t -> title t' = title t ->
  same_keys objs (<[r := t']> objs).
Proof.
  intros Hr Hh Ht r'. destruct (decide (r = r')) as [<-|Hne].
  - rewrite lookup_insert_eq, Hr. simpl. split; congruence.
  - rewrite lookup_insert_ne by assumption. auto.
Qed.

Lemma same_keys_is_Some objs objs' r :
  same_keys objs objs' -> is_Some (objs !! r) -> is_Some (objs' !! r).
Proof.
  intros H [t Ht]. destruct (H r) as [Hh _]. rewrite Ht in Hh. simpl in Hh.
  destruct (objs' !! r); [eauto | discriminate].
Qed.

Lemma kept_same_keys ign objs objs' r :
  same_keys objs objs' -> kept ign objs' r = kept ign objs r.
Proof.
  intros H. unfold kept. destruct (H r) as [_ Ht].
  destruct (objs' !! r) as [t'|], (objs !! r) as [t|]; simpl in Ht; try discriminate; auto.
  injection Ht as ->. reflexivity.
Qed.

Lemma same_rows_refl d : same_rows d d.
Proof. intros k. tauto. Qed.

Lemma same_rows_trans a b c : same_rows a b -> same_rows b c -> same_rows a c.
Proof. intros H1 H2 k. rewrite (H2 k). apply H1. Qed.

Lemma same_rows_set_status st t d : same_rows d (_set_status st t d).
Proof.
  intros k. unfold _set_status. simpl.
  destruct (alert_status d !! hash t) as [x|] eqn:E; [|tauto].
  destruct (decide (hash t = k)) as [<-|Hne].
  - rewrite lookup_insert_eq, E. split; eauto.
  - rewrite lookup_insert_ne by assumption. tauto.
Qed.

Lemma same_rows_set_verifying t d : same_rows d (set_verifying t d).
Proof.
  intros k. unfold set_verifying, _set_response. simpl. apply same_rows_set_status.
Qed.


(** A status written for a task on file is what the store then holds. *)
Lemma set_status_lookup st t d :
  is_Some (alert_status d !! hash t) ->
  alert_status (_set_status st t d) !! hash t = Some st.
Proof.
  intros [x Hx]. unfold _set_status. simpl. rewrite Hx. apply lookup_insert_eq.
Qed.

Lemma world_set_set (w : World) objs1 d1 d2 objs2 :
  set_task_objs (set_db (set_db (set_task_objs w objs1) d1) d2) objs2
  = set_task_objs (set_db w d2) objs2.
Proof. reflexivity. Qed.

(** The loop of [_update_tasks] keeps the tasks whose title is not ignored
    and changes the task objects and the tables only: each dropped task
    gets the reason as comment and goes to verification. *)
Lemma sweep_spec (ign : gmap string string) (ts : list task_ref) :
  forall w : World,
  (forall r, In r ts -> is_Some (task_objs w !! r)) ->
  exists objs' d',
    User.sweep ign ts w
    = (Ok (List.filter (kept ign (task_objs w)) ts), set_task_objs (set_db w d') objs')
    /\ same_keys (task_objs w) objs'
    /\ same_rows (db w) d'.
Proof.
  induction ts as [|r ts IH]; intros w Hvalid.
  - exists (task_objs w), (db w). simpl. unfold ret.
    split; [destruct w; reflexivity|]. split; [apply same_keys_refl | apply same_rows_refl].
  - destruct (Hvalid r (or_introl eq_refl)) as [t Ht].
    cbn [User.sweep List.filter]. unfold kept at 1. rewrite Ht.
    unfold bind at 1. unfold the_task at 1. rewrite Ht.
    destruct (ign !! title t) as [why|] eqn:Ew.
    + rewrite bool_decide_eq_true_2 by eauto. cbn [negb].
      unfold bind at 1. unfold update_task at 1. rewrite Ht.
      unfold bind at 1. unfold task_set_verifying at 1, bind at 1, the_task at 1.
      cbn [task_objs set_task_objs]. rewrite lookup_insert_eq.
      unfold update_db at 1, modify at 1.
      set (w2 := set_db _ _).
      assert (Hk2 : same_keys (task_objs w) (task_objs w2)).
      { subst w2. cbn. eapply same_keys_insert; eauto. }
      destruct (IH w2) as (objs' & d' & Hs & Hk & Hr).
      { intros r' Hr'. eapply same_keys_is_Some; eauto. apply Hvalid. now right. }
      exists objs', d'. rewrite Hs. split; [|split].
      * replace (List.filter (kept ign (task_objs w2)) ts)
          with (List.filter (kept ign (task_objs w)) ts)
          by (apply filter_ext; intros r'; symmetry; now apply kept_same_keys).
        subst w2. reflexivity.
      * eapply same_keys_trans; eauto.
      * eapply same_rows_trans; [|exact Hr]. subst w2. cbn. apply same_rows_set_verifying.
    + rewrite bool_decide_eq_false_2 by (intros [? ?]; discriminate). cbn [negb].
      destruct (IH w) as (objs' & d' & Hs & Hk & Hr).
      { intros r' Hr'. apply Hvalid. now right. }
      exists objs', d'. unfold bind. rewrite Hs. unfold ret. auto.
Qed.


Lemma swept_swept ign t : swept ign (swept ign t) = swept ign t.
Proof.
  unfold swept. destruct (ign !! title t) as [why|] eqn:E; [|now rewrite E].
  cbn [title set_comment]. now rewrite E.
Qed.


(** What the loop of [_update_tasks] writes: every queued task with an
    ignored title has the reason as its comment afterwards, no other
    object changes, and no row of [user_responses] is made or deleted. *)
Lemma sweep_writes (ign : gmap string string) (ts : list task_ref) :
  forall w : World,
  (forall r, In r ts -> is_Some (task_objs w !! r)) ->
  (forall r, task_objs (snd (User.sweep ign ts w)) !! r = after_sweep ign ts (task_objs w) r)
  /\ (forall k, is_Some (user_responses (db (snd (User.sweep ign ts w))) !! k)
                <-> is_Some (user_responses (db w) !! k)).
Proof.
  induction ts as [|r0 ts IH]; intros w Hvalid.
  - cbn [User.sweep ret snd]. split; [|tauto].
    intros r. unfold after_sweep.
    rewrite bool_decide_eq_false_2 by apply not_elem_of_nil.
    now destruct (task_objs w !! r).
  - destruct (Hvalid r0 (or_introl eq_refl)) as [t Ht].
    assert (Hcons : forall r, r <> r0 ->
              bool_decide (r ∈ r0 :: ts) = bool_decide (r ∈ ts)).
    { intros r Hne. apply bool_decide_ext. rewrite elem_of_cons.
      split; [intros [?|?]; [contradiction | assumption] | now right]. }
    destruct (ign !! title t) as [why|] eqn:Ew.
    + set (w2 := set_db (set_task_objs w (<[r0 := set_comment t why]> (task_objs w)))
                        (set_verifying (set_comment t why) (db w))).
      assert (Estep : User.sweep ign (r0 :: ts) w = User.sweep ign ts w2).
      { cbn [User.sweep]. unfold bind at 1. unfold the_task at 1. rewrite Ht, Ew.
        unfold bind at 1. unfold update_task at 1. rewrite Ht.
        unfold bind at 1. unfold task_set_verifying at 1, bind at 1, the_task at 1.
        cbn [task_objs set_task_objs]. rewrite lookup_insert_eq. reflexivity. }
      rewrite Estep.
      destruct (IH w2) as [Hobjs Hrows].
      { intros r' Hr'. unfold w2. cbn [task_objs set_db set_task_objs].
        destruct (decide (r0 = r')) as [<-|Hne].
        - rewrite lookup_insert_eq. eauto.
        - rewrite lookup_insert_ne by assumption. apply Hvalid. now right. }
      assert (Es : swept ign t = set_comment t why) by (unfold swept; now rewrite Ew).
      split.
      * intros r. rewrite Hobjs. unfold after_sweep, w2.
        cbn [task_objs set_db set_task_objs].
        destruct (decide (r0 = r)) as [<-|Hne].
        -- rewrite lookup_insert_eq, Ht.
           rewrite (bool_decide_eq_true_2 (r0 ∈ r0 :: ts)) by apply list_elem_of_here.
           cbn [fmap option_fmap option_map]. f_equal. rewrite Es.
           destruct (bool_decide (r0 ∈ ts)); [|reflexivity].
           now rewrite <- Es, swept_swept.
        -- rewrite lookup_insert_ne by assumption.
           now rewrite (Hcons r) by congruence.
      * intros k. rewrite Hrows. unfold w2. cbn [db set_db set_task_objs].
        unfold set_verifying, _set_response, _set_status.
        cbn [user_responses set_user_responses set_alert_status hash set_comment].
        destruct (user_responses (db w) !! hash t) as [x|] eqn:Ex; [|tauto].
        destruct (decide (hash t = k)) as [<-|Hne].
        -- rewrite lookup_insert_eq, Ex. split; eauto.
        -- rewrite lookup_insert_ne by assumption. tauto.
    + assert (Estep : snd (User.sweep ign (r0 :: ts) w) = snd (User.sweep ign ts w)).
      { cbn [User.sweep]. unfold bind at 1. unfold the_task at 1. rewrite Ht, Ew.
        unfold bind. destruct (User.sweep ign ts w) as [[a|e] s']; reflexivity. }
      rewrite Estep.
      destruct (IH w) as [Hobjs Hrows].
      { intros r' Hr'. apply Hvalid. now right. }
      assert (Es : swept ign t = t) by (unfold swept; now rewrite Ew).
      split; [|exact Hrows].
      intros r. rewrite Hobjs. unfold after_sweep.
      destruct (decide (r0 = r)) as [<-|Hne].
      * rewrite Ht. cbn [fmap option_fmap option_map].
        rewrite (bool_decide_eq_true_2 (r0 ∈ r0 :: ts)) by apply list_elem_of_here.
        rewrite Es. destruct (bool_decide (r0 ∈ ts)); [now rewrite Es | reflexivity].
      * now rewrite (Hcons r) by congruence.
Qed.


















End AdmitFacts.

(** * Further properties of the code *)

(** ** sql.py: the engine is made once, and recovery has no end of its own *)

Module EngineFacts.
Import SQL SQLSpec SQLFacts.

(** X1. [SQLEngine.__init__] on an engine that was never made: the credentials
    are saved before the connection is tried. When the connect succeeds
    the engine is marked as created, holds the new connection's cursor,
    and every later construction, whatever credentials it is given, leaves
    the store as it is. When the connect fails the error reaches the
    caller and the engine stays unmade, but keeps the credentials. *)
Theorem init_makes_engine_once (c : credentials) (s : Store) :
  _created (engine s) = false ->
  (on_connect (server s) (length (connected s)) = None ->
     exists s1,
       init c s = (Ok tt, s1)
       /\ _created (engine s1) = true
       /\ _saved (engine s1) = c
       /\ _cursor (engine s1) = Some (length (connected s))
       /\ connected s1 = connected s ++ [c]
       /\ executed s1 = executed s
       /\ forall c', init c' s1 = (Ok tt, s1))
  /\ (forall e, on_connect (server s) (length (connected s)) = Some e ->
     exists s1,
       init c s = (Raise e, s1)
       /\ _created (engine s1) = false
       /\ _saved (engine s1) = c
       /\ _cursor (engine s1) = _cursor (engine s)
       /\ connected s1 = connected s ++ [c]).
Proof.
  intros Hnew. split.
  - intros Hc. unfold init. rewrite Hnew.
    rewrite create_engine_ok by exact Hc. cbn.
    eexists. split; [reflexivity|]. cbn.
    repeat (split; [reflexivity|]).
    intros c'. reflexivity.
  - intros e Hc. unfold init. rewrite Hnew.
    unfold _create_engine. cbn. rewrite Hc.
    eexists. split; [reflexivity|]. cbn. auto.
Qed.

Lemma init_makes_engine_once_witness :
  exists s1,
    init localhost (mk_Store (lossy 0 []) initial_engine [] []) = (Ok tt, s1)
    /\ _saved (engine s1) = localhost
    /\ init (mk_credentials (Some "db.example") None None None) s1 = (Ok tt, s1).
Proof.
  destruct (init_makes_engine_once localhost (mk_Store (lossy 0 []) initial_engine [] [])
              eq_refl) as [H _].
  destruct (H eq_refl) as (s1 & E & _ & Hs & _ & _ & _ & Hagain).
  exists s1. split; [exact E|]. split; [exact Hs|]. apply Hagain.
Defined.

(** X3. When the connection is lost and cannot be made again, the error of
    [MySQLdb.connect] leaves [execute] as it is, not as an
    [SQLEngineException]: it is raised inside the handler. The statement
    was sent once, the connect was tried once with the saved credentials,
    and the engine keeps the cursor that failed. *)
Theorem execute_reconnect_error_escapes (calls : nat) (q : string) (p : list string)
    (s : Store) (cur : nat) (e : exn) :
  _cursor (engine s) = Some cur ->
  is_transport (on_execute (server s) (length (executed s)) q p) = true ->
  on_connect (server s) (length (connected s)) = Some e ->
  exists s',
    execute (S calls) q (Some p) s = Some (Raise e, s')
    /\ executed s' = executed s ++ [(cur, q, p)]
    /\ connected s' = connected s ++ [_saved (engine s)]
    /\ engine s' = engine s.
Proof.
  intros Hcur Ht Hc. rewrite (execute_round calls q p s cur Hcur). rewrite Ht.
  unfold _create_engine. cbn. rewrite Hc.
  eexists. split; [reflexivity|]. cbn. auto.
Qed.

Lemma execute_reconnect_error_escapes_witness :
  let srv := {| on_execute := fun _ _ _ => Failed (MySQLOperationalError ["2006"; "gone away"]);
                on_connect := fun n => match n with
                                       | O => None
                                       | _ => Some (MySQLOperationalError ["2003"; "no route"])
                                       end |} in
  fst <$> execute 10 "SELECT 1" (Some []) (after_init srv)
  = Some (Raise (MySQLOperationalError ["2003"; "no route"])).
Proof.
  intros srv.
  destruct (execute_reconnect_error_escapes 9 "SELECT 1" [] (after_init srv) 0
              (MySQLOperationalError ["2003"; "no route"]) eq_refl eq_refl eq_refl)
    as (s' & E & _).
  rewrite E. reflexivity.
Defined.

End EngineFacts.

(** ** state_machine.py: what the constructor accepts *)

Module ConstructorFacts.
Import StateMachine StateMachineSpec StateMachineFacts.

Section Constructor.
Context {W : Type}.
Variable transitions : list (transition_dict W).
Variables during_ on_enter_ on_exit_ : gmap string (M W unit).

Local Abbreviation state_of := (state_of during_ on_enter_ on_exit_).
Local Abbreviation transition_of := (transition_of during_ on_enter_ on_exit_).

(** The only exception the loop over the transitions raises. *)
Lemma build_transitions_raises (sts : gmap string (State W)) :
  forall ts acc e, build_transitions sts ts acc = Raise e -> e = StateMachineException.
Proof.
  induction ts as [|t ts IH]; intros acc e H; simpl in H.
  - discriminate.
  - destruct (sts !! d_source t); [|congruence].
    destruct (sts !! d_dest t); [|congruence].
    eapply IH; eauto.
Qed.

(** X4. [StateMachine.__init__] returns a machine exactly when the state names
    are distinct, the initial state is one of them, and every transition
    runs between two of them; the machine then starts in the initial
    state, knows the declared states and files under each state the
    transitions declared from it, in declaration order. In every other
    case it raises [StateMachineException]
    (tests/state_machine_test.py: [test_duplicate_states],
    [test_invalid_initial_state], [test_invalid_transition_source_name],
    [test_invalid_transition_dest_name]). *)
Theorem new_accepts_exactly (states : list string) (initial : string) :
  let well_formed :=
    NoDup states /\ initial ∈ states
    /\ (forall t, In t transitions -> d_source t ∈ states /\ d_dest t ∈ states) in
  (well_formed ->
     exists m,
       new states transitions initial during_ on_enter_ on_exit_ = Ok m
       /\ state m = state_of initial
       /\ (forall n, n ∈ states -> _states m !! n = Some (state_of n))
       /\ (forall n, n ∉ states -> _states m !! n = None)
       /\ (forall n, transitions_from m n = map transition_of (declared_from transitions n)))
  /\ (~ well_formed ->
     new states transitions initial during_ on_enter_ on_exit_ = Raise StateMachineException).
Proof.
  intros well_formed. split.
  - intros (Hnd & Hi & Ht).
    destruct (new_ok transitions during_ on_enter_ on_exit_ states initial Hnd Hi Ht)
      as [m Hm].
    exists m. split; [exact Hm|].
    pose proof (new_states transitions during_ on_enter_ on_exit_ states initial m) as Hst.
    unfold new in Hm. rewrite bool_decide_eq_true_2 in Hm by assumption.
    rewrite build_states_lookup, bool_decide_eq_true_2 in Hm by assumption.
    destruct (build_transitions _ transitions ∅) as [trs|] eqn:Et; [|discriminate].
    injection Hm as <-. cbn [state _states].
    split; [reflexivity|]. split; [|split].
    + intros n Hn. rewrite build_states_lookup, bool_decide_eq_true_2; auto.
    + intros n Hn. rewrite build_states_lookup, bool_decide_eq_false_2; auto.
    + intros n. unfold transitions_from. cbn [_transitions].
      rewrite (build_transitions_lookup during_ on_enter_ on_exit_ states _ _ _ Et n).
      now rewrite lookup_empty.
  - intros Hbad. unfold new.
    destruct (decide (NoDup states)) as [Hnd|Hnd];
      [rewrite bool_decide_eq_true_2 by assumption
      |now rewrite bool_decide_eq_false_2 by assumption].
    rewrite build_states_lookup.
    destruct (decide (initial ∈ states)) as [Hi|Hi];
      [rewrite bool_decide_eq_true_2 by assumption
      |now rewrite bool_decide_eq_false_2 by assumption].
    destruct (build_transitions _ transitions ∅) as [trs|e] eqn:Et.
    + exfalso. apply Hbad. split; [assumption|]. split; [assumption|].
      exact (build_transitions_valid during_ on_enter_ on_exit_ states _ _ _ Et).
    + now rewrite (build_transitions_raises _ _ _ _ Et).
Qed.

End Constructor.

(** The machine of [test_simple_condition] is accepted; with the unknown
    initial state "three" its description is refused. *)
Lemma new_accepts_exactly_witness :
  (exists m, StateMachineTests.simple_condition = Ok m /\ name (state m) = "one"%string)
  /\ new ["one"; "two"]%string
         [ mk_transition_dict "one" "two" (Some StateMachineTests.x_is_five) None;
           mk_transition_dict "two" "one" None None ]
         "three" {[ "one"%string := StateMachineTests.increment ]} ∅ ∅
     = Raise StateMachineException.
Proof.
  split.
  - destruct (new_accepts_exactly
                [ mk_transition_dict "one" "two" (Some StateMachineTests.x_is_five) None;
                  mk_transition_dict "two" "one" None None ]
                {[ "one"%string := StateMachineTests.increment ]} ∅ ∅
                ["one"; "two"]%string "one"%string) as [H _].
    destruct H as (m & Hm & Hs & _).
    + split; [|split].
      * apply (bool_decide_unpack _). vm_compute. exact I.
      * apply list_elem_of_here.
      * intros t [<-|[<-|[]]]; cbn; split;
          first [apply list_elem_of_here | apply list_elem_of_further, list_elem_of_here].
    + exists m. split; [exact Hm|]. rewrite Hs. reflexivity.
  - apply (new_accepts_exactly
             [ mk_transition_dict "one" "two" (Some StateMachineTests.x_is_five) None;
               mk_transition_dict "two" "one" None None ]
             {[ "one"%string := StateMachineTests.increment ]} ∅ ∅
             ["one"; "two"]%string "three"%string).
    intros (_ & Hi & _).
    repeat (apply elem_of_cons in Hi as [Hi|Hi]; [discriminate|]).
    now apply elem_of_nil in Hi.
Defined.

End ConstructorFacts.

(** ** auth/duo.py: denial, reset, and the devices that take a push *)

Module DuoFacts.
Import Auth AuthSpec DuoSpec.
Local Open Scope Z_scope.

(** A poll asks the service only about a pending push: on an object that
    is [NONE] or [DENIED] every run of polls, whatever the service and the
    clock, returns that state each time and leaves the object as it is. *)
Lemma poll_all_settled (ps : list (DuoClient * Z)) (self : DuoAuth) :
  state self = NONE \/ state self = DENIED ->
  poll_all ps self = (repeat (state self) (length ps), self).
Proof.
  intros Hst. induction ps as [|[client now] ps IH]; [reflexivity|].
  cbn [poll_all length repeat].
  assert (E : auth_status client now self = (state self, self)).
  { unfold auth_status. destruct self as [u tx t st]. cbn in Hst |- *.
    destruct Hst; subst st; reflexivity. }
  rewrite E, IH. reflexivity.
Qed.

(** X5. A poll that finds the push refused makes the object [DENIED] and puts
    its stamp back to [datetime.min]; from then on, and likewise after
    [reset()], which forgets the transaction and keeps the stamp, every
    poll returns the same answer until [auth()] sends a new push: a push
    approved less than [AUTH_TIME] ago does not count once the object was
    reset. *)
Theorem denied_and_reset_stay (client : DuoClient) (now : Z) (self : DuoAuth)
    (ps : list (DuoClient * Z)) :
  (state self = PENDING ->
   waiting (client_auth_status client (txid self)) = false ->
   success (client_auth_status client (txid self)) = false ->
   let denied := mk_DuoAuth (username self) (txid self) datetime_min DENIED in
   auth_status client now self = (DENIED, denied)
   /\ poll_all ps denied = (repeat DENIED (length ps), denied))
  /\ reset self = mk_DuoAuth (username self) None (auth_time self) NONE
  /\ poll_all ps (reset self) = (repeat NONE (length ps), reset self)
  /\ (forall reason, state (auth client reason (reset self)) = PENDING).
Proof.
  split; [|split; [|split]].
  - intros Hst Hw Hs denied. split.
    + unfold auth_status. rewrite Hst, Hw, Hs. reflexivity.
    + apply (poll_all_settled ps denied). right. reflexivity.
  - reflexivity.
  - apply (poll_all_settled ps (reset self)). left. reflexivity.
  - intros reason. reflexivity.
Qed.

(** alice approves a push at 09:00 and the object is reset: polls at 09:01
    and at 09:02 return [NONE], though the approval is minutes old. *)
Lemma denied_and_reset_stay_witness :
  let self := run_calls [CallAuth approving (Some "ssh as root");
                         CallStatus approving (Util.hours 9)] (new "alice") in
  state self = AUTHORIZED
  /\ fst (poll_all [(approving, Util.hours 9 + Util.minutes 1);
                    (approving, Util.hours 9 + Util.minutes 2)] (reset self))
     = [NONE; NONE].
Proof.
  intros self. split; [reflexivity|].
  destruct (denied_and_reset_stay approving 0 self
              [(approving, Util.hours 9 + Util.minutes 1);
               (approving, Util.hours 9 + Util.minutes 2)]) as (_ & _ & H & _).
  rewrite H. reflexivity.
Defined.

(** X6. [can_auth()] is true exactly when the pre-authorization answers
    [auth] and lists a device with the [push] capability; any other
    answer, such as [allow] for a user let in without a second factor,
    counts as no second factor, whatever devices it lists. *)
Theorem can_auth_needs_push_device (client : DuoClient) (self : DuoAuth) :
  can_auth client self = true
  <-> pre_result (client_preauth client (username self)) = "auth"%string
      /\ has_push (pre_devices (client_preauth client (username self))).
Proof.
  unfold can_auth, has_push.
  destruct (String.eqb_spec (pre_result (client_preauth client (username self))) "auth")
    as [E|Hne].
  - rewrite existsb_exists. split.
    + intros (caps & Hin & Hp). split; [exact E|]. exists caps. split; [exact Hin|].
      apply existsb_exists in Hp as (c & Hc & Ec). apply String.eqb_eq in Ec. now subst c.
    + intros (_ & caps & Hin & Hp). exists caps. split; [exact Hin|].
      apply existsb_exists. exists "push"%string. split; [exact Hp | apply String.eqb_refl].
  - split; [discriminate | intros [E _]; contradiction].
Qed.

End DuoFacts.

(** ** tasker/sql_tasker.py: what the tasker lists after a status is written *)

Module TaskerFacts.
Import Tasker.
Local Open Scope Z_scope.

(** The tasks of a level are the alerts on file in all three tables whose
    status is that level, each with the fields of its rows. *)
Lemma get_tasks_spec (level : Z) (d : Database) (t : Task) :
  t ∈ _get_tasks level d
  <-> exists a r,
        alerts d !! hash t = Some a
        /\ user_responses d !! hash t = Some r
        /\ alert_status d !! hash t = Some level
        /\ t = SQLTask (hash t) a r level.
Proof.
  unfold _get_tasks. rewrite list_elem_of_omap. split.
  - intros ([h a] & Hin & Hrow). apply elem_of_map_to_list in Hin.
    unfold GET_ALERTS_row in Hrow. cbn [fst snd] in Hrow.
    destruct (user_responses d !! h) as [r|] eqn:Er; [|discriminate].
    destruct (alert_status d !! h) as [st|] eqn:Es; [|discriminate].
    destruct (Z.eqb_spec st level) as [->|]; [|discriminate].
    injection Hrow as <-. cbn [hash SQLTask]. eauto 6.
  - intros (a & r & Ha & Hr & Hs & Ht). exists (hash t, a). split.
    + now apply elem_of_map_to_list.
    + unfold GET_ALERTS_row. cbn [fst snd]. rewrite Hr, Hs, Z.eqb_refl. now rewrite Ht at 2.
Qed.

(** X7. Writing a status moves the task between the tasker's lists: once
    [_set_status] has run for a task on file, the task is listed under the
    status written, with that status and otherwise the fields it has on
    file, and under no other level; what is listed of the other alerts
    does not change. So an alert that [set_in_progress] has marked is not
    among the new tasks of the next poll. *)
Theorem set_status_moves_task (st : Z) (t : Task) (d : Database)
    (a : alert_row) (r : response_row) (old : Z) :
  alerts d !! hash t = Some a ->
  user_responses d !! hash t = Some r ->
  alert_status d !! hash t = Some old ->
  SQLTask (hash t) a r st ∈ _get_tasks st (_set_status st t d)
  /\ (forall level t', t' ∈ _get_tasks level (_set_status st t d) ->
        hash t' = hash t -> level = st /\ t' = SQLTask (hash t) a r st)
  /\ (forall level t', hash t' <> hash t ->
        (t' ∈ _get_tasks level (_set_status st t d) <-> t' ∈ _get_tasks level d)).
Proof.
  intros Ha Hr Hs.
  assert (Hd : alert_status (_set_status st t d) = <[hash t := st]> (alert_status d)).
  { unfold _set_status. cbn. now rewrite Hs. }
  split; [|split].
  - apply get_tasks_spec. exists a, r. cbn [hash SQLTask].
    rewrite Hd, lookup_insert_eq. auto.
  - intros level t' Hin Hh. apply get_tasks_spec in Hin as (a' & r' & Ha' & Hr' & Hs' & Ht').
    rewrite Hh in Ha', Hr', Hs', Ht'. cbn in Ha', Hr'.
    rewrite Hd, lookup_insert_eq in Hs'. injection Hs' as <-.
    split; [reflexivity|]. congruence.
  - intros level t' Hne. rewrite !get_tasks_spec. rewrite Hd.
    rewrite lookup_insert_ne by congruence. reflexivity.
Qed.

(** alice's alert, marked as in progress: the next poll for new tasks
    finds the alert for mallory only. *)
Lemma set_status_moves_task_witness :
  map hash (get_new_tasks (set_in_progress Scenario.ssh_root Scenario.the_database))
  = ["CD34"%string]
  /\ Scenario.ssh_root ∉ get_new_tasks (set_in_progress Scenario.ssh_root Scenario.the_database).
Proof.
  split; [vm_compute; reflexivity|].
  intros Hin.
  destruct (set_status_moves_task INPROGRESS Scenario.ssh_root Scenario.the_database
              (mk_alert_row "alice" "ssh_root" "ssh as root" "root login on prod" "N/A" 0)
              (mk_response_row "" false false) OPEN eq_refl eq_refl eq_refl)
    as (_ & H & _).
  destruct (H OPEN Scenario.ssh_root Hin eq_refl) as [E _]. discriminate.
Defined.

(** X8. What [set_verifying] writes is what the tasker reads back: for a task
    object on file, the list of pending tasks then holds the alert with the
    object's comment, answer and 2FA result; for an object that a tasker
    query returned and the bot then changed, this is the object itself but
    for the status. *)
Theorem set_verifying_round_trip (level : Z) (t : Task) (d : Database)
    (c : string) (p au : bool) :
  t ∈ _get_tasks level d ->
  let t' := set_authenticated (set_performed (set_comment t c) p) au in
  mk_Task (hash t) (title t) (username t) (reason t) (description t) (url t)
          p c au VERIFICATION
    ∈ get_pending_tasks (set_verifying t' d)
  /\ (forall x, x ∈ get_pending_tasks (set_verifying t' d) -> hash x = hash t ->
        comment x = c /\ performed x = p /\ authenticated x = au).
Proof.
  intros Hin t'. apply get_tasks_spec in Hin as (a & r & Ha & Hr & Hs & Ht).
  assert (Hst : alert_status (set_verifying t' d) = <[hash t := VERIFICATION]> (alert_status d)).
  { unfold set_verifying, _set_response, _set_status. cbn. now rewrite Hs. }
  assert (Hrs : user_responses (set_verifying t' d)
                = <[hash t := mk_response_row c p au]> (user_responses d)).
  { unfold set_verifying, _set_response, _set_status. cbn. now rewrite Hr. }
  assert (Hal : alerts (set_verifying t' d) = alerts d) by reflexivity.
  split.
  - apply get_tasks_spec. exists a, (mk_response_row c p au). cbn [hash].
    rewrite Hal, Hrs, Hst, !lookup_insert_eq. repeat split; try assumption.
    rewrite Ht. reflexivity.
  - intros x Hx Hh. apply get_tasks_spec in Hx as (a' & r' & _ & Hr' & _ & Hx).
    rewrite Hh, Hrs, lookup_insert_eq in Hr'. injection Hr' as <-.
    rewrite Hx. auto.
Qed.

Lemma set_verifying_round_trip_witness :
  mk_Task "AB12" "ssh_root" "alice" "root login on prod" "ssh as root" "N/A"
          true "it was me" false VERIFICATION
    ∈ get_pending_tasks
        (set_verifying (set_performed (set_comment Scenario.ssh_root "it was me") true)
                       Scenario.the_database).
Proof.
  assert (Hin : Scenario.ssh_root ∈ _get_tasks OPEN Scenario.the_database).
  { apply get_tasks_spec. do 2 eexists. repeat split; reflexivity. }
  exact (proj1 (set_verifying_round_trip OPEN Scenario.ssh_root Scenario.the_database
                  "it was me" true false Hin)).
Defined.

End TaskerFacts.

(** ** ignored_alerts.py: what is ignored, and until when *)

Module IgnoredFacts.
Import Tasker.
Local Open Scope Z_scope.

(** The reason [get_ignored] returns for a title: that of the user's row,
    if it has not run out at the server's [NOW()]. *)
Lemma get_ignored_lookup (now_s : Z) (user title : string) (d : Database) :
  fst (get_ignored now_s user d) !! title
  = match ignored d !! user with
    | Some per_user =>
        match per_user !! title with
        | Some row => if now_s <? i_until row then Some (i_reason row) else None
        | None => None
        end
    | None => None
    end.
Proof.
  unfold get_ignored, __update_ignored_list. cbn [fst ignored set_ignored].
  rewrite lookup_fmap, lookup_fmap.
  destruct (ignored d !! user) as [per_user|]; cbn; [|reflexivity].
  destruct (per_user !! title) as [row|] eqn:Er.
  - destruct (Z.ltb_spec now_s (i_until row)) as [Hlt|Hge].
    + erewrite map_lookup_filter_Some_2; [reflexivity | exact Er |].
      cbn. now apply Z.ltb_lt.
    + rewrite (proj2 (map_lookup_filter_None _ _ _)); [reflexivity|].
      right. intros row' Hr'. rewrite Er in Hr'. injection Hr' as <-. cbn.
      intros H. apply Z.ltb_lt in H. lia.
  - rewrite (proj2 (map_lookup_filter_None _ _ _)); [reflexivity|]. now left.
Qed.

Lemma ignore_task_lookup (now : Z) (user title reason : string) (ttl : Util.timedelta)
    (d : Database) (user' title' : string) :
  (default ∅ (ignored (ignore_task now user title reason ttl d) !! user')) !! title'
  = if bool_decide (user' = user /\ title' = title)
    then Some (mk_ignored_row reason ((now + ttl) / Util.SECOND))
    else default ∅ (ignored d !! user') !! title'.
Proof.
  unfold ignore_task. cbn [ignored set_ignored].
  destruct (decide (user' = user)) as [->|Hu].
  - rewrite lookup_insert_eq. cbn [from_option id].
    destruct (decide (title' = title)) as [->|Ht].
    + rewrite lookup_insert_eq, bool_decide_eq_true_2; auto.
    + rewrite lookup_insert_ne by congruence.
      rewrite bool_decide_eq_false_2; [reflexivity | tauto].
  - rewrite lookup_insert_ne by congruence.
    rewrite bool_decide_eq_false_2; [reflexivity | tauto].
Qed.

Lemma get_ignored_default (now_s : Z) (user title : string) (d : Database) :
  fst (get_ignored now_s user d) !! title
  = match default ∅ (ignored d !! user) !! title with
    | Some row => if now_s <? i_until row then Some (i_reason row) else None
    | None => None
    end.
Proof.
  rewrite get_ignored_lookup. destruct (ignored d !! user); [reflexivity|].
  cbn. now rewrite lookup_empty.
Qed.

(** X9. [ignore_task] then [get_ignored]: the title is ignored for the user,
    with the reason given, by every query made while the server's clock is
    before the whole second in which [now + ttl] falls, and by none from
    then on; a second call for the same title replaces the first; what is
    ignored for other users and titles does not change. *)
Theorem ignore_task_then_get_ignored (now : Z) (user title reason : string)
    (ttl : Util.timedelta) (d : Database) (later : Z) :
  let d' := ignore_task now user title reason ttl d in
  let expiry := (now + ttl) / Util.SECOND in
  (later < expiry -> fst (get_ignored later user d') !! title = Some reason)
  /\ (expiry <= later -> fst (get_ignored later user d') !! title = None)
  /\ (forall user' title', ~ (user' = user /\ title' = title) ->
        fst (get_ignored later user' d') !! title'
        = fst (get_ignored later user' d) !! title')
  /\ (forall reason2 ttl2,
        ignore_task now user title reason2 ttl2 d'
        = ignore_task now user title reason2 ttl2 d).
Proof.
  intros d' expiry. split; [|split; [|split]].
  - intros Hlt. rewrite get_ignored_default. unfold d'. rewrite ignore_task_lookup.
    rewrite bool_decide_eq_true_2 by auto. cbn [i_until i_reason].
    fold expiry. apply Z.ltb_lt in Hlt. now rewrite Hlt.
  - intros Hge. rewrite get_ignored_default. unfold d'. rewrite ignore_task_lookup.
    rewrite bool_decide_eq_true_2 by auto. cbn [i_until i_reason].
    fold expiry. apply Z.ltb_ge in Hge. now rewrite Hge.
  - intros user' title' Hne. rewrite !get_ignored_default. unfold d'.
    rewrite ignore_task_lookup. now rewrite bool_decide_eq_false_2.
  - intros reason2 ttl2. unfold d', ignore_task. cbn [ignored set_ignored].
    rewrite lookup_insert_eq. cbn [from_option id].
    rewrite insert_insert_eq, insert_insert_eq. reflexivity.
Qed.

(** The automatic back-off after a confirmed alert: ignored at noon for
    [BACKOFF_TIME], the title is still ignored 20 hours later and no more
    after 21. *)
Lemma ignore_task_then_get_ignored_witness :
  let d' := ignore_task Scenario.noon "alice" "ssh_root" "auto backoff after confirmation"
                        User.BACKOFF_TIME Scenario.the_database in
  fst (get_ignored ((Scenario.noon + Util.hours 20) / Util.SECOND) "alice" d') !! "ssh_root"%string
  = Some "auto backoff after confirmation"%string
  /\ fst (get_ignored ((Scenario.noon + Util.hours 21) / Util.SECOND) "alice" d')
       !! "ssh_root"%string = None.
Proof.
  intros d'.
  destruct (ignore_task_then_get_ignored Scenario.noon "alice" "ssh_root"
              "auto backoff after confirmation" User.BACKOFF_TIME Scenario.the_database
              ((Scenario.noon + Util.hours 20) / Util.SECOND)) as (H1 & _).
  destruct (ignore_task_then_get_ignored Scenario.noon "alice" "ssh_root"
              "auto backoff after confirmation" User.BACKOFF_TIME Scenario.the_database
              ((Scenario.noon + Util.hours 21) / Util.SECOND)) as (_ & H2 & _).
  split; [apply H1 | apply H2]; vm_compute; [reflexivity | discriminate].
Defined.

(** The rows left by the pruning of [get_ignored]. *)
Lemma pruned_rows (now_s : Z) (user : string) (d : Database) (user' title' : string)
    (row : ignored_row) :
  default ∅ (ignored (snd (get_ignored now_s user d)) !! user') !! title' = Some row
  <-> default ∅ (ignored d !! user') !! title' = Some row /\ now_s < i_until row.
Proof.
  unfold get_ignored, __update_ignored_list.
  cbn [snd ignored set_ignored]. rewrite lookup_fmap.
  destruct (ignored d !! user') as [per_user|]; cbn.
  - rewrite map_lookup_filter_Some. cbn. now rewrite Z.ltb_lt.
  - rewrite lookup_empty. split; [discriminate | intros [? _]; discriminate].
Qed.

(** X10. [get_ignored] prunes before it reads: no title it returns has run
    out, the table it leaves holds no row that has, for any user, a row
    that has not run out is kept as it is, and asking again at the same
    time changes nothing. *)
Theorem get_ignored_prunes (now_s : Z) (user : string) (d : Database) :
  let d' := snd (get_ignored now_s user d) in
  (forall title reason,
     fst (get_ignored now_s user d) !! title = Some reason ->
     exists row, default ∅ (ignored d !! user) !! title = Some row
                 /\ i_reason row = reason /\ now_s < i_until row)
  /\ (forall user' title' row,
        default ∅ (ignored d' !! user') !! title' = Some row
        <-> default ∅ (ignored d !! user') !! title' = Some row /\ now_s < i_until row)
  /\ get_ignored now_s user d' = (fst (get_ignored now_s user d), d').
Proof.
  intros d'.
  assert (Hrows : forall user' title' row,
    default ∅ (ignored d' !! user') !! title' = Some row
    <-> default ∅ (ignored d !! user') !! title' = Some row /\ now_s < i_until row).
  { intros user' title' row. apply pruned_rows. }
  split; [|split].
  - intros title reason H. rewrite get_ignored_default in H.
    destruct (default ∅ (ignored d !! user) !! title) as [row|]; [|discriminate].
    destruct (Z.ltb_spec now_s (i_until row)); [|discriminate].
    injection H as <-. eauto.
  - exact Hrows.
  - assert (Hsame : __update_ignored_list now_s d' = d').
    { unfold d', get_ignored, __update_ignored_list. cbn [snd ignored set_ignored].
      unfold set_ignored. cbn. f_equal.
      rewrite <- map_fmap_compose. apply map_fmap_ext. intros u per_user _. cbn.
      apply map_filter_id. intros title row H.
      apply map_lookup_filter_Some in H as [_ H]. exact H. }
    unfold get_ignored at 1. rewrite Hsame. reflexivity.
Qed.

End IgnoredFacts.

(** ** commands.py: the ignore command on the current task *)

Module IgnoreFacts.
Import Tasker Auth World Commands.
Local Open Scope Z_scope.

(** X11. [ignore current <duration>], whatever the duration string: when the
    command reports success, the title of the user's pending task has been
    ignored, with the reason [ignored], for a time above zero and at most
    [TIME_LIMIT] = 4 hours; when it reports failure, the tables are as
    they were. *)
Theorem ignore_current_records_within_limit (user : user_ref) (time : string)
    (w w' : World) (r : bool) :
  ignore user ["current"%string; time] w = (Ok (Some r), w') ->
  if r then
    exists uo l t d,
      user_objs w !! user = Some uo
      /\ pending_task uo = Some l
      /\ task_objs w !! l = Some t
      /\ 0 < d <= TIME_LIMIT
      /\ db w' = ignore_task (utc_now w) (u_name (_user uo)) (title t) "ignored" d (db w)
  else db w' = db w.
Proof.
  intros H. unfold ignore in H.
  unfold bind at 1 in H. unfold the_user at 1 in H.
  destruct (user_objs w !! user) as [uo|] eqn:Eu; [|discriminate].
  change (String.eqb "current" "last") with false in H.
  change (String.eqb "current" "current") with true in H.
  cbv iota in H. unfold bind at 1, ret at 1 in H.
  destruct (pending_task uo) as [l|] eqn:El.
  - destruct (TIME_REGEX_match time) as [m|]; [|discriminate].
    destruct (timedelta_hm _ _) as [d|e]; [|discriminate].
    destruct (Z.ltb_spec TIME_LIMIT d) as [Hcap|Hcap].
    + cbv [bind tell message chat_send modify the_task gets update_db ret] in H.
      destruct (messages (bot w) !! "ignore_time"%string); [|discriminate].
      cbn [task_objs set_chat_log utc_now db set_db] in H.
      destruct (task_objs w !! l) as [t|] eqn:Et; [|discriminate].
      injection H as <- <-. exists uo, l, t, TIME_LIMIT.
      repeat (split; [assumption || reflexivity|]). split; [|reflexivity].
      unfold TIME_LIMIT, Util.hours, Util.HOUR, Util.MINUTE, Util.SECOND. lia.
    + destruct (Z.leb_spec d OUTATIME) as [Hzero|Hpos].
      * cbv [bind tell message chat_send modify ret] in H.
        destruct (messages (bot w) !! "ignore_no_time"%string); [|discriminate].
        injection H as <- <-. reflexivity.
      * cbv [bind the_task gets update_db modify ret] in H.
        destruct (task_objs w !! l) as [t|] eqn:Et; [|discriminate].
        injection H as <- <-. exists uo, l, t, d.
        repeat (split; [assumption || reflexivity|]). split; [|reflexivity].
        unfold OUTATIME in Hpos. lia.
  - injection H as <- <-. reflexivity.
Qed.

(** alice, with her alert pending, asks for five hours and gets four. *)
Lemma ignore_current_records_within_limit_witness :
  let w' := snd (ignore Scenario.alice_ref ["current"; "5H"]%string Scenario.alice_pending) in
  exists uo l t d,
    user_objs Scenario.alice_pending !! Scenario.alice_ref = Some uo
    /\ pending_task uo = Some l
    /\ task_objs Scenario.alice_pending !! l = Some t
    /\ 0 < d <= TIME_LIMIT
    /\ db w' = ignore_task (utc_now Scenario.alice_pending) (u_name (_user uo)) (title t)
                           "ignored" d (db Scenario.alice_pending).
Proof.
  intros w'.
  apply (ignore_current_records_within_limit Scenario.alice_ref "5H" Scenario.alice_pending
           w' true).
  rewrite (surjective_pairing (ignore _ _ Scenario.alice_pending)).
  apply (f_equal2 pair); [vm_compute; reflexivity | reflexivity].
Defined.

End IgnoreFacts.

(** ** commands.py and blacklist/sql_blacklist.py: the blacklist commands *)

Module BlacklistFacts.
Import Tasker World Commands.

Lemma union_difference_singleton (name : string) (b : gset string) :
  name ∉ b -> ({[name]} ∪ b) ∖ {[name]} = b.
Proof.
  intros Hn. apply set_eq. intros x.
  rewrite elem_of_difference, elem_of_union, elem_of_singleton. split.
  - intros [[->|H] Hx]; [contradiction | exact H].
  - intros H. split; [now right | intros ->; contradiction].
Qed.

Lemma user_name_of (user : user_ref) (uo : User) (w : World) :
  user_objs w !! user = Some uo -> User.user_name user w = (Ok (u_name (_user uo)), w).
Proof. intros H. unfold User.user_name, bind, the_user. now rewrite H. Qed.

(** X12. While the bot's set of names and the [blacklist] table agree, the two
    commands keep them so. For a user not listed, [add_to_blacklist]
    reports success and lists the name in both, a second call reports
    failure and changes nothing, and [remove_from_blacklist] then restores
    both; for a user not listed [remove_from_blacklist] reports failure
    and changes nothing. The arguments of the commands are not looked
    at. *)
Theorem blacklist_commands_keep_step (user : user_ref) (uo : User) (w : World)
    (args : list string) :
  user_objs w !! user = Some uo ->
  _blacklist (bot w) = blacklist (db w) ->
  u_name (_user uo) ∉ _blacklist (bot w) ->
  remove_from_blacklist user args w = (Ok (Some false), w)
  /\ exists w1,
       add_to_blacklist user args w = (Ok (Some true), w1)
       /\ _blacklist (bot w1) = {[u_name (_user uo)]} ∪ _blacklist (bot w)
       /\ blacklist (db w1) = _blacklist (bot w1)
       /\ add_to_blacklist user args w1 = (Ok (Some false), w1)
       /\ exists w2,
            remove_from_blacklist user args w1 = (Ok (Some true), w2)
            /\ _blacklist (bot w2) = _blacklist (bot w)
            /\ blacklist (db w2) = blacklist (db w)
            /\ user_objs w2 = user_objs w /\ chat_log w2 = chat_log w.
Proof.
  intros Hu Hstep Hn. set (name := u_name (_user uo)) in *.
  assert (Hrm : remove_from_blacklist user args w = (Ok (Some false), w)).
  { unfold remove_from_blacklist. unfold bind at 1. rewrite (user_name_of user uo w Hu).
    fold name. unfold bind at 1, gets at 1.
    rewrite bool_decide_eq_false_2 by exact Hn. reflexivity. }
  split; [exact Hrm|].
  set (w1 := set_db (set_bot w (set__blacklist (bot w) ({[name]} ∪ _blacklist (bot w))))
                    (set_blacklist (db w) ({[name]} ∪ blacklist (db w)))).
  assert (Hu1 : user_objs w1 !! user = Some uo) by exact Hu.
  assert (Hin1 : name ∈ _blacklist (bot w1)).
  { unfold w1. cbn. apply elem_of_union_l, elem_of_singleton. reflexivity. }
  exists w1. split; [|split; [|split; [|split]]].
  - unfold add_to_blacklist. unfold bind at 1. rewrite (user_name_of user uo w Hu).
    fold name. unfold bind at 1, gets at 1.
    rewrite bool_decide_eq_false_2 by exact Hn. cbn [negb].
    unfold blacklist_add.
    cbv [bind modify gets update_db ret]. cbn [db set_bot].
    rewrite bool_decide_eq_false_2 by (rewrite <- Hstep; exact Hn). reflexivity.
  - reflexivity.
  - unfold w1. cbn. now rewrite Hstep.
  - unfold add_to_blacklist. unfold bind at 1. rewrite (user_name_of user uo w1 Hu1).
    fold name. unfold bind at 1, gets at 1.
    rewrite bool_decide_eq_true_2 by exact Hin1. reflexivity.
  - eexists. split.
    + unfold remove_from_blacklist. unfold bind at 1. rewrite (user_name_of user uo w1 Hu1).
      fold name. unfold bind at 1, gets at 1.
      rewrite bool_decide_eq_true_2 by exact Hin1.
      unfold blacklist_remove. cbv [bind modify gets update_db ret].
      rewrite bool_decide_eq_true_2 by exact Hin1. reflexivity.
    + unfold w1. cbn. rewrite !union_difference_singleton; auto.
      rewrite <- Hstep. exact Hn.
Qed.

(** alice puts herself on the list and takes herself off again. *)
Lemma blacklist_commands_keep_step_witness :
  exists w1 w2,
    add_to_blacklist Scenario.alice_ref [] Scenario.world0 = (Ok (Some true), w1)
    /\ _blacklist (bot w1) = {[ "alice"%string ]} ∪ {[ "mallory"%string ]}
    /\ remove_from_blacklist Scenario.alice_ref [] w1 = (Ok (Some true), w2)
    /\ blacklist (db w2) = {[ "mallory"%string ]}.
Proof.
  destruct (blacklist_commands_keep_step Scenario.alice_ref
              (User.new Scenario.alice (Auth.new "alice")) Scenario.world0 [])
    as (_ & w1 & Ha & Hb & _ & _ & w2 & Hr & _ & Hd & _).
  - reflexivity.
  - reflexivity.
  - change ("alice"%string ∉ ({[ "mallory"%string ]} : gset string)).
    intros H. apply elem_of_singleton in H. discriminate.
  - exists w1, w2. split; [exact Ha|]. split; [exact Hb|]. split; [exact Hr | exact Hd].
Defined.

End BlacklistFacts.

(** ** bot.py: how a message is dispatched *)

Module DispatchFacts.
Import Text World Bot BotSpec ShlexSpec TextFacts MessageFacts.

(** [is_command] changes nothing. *)
Lemma is_command_reads (t : text) (w : World) : snd (is_command t w) = w.
Proof.
  rewrite is_command_unfold. destruct (text_split (lib w) t) as [|first rest]; [reflexivity|].
  destruct (clean_command (lib w) first); reflexivity.
Qed.

(** X13. Every message is looked at, whether its sender has a task or not: the
    sender is looked up among all members, and [active_users] is not
    read. A message from an id that is not a member's ends the pass with
    [SecurityBotException], the messages after it unhandled; a message of
    a member that is not a command is answered with [bad_command], and
    nothing else changes. *)
Theorem handle_messages_answers_members (pre post : list (string * text))
    (user_id : string) (t : text) (w w1 : World) :
  handle_messages pre w = (Ok tt, w1) ->
  (users (bot w1) !! user_id = None ->
     handle_messages (pre ++ (user_id, t) :: post) w = (Raise SecurityBotException, w1))
  /\ (forall u m,
        users (bot w1) !! user_id = Some u ->
        is_command t w1 = (Ok false, w1) ->
        messages (bot w1) !! "bad_command"%string = Some m ->
        handle_messages (pre ++ [(user_id, t)]) w
        = (Ok tt, set_chat_log w1 (chat_log w1 ++ [(ToUser u, Plain m)]))).
Proof.
  intros Hpre. unfold handle_messages in *. split.
  - intros Hu. rewrite for_each_app, Hpre.
    assert (Hm : handle_message (user_id, t) w1 = (Raise SecurityBotException, w1)).
    { cbv [handle_message bind user_lookup gets ret raise]. cbv beta. now rewrite Hu. }
    now rewrite Hm.
  - intros u m Hu Hc Hb. rewrite for_each_app, Hpre.
    assert (Hm : handle_message (user_id, t) w1
                 = (Ok tt, set_chat_log w1 (chat_log w1 ++ [(ToUser u, Plain m)]))).
    { unfold handle_message. unfold bind at 1. unfold user_lookup, bind at 1, gets at 1.
      rewrite Hu. unfold ret at 1. unfold bind at 1. rewrite Hc.
      unfold Commands.tell, bind, message. now rewrite Hb. }
    rewrite Hm. reflexivity.
Qed.

(** A stranger writes between two greetings of alice: the first is
    answered, the pass ends at the stranger's message. alice herself, who
    has no task, is told that "what?" is no command. *)
Lemma handle_messages_answers_members_witness :
  let w1 := snd (handle_messages [("U1"%string, Str "hi")] Scenario.world0) in
  handle_messages [("U1"%string, Str "hi"); ("U9"%string, Str "hi");
                   ("U1"%string, Str "hi")] Scenario.world0
  = (Raise SecurityBotException, w1)
  /\ fst (handle_messages [("U1"%string, Str "hi"); ("U1"%string, Str "what?")]
            Scenario.world0) = Ok tt.
Proof.
  intros w1.
  assert (Hpre : handle_messages [("U1"%string, Str "hi")] Scenario.world0 = (Ok tt, w1)).
  { rewrite (surjective_pairing (handle_messages _ Scenario.world0)).
    apply (f_equal2 pair); [vm_compute; reflexivity | reflexivity]. }
  split.
  - apply (proj1 (handle_messages_answers_members [("U1"%string, Str "hi")]
                    [("U1"%string, Str "hi")] "U9" (Str "hi") Scenario.world0 w1 Hpre)).
    vm_compute. reflexivity.
  - pose proof (proj2 (handle_messages_answers_members [("U1"%string, Str "hi")] []
                         "U1" (Str "what?") Scenario.world0 w1 Hpre)
                  Scenario.alice_ref "I did not get that.") as H.
    cbn [app] in H. rewrite H.
    + reflexivity.
    + vm_compute. reflexivity.
    + rewrite (surjective_pairing (is_command _ w1)).
      apply (f_equal2 pair); [vm_compute; reflexivity | apply is_command_reads].
    + vm_compute. reflexivity.
Defined.

(** X14. [is_command] and [parse_command] do not read the same first word:
    [is_command] cleans the first white-space token of the raw text,
    [parse_command] the first token that [shlex.split] makes of the cleaned
    text. When the first is a command's name and the second is not,
    [handle_command] looks up a key that [self.commands] does not hold, and
    the message ends the pass with a [KeyError]; nothing is sent. *)
Theorem mismatched_first_word_raises (user_id : string) (t : text) (w : World)
    (u : user_ref) (uo : User) (first : text) (rest : list text) (key : string)
    (cleaned tok : string) (toks : list string) (key' : string) :
  users (bot w) !! user_id = Some u ->
  user_objs w !! u = Some uo ->
  text_split (lib w) t = first :: rest ->
  clean_command (lib w) first = Ok key ->
  is_Some (commands (bot w) !! key) ->
  clean_input t = Ok cleaned ->
  tokens (lib w) cleaned = tok :: toks ->
  clean_command (lib w) (Str tok) = Ok key' ->
  commands (bot w) !! key' = None ->
  is_command t w = (Ok true, w)
  /\ parse_command t w = (Ok (key', toks), w)
  /\ handle_messages [(user_id, t)] w = (Raise KeyError, w).
Proof.
  intros Hu Huo Hsplit Hkey Hcmd Hclean Htok Hkey' Hnone.
  assert (Hic : is_command t w = (Ok true, w)).
  { rewrite is_command_unfold, Hsplit, Hkey. now rewrite bool_decide_eq_true_2. }
  assert (Hpc : parse_command t w = (Ok (key', toks), w)).
  { rewrite parse_command_unfold, Hclean, Htok, Hkey'. reflexivity. }
  split; [exact Hic|]. split; [exact Hpc|].
  unfold handle_messages, for_each. unfold bind at 1.
  unfold handle_message. unfold bind at 1. unfold user_lookup, bind at 1, gets at 1.
  rewrite Hu. unfold ret at 1. unfold bind at 1. rewrite Hic.
  unfold handle_command. unfold bind at 1. rewrite Hpc.
  unfold bind at 1. unfold User.user_name, bind at 1, the_user. rewrite Huo.
  unfold ret at 1. unfold bind at 1, gets at 1. rewrite Hnone. reflexivity.
Qed.

(** alice sends ["hi there"] in double quotes: the raw first word cleans
    to [hi], the first token of the tokenizer to [hi there]. *)
Lemma mismatched_first_word_raises_witness :
  let w := with_lib Scenario.world0 quoting_library in
  is_command quoted_hi_there w = (Ok true, w)
  /\ parse_command quoted_hi_there w = (Ok ("hi there"%string, []), w)
  /\ handle_messages [("U1"%string, quoted_hi_there)] w = (Raise KeyError, w).
Proof.
  intros w.
  apply (mismatched_first_word_raises "U1" quoted_hi_there w Scenario.alice_ref
           (User.new Scenario.alice (Auth.new "alice"))
           (Str (String (chr 34) "hi")) [Str ("there" +:+ String (chr 34) EmptyString)]
           "hi"
           (String (chr 34) ("hi there" +:+ String (chr 34) EmptyString))
           "hi there" [] "hi there").
  - reflexivity.
  - reflexivity.
  - vm_compute. reflexivity.
  - vm_compute. reflexivity.
  - vm_compute. eauto.
  - vm_compute. reflexivity.
  - vm_compute. reflexivity.
  - vm_compute. reflexivity.
  - vm_compute. reflexivity.
Defined.

End DispatchFacts.

(** ** bot.py: [clean_input] *)

Module InputFacts.
Import Text Bot InputSpec TextFacts.
Local Open Scope Z_scope.

Lemma chr_code (c : ascii) : chr (code c) = c.
Proof. unfold chr, code. rewrite N2Z.id. apply ascii_N_embedding. Qed.

Lemma replace_smart_plain (c : Z) : is_smart c = false -> replace_smart c = [c].
Proof.
  unfold is_smart. intros H. apply bool_decide_eq_false in H.
  unfold replace_smart.
  rewrite !(proj2 (Z.eqb_neq c _)); [reflexivity|..];
    intros ->; apply H; repeat (first [apply list_elem_of_here | apply list_elem_of_further]).
Qed.

Lemma replace_smart_clean (c : Z) : Forall (fun x => is_smart x = false) (replace_smart c).
Proof.
  unfold replace_smart.
  destruct ((c =? 8216) || (c =? 8217)) eqn:E1; [repeat constructor|].
  destruct ((c =? 8220) || (c =? 8221)) eqn:E2; [repeat constructor|].
  destruct ((c =? 8211) || (c =? 8212)) eqn:E3; [repeat constructor|].
  apply orb_false_elim in E1 as [A1 A2], E2 as [A3 A4], E3 as [A5 A6].
  apply Z.eqb_neq in A1, A2, A3, A4, A5, A6.
  constructor; [|constructor].
  unfold is_smart. apply bool_decide_eq_false. intros Hin.
  repeat (apply elem_of_cons in Hin as [Hin|Hin]; [congruence|]).
  now apply elem_of_nil in Hin.
Qed.

Lemma ascii_bytes_round_trip (l : list ascii) :
  forallb is_ascii l = true ->
  flat_map utf8 (flat_map replace_smart (map code l)) = l.
Proof.
  induction l as [|c l IH]; intros H; [reflexivity|].
  cbn [forallb] in H. apply andb_prop in H as [Hc Hl].
  unfold is_ascii in Hc. apply Z.ltb_lt in Hc.
  cbn [map flat_map]. rewrite replace_smart_plain.
  - cbn [app flat_map]. unfold utf8 at 1. rewrite (proj2 (Z.ltb_lt _ _) Hc).
    cbn [app]. rewrite chr_code, IH by exact Hl. reflexivity.
  - unfold is_smart. apply bool_decide_eq_false. intros Hin.
    repeat (apply elem_of_cons in Hin as [Hin|Hin]; [lia|]).
    now apply elem_of_nil in Hin.
Qed.

(** X15. [clean_input] on a byte string returns it unchanged when it is ASCII
    and raises [UnicodeDecodeError] when it is not: [str.replace] with a
    [unicode] argument decodes the string first. On a [unicode] text it
    returns the UTF-8 bytes of the text in which every curly quote and
    dash is replaced; no such character is left, and a text without them
    is only encoded. *)
Theorem clean_input_replaces_then_encodes :
  (forall s, clean_input (Str s)
             = if all_ascii s then Ok s else Raise UnicodeDecodeError)
  /\ (forall u, exists u',
        clean_input (Unicode u) = Ok (of_bytes (flat_map utf8 u'))
        /\ Forall (fun c => is_smart c = false) u'
        /\ (length u <= length u')%nat
        /\ (Forall (fun c => is_smart c = false) u -> u' = u)).
Proof.
  split.
  - intros s. unfold clean_input, decode_ascii.
    destruct (all_ascii s) eqn:E; [|reflexivity].
    unfold encode_utf8. unfold all_ascii in E.
    rewrite (ascii_bytes_round_trip (bytes s) E). now rewrite of_bytes_bytes.
  - intros u. exists (flat_map replace_smart u).
    split; [reflexivity|]. split; [|split].
    + induction u as [|c u IH]; [constructor|].
      cbn [flat_map]. apply Forall_app. split; [apply replace_smart_clean | exact IH].
    + induction u as [|c u IH]; [reflexivity|].
      cbn [flat_map]. rewrite length_app. cbn [length].
      assert (1 <= length (replace_smart c))%nat; [|lia].
      unfold replace_smart.
      repeat match goal with
             | |- context [if ?b then _ else _] => destruct b
             end; cbn; lia.
    + induction u as [|c u IH]; intros H; [reflexivity|].
      apply Forall_cons in H as [Hc Hu]. cbn [flat_map].
      rewrite (replace_smart_plain c Hc), IH by exact Hu. reflexivity.
Qed.

End InputFacts.

(** ** user.py: the steps of a session *)

Module SessionFacts.
Import Tasker Auth World User UserFacts StateMachineSpec.
Local Open Scope Z_scope.

Local Abbreviation spec_step self :=
  (step_spec (transitions self) (during self) (on_enter self) (on_exit self)).

(** [User.step] is the specification's step of the session's machine from
    the state the object holds, followed by the write of the state reached. *)
Lemma step_as_spec (self : user_ref) (w : World) (u : User) :
  user_objs w !! self = Some u -> fsm_state u ∈ states ->
  step self w
  = let '(r, (s', w')) := spec_step self (fsm_state u, w) in
    (r, match user_objs w' !! self with
        | Some u' => set_user_objs w' (<[self := set_fsm_state u' s']> (user_objs w'))
        | None => w'
        end).
Proof.
  intros Hu Hs. unfold step. rewrite Hu.
  destruct (user_fsm_ok self) as [m Hm]. rewrite Hm.
  rewrite (StateMachineFacts.new_states _ _ _ _ _ _ m (fsm_state u) Hm).
  rewrite bool_decide_eq_true_2 by assumption.
  pose proof (StateMachineFacts.step_matches_spec _ _ _ _ _ _ m Hm (fsm_state u) w) as H.
  destruct (StateMachine.step _) as [r [m' w']]. rewrite H. reflexivity.
Qed.

Lemma write_back_same (self : user_ref) (w : World) (u : User) :
  user_objs w !! self = Some u ->
  set_user_objs w (<[self := set_fsm_state u (fsm_state u)]> (user_objs w)) = w.
Proof.
  intros Hu. replace (set_fsm_state u (fsm_state u)) with u by (now destruct u).
  rewrite insert_id by exact Hu. now destruct w.
Qed.

(** The next transition's condition is examined, and comes to [H]. *)
Ltac next_guard H :=
  rewrite StateMachineFacts.choose_and_take_cons;
  cbv [guard StateMachine.d_condition from_option id];
  rewrite H; cbv beta iota.

(** X17. The steps that wait. While nothing is queued for a session in
    [need_task], and while the user of a session in
    [action_performed_check] or [auth_permission_check] has not answered
    and the deadline has not passed, [step()] returns and leaves the whole
    store as it is: no message is sent, and no task object, session
    (its auth object included), list of the bot or table is written. *)
Theorem waiting_step_changes_nothing (self : user_ref) (w : World) (u : User) :
  user_objs w !! self = Some u ->
  (fsm_state u = "need_task"%string /\ tasks u = [])
  \/ ((fsm_state u = "action_performed_check"%string
       \/ fsm_state u = "auth_permission_check"%string)
      /\ Util.answer (_last_message u) = None
      /\ utc_now w <= Util.utc_instant (_escalation_time u)) ->
  step self w = (Ok tt, w).
Proof.
  intros Hu Hcase.
  assert (Hlate : utc_now w <= Util.utc_instant (_escalation_time u) ->
                  _slow_response_time self w = (Ok false, w)).
  { intros H. cbv [_slow_response_time bind the_user gets ret]. rewrite Hu.
    apply Z.ltb_ge in H. now rewrite H. }
  destruct Hcase as [[Hs Ht] | [Hs [Ha Hd]]].
  - rewrite (step_as_spec self w u Hu) by (rewrite Hs; in_states).
    rewrite Hs. rewrite StateMachineFacts.step_spec_unfold.
    change (hook (during self) "need_task" w) with (Ok tt, w).
    change (declared_from (transitions self) "need_task")
      with [StateMachine.mk_transition_dict "need_task" "action_performed_check"
              (Some (_has_tasks self)) None].
    cbv beta iota. rewrite StateMachineFacts.choose_and_take_cons.
    assert (Hg : guard (StateMachine.mk_transition_dict "need_task" "action_performed_check"
                          (Some (_has_tasks self)) None) w = (Ok false, w)).
    { cbv [guard StateMachine.d_condition default from_option id _has_tasks bind the_user ret].
      rewrite Hu, Ht. reflexivity. }
    rewrite Hg. cbv [choose_and_take first_enabled in_world bind ret]. cbn [fst snd].
    rewrite Hu, <- Hs. now rewrite (write_back_same self w u Hu).
  - assert (Hsta : fsm_state u ∈ states) by (destruct Hs as [-> | ->]; in_states).
    rewrite (step_as_spec self w u Hu Hsta).
    assert (Hp : _performed_action self w = (Ok false, w)).
    { cbv [_performed_action bind the_user ret]. now rewrite Hu, Ha. }
    assert (Hn : _did_not_perform_action self w = (Ok false, w)).
    { cbv [_did_not_perform_action bind the_user ret]. now rewrite Hu, Ha. }
    assert (Haa : _already_authed self w = (Ok false, w)).
    { unfold _already_authed, bind. now rewrite Hp. }
    assert (Hc2 : _cannot_2fa self w = (Ok false, w)).
    { unfold _cannot_2fa, bind. now rewrite Hp. }
    assert (Hal : _allows_authorization self w = (Ok false, w)).
    { cbv [_allows_authorization bind the_user ret]. now rewrite Hu, Ha. }
    assert (Hde : _denies_authorization self w = (Ok false, w)).
    { cbv [_denies_authorization bind the_user ret]. now rewrite Hu, Ha. }
    specialize (Hlate Hd).
    destruct Hs as [Hs | Hs]; rewrite Hs; rewrite StateMachineFacts.step_spec_unfold.
    + change (hook (during self) "action_performed_check" w) with (Ok tt, w).
      change (declared_from (transitions self) "action_performed_check")
        with [ StateMachine.mk_transition_dict "action_performed_check" "task_finished"
                 (Some (_already_authed self)) None;
               StateMachine.mk_transition_dict "action_performed_check" "task_finished"
                 (Some (_cannot_2fa self)) (Some (send_message self "no_2fa"));
               StateMachine.mk_transition_dict "action_performed_check" "auth_permission_check"
                 (Some (_performed_action self)) None;
               StateMachine.mk_transition_dict "action_performed_check" "task_finished"
                 (Some (_did_not_perform_action self)) (Some (_act_on_not_performed self));
               StateMachine.mk_transition_dict "action_performed_check" "task_finished"
                 (Some (_slow_response_time self)) (Some (_auto_escalate self)) ].
      cbv beta iota.
      next_guard Haa. next_guard Hc2. next_guard Hp. next_guard Hn. next_guard Hlate.
      cbv [choose_and_take first_enabled in_world bind ret]. cbn [fst snd].
      rewrite Hu, <- Hs. now rewrite (write_back_same self w u Hu).
    + change (hook (during self) "auth_permission_check" w) with (Ok tt, w).
      change (declared_from (transitions self) "auth_permission_check")
        with [ StateMachine.mk_transition_dict "auth_permission_check" "waiting_on_auth"
                 (Some (_allows_authorization self)) None;
               StateMachine.mk_transition_dict "auth_permission_check" "task_finished"
                 (Some (_denies_authorization self)) (Some (send_message self "escalated"));
               StateMachine.mk_transition_dict "auth_permission_check" "task_finished"
                 (Some (_slow_response_time self)) (Some (_auto_escalate self)) ].
      cbv beta iota.
      next_guard Hal. next_guard Hde. next_guard Hlate.
      cbv [choose_and_take first_enabled in_world bind ret]. cbn [fst snd].
      rewrite Hu, <- Hs. now rewrite (write_back_same self w u Hu).
Qed.

(** alice's session before any alert: a step changes nothing. *)
Lemma waiting_step_changes_nothing_witness :
  step Scenario.alice_ref Scenario.world0 = (Ok tt, Scenario.world0).
Proof.
  apply (waiting_step_changes_nothing Scenario.alice_ref Scenario.world0
           (User.new Scenario.alice (Auth.new "alice")) eq_refl).
  left. split; reflexivity.
Defined.

(** X18. The step that takes up a task. From [need_task] with a task queued,
    [step()] pops the first task of the queue and makes it the pending
    one, sends the user the alert for it, clears the last message, sets
    the deadline [get_expiration_time(now, ESCALATION_TIME)] and enters
    [action_performed_check]; the tables, the task objects and the bot's
    lists are as before. Away from the ends of the calendar
    [get_expiration_time] returns, so a deadline is set. *)
Theorem step_takes_up_first_task (self : user_ref) (w : World) (u : User)
    (first : task_ref) (rest : list task_ref) (t : Task) (alert prompt : string) :
  user_objs w !! self = Some u ->
  fsm_state u = "need_task"%string ->
  tasks u = first :: rest ->
  task_objs w !! first = Some t ->
  messages (bot w) !! "alert"%string = Some alert ->
  messages (bot w) !! "action_prompt"%string = Some prompt ->
  SessionSpec.sane_clock w ->
  exists deadline : Util.datetime,
    Util.get_expiration_time (LOCAL_TZ w)
      (Util.mk_datetime (utc_now w) (Some Util.pytz_utc)) ESCALATION_TIME = Ok deadline
    /\ step self w
       = (Ok tt,
          set_user_objs
            (set_chat_log w
               (chat_log w ++ [(ToUser self, SessionSpec.alert_message alert prompt t)]))
            (<[self := mk_User (_user u) rest (Some first) (auth u)
                               (Util.tuple_builder None None)
                               (_last_auth u) deadline "action_performed_check"]>
               (user_objs w))).
Proof.
  intros Hu Hs Ht Hfirst Halert Hprompt (Hz & Hlo & Hhi).
  destruct (UtilFacts.get_expiration_time_returns (LOCAL_TZ w) (utc_now w) ESCALATION_TIME
              Hz Hlo Hhi ltac:(split; discriminate)) as [deadline Hdeadline].
  exists deadline. split; [exact Hdeadline|].
  rewrite (step_as_spec self w u Hu) by (rewrite Hs; in_states).
  rewrite Hs. rewrite StateMachineFacts.step_spec_unfold.
  change (hook (during self) "need_task" w) with (Ok tt, w).
  change (declared_from (transitions self) "need_task")
    with [StateMachine.mk_transition_dict "need_task" "action_performed_check"
            (Some (_has_tasks self)) None].
  cbv beta iota.
  assert (Hg : _has_tasks self w = (Ok true, w)).
  { cbv [_has_tasks bind the_user ret]. rewrite Hu, Ht. reflexivity. }
  next_guard Hg.
  set (u1 := set_pending_task (set_tasks u rest) (Some first)).
  set (w1 := set_user_objs w (<[self := u1]> (user_objs w))).
  set (w2 := set_chat_log w1 (chat_log w ++ [(ToUser self, SessionSpec.alert_message alert prompt t)])).
  set (u3 := set_escalation_time (set_last_message u1 (Util.tuple_builder None None)) deadline).
  set (w3 := set_user_objs w2 (<[self := u3]> (user_objs w))).
  assert (Hnext : _next_task self w = (Ok tt, w3)).
  { unfold _next_task. unfold bind at 1. unfold the_user at 1. rewrite Hu, Ht.
    unfold bind at 1. unfold update_user at 1. rewrite Hu. fold u1. fold w1.
    unfold bind at 1. unfold alert_user. unfold bind at 1. unfold the_task at 1.
    change (task_objs w1) with (task_objs w). rewrite Hfirst.
    unfold bind at 1, message at 1. change (bot w1) with (bot w). rewrite Halert.
    unfold bind at 1, message at 1. change (bot w1) with (bot w). rewrite Hprompt.
    unfold chat_send, modify.
    change (set_chat_log w1 _) with w2.
    unfold bind at 1. unfold _reset_message, update_user at 1.
    change (user_objs w2) with (<[self := u1]> (user_objs w)). rewrite lookup_insert_eq.
    rewrite insert_insert_eq.
    cbv [bind gets].
    change (LOCAL_TZ (set_user_objs w2 _)) with (LOCAL_TZ w).
    change (utc_now (set_user_objs w2 _)) with (utc_now w).
    rewrite Hdeadline. unfold update_user. cbn [user_objs set_user_objs].
    rewrite lookup_insert_eq, insert_insert_eq. reflexivity. }
  unfold take. cbv [effect StateMachine.d_action from_option id].
  change (hook (on_exit self) "need_task") with (_next_task self).
  change (hook (on_enter self) (StateMachine.d_dest _)) with (@ret World unit tt).
  cbv [bind in_world ret modify]. cbn [fst snd]. rewrite Hnext. cbn [fst snd].
  subst w3. cbn [user_objs set_user_objs]. rewrite lookup_insert_eq.
  cbn [user_objs set_user_objs]. rewrite insert_insert_eq.
  subst w2 w1 u3 u1. reflexivity.
Qed.

(** alice's alert has been admitted at noon Pacific time on a Monday: the
    next step alerts her and sets the deadline two hours on. *)
Lemma step_takes_up_first_task_witness :
  let w := snd (Bot._add_task 0%nat Scenario.world0) in
  exists w',
    step Scenario.alice_ref w = (Ok tt, w')
    /\ (fsm_state <$> user_objs w' !! Scenario.alice_ref) = Some "action_performed_check"%string
    /\ (pending_task <$> user_objs w' !! Scenario.alice_ref) = Some (Some 0%nat)
    /\ (_escalation_time <$> user_objs w' !! Scenario.alice_ref)
       = Some (Util.mk_datetime (Scenario.noon + Util.hours 2) (Some Util.pytz_utc))
    /\ length (chat_log w') = 2%nat.
Proof.
  intros w.
  destruct (step_takes_up_first_task Scenario.alice_ref w
             (set_tasks (User.new Scenario.alice (Auth.new "alice")) [0%nat])
             0%nat [] Scenario.ssh_root "{0}: {1}" "Was it you?")
    as (deadline & Hdeadline & Hstep).
  - vm_compute; reflexivity.
  - reflexivity.
  - reflexivity.
  - vm_compute; reflexivity.
  - vm_compute; reflexivity.
  - vm_compute; reflexivity.
  - split; [split|split].
    + split; reflexivity.
    + intros x.
      change (Util.zone_fromutc (LOCAL_TZ w) x) with (Util.zone_fromutc Util.Los_Angeles_2016 x).
      cbv [Util.Los_Angeles_2016 Util.zone_fromutc].
      match goal with |- context [if ?c then _ else _] => destruct c end; split; reflexivity.
    + discriminate.
    + discriminate.
  - assert (Hd : deadline = Util.mk_datetime (Scenario.noon + Util.hours 2)
                              (Some Util.pytz_utc)).
    { vm_compute in Hdeadline. injection Hdeadline as <-. vm_compute. reflexivity. }
    subst deadline. eexists. split; [exact Hstep|].
    cbn [user_objs set_user_objs chat_log set_chat_log]. rewrite lookup_insert_eq.
    repeat (split; [reflexivity|]). vm_compute. reflexivity.
Defined.

(** *** Completing a task *)

Import AdmitSpec AdmitFacts.

(** What the loop of [_update_tasks] does to the tables: it writes
    VERIFICATION for alerts on file and nothing else to [alert_status],
    and leaves [alerts], [ignored] and [blacklist] alone. *)
Lemma sweep_tables (ign : gmap string string) (ts : list task_ref) :
  forall (w : World) (res : result (list task_ref)) (w' : World),
  sweep ign ts w = (res, w') ->
  ignored (db w') = ignored (db w)
  /\ alerts (db w') = alerts (db w)
  /\ blacklist (db w') = blacklist (db w)
  /\ forall k, alert_status (db w') !! k = alert_status (db w) !! k
               \/ alert_status (db w') !! k = Some VERIFICATION.
Proof.
  induction ts as [|r ts IH]; intros w res w' H; cbn [sweep] in H.
  - injection H as <- <-. auto.
  - unfold bind at 1 in H. unfold the_task at 1 in H.
    destruct (task_objs w !! r) as [t|] eqn:Et; [|injection H as <- <-; auto].
    destruct (ign !! title t) as [why|].
    + unfold bind at 1 in H. unfold update_task at 1 in H. rewrite Et in H.
      unfold bind at 1 in H. unfold task_set_verifying at 1, bind at 1, the_task at 1 in H.
      cbn [task_objs set_task_objs] in H. rewrite lookup_insert_eq in H.
      unfold update_db at 1, modify at 1 in H.
      apply IH in H as (Hi & Ha & Hb & Hst).
      rewrite Hi, Ha, Hb. cbn [db set_db set_task_objs].
      split; [reflexivity|]. split; [reflexivity|]. split; [reflexivity|].
      intros k. destruct (Hst k) as [Hk|Hk]; [|now right].
      rewrite Hk. cbn [db set_db set_task_objs].
      unfold set_verifying, _set_response, _set_status.
      cbn [alert_status set_user_responses set_alert_status hash set_comment].
      destruct (alert_status (db w) !! hash t) as [x|] eqn:Ex; [|now left].
      destruct (decide (hash t = k)) as [<-|Hne].
      * right. apply lookup_insert_eq.
      * left. now rewrite lookup_insert_ne.
    + unfold bind at 1 in H.
      destruct (sweep ign ts w) as [[cleaned|e] w''] eqn:Es;
        injection H as <- <-; apply (IH _ _ _ Es).
Qed.

(** [_update_tasks]: the ignored titles are read, after the pruning; the
    queue keeps the tasks whose title is not among them. *)
Lemma update_tasks_spec (self : user_ref) (w : World) (u : User) :
  user_objs w !! self = Some u ->
  (forall r, In r (tasks u) -> is_Some (task_objs w !! r)) ->
  let now_s := utc_now w / Util.SECOND in
  let ign := fst (get_ignored now_s (u_name (_user u)) (db w)) in
  exists w',
    _update_tasks self w = (Ok tt, w')
    /\ bot w' = bot w
    /\ chat_log w' = chat_log w
    /\ user_objs w' = <[self := set_tasks u (List.filter (kept ign (task_objs w)) (tasks u))]>
                        (user_objs w)
    /\ ignored (db w') = ignored (snd (get_ignored now_s (u_name (_user u)) (db w)))
    /\ forall k, alert_status (db w') !! k = alert_status (db w) !! k
                 \/ alert_status (db w') !! k = Some VERIFICATION.
Proof.
  intros Hu Hvalid now_s ign.
  unfold _update_tasks. unfold bind at 1. unfold the_user at 1. rewrite Hu.
  unfold bind at 1, gets at 1. unfold bind at 1, gets at 1.
  fold now_s.
  set (gi := get_ignored _ _ _). assert (Hgi : fst gi = ign) by reflexivity.
  destruct gi as [ign' d1] eqn:Egi. cbn [fst] in Hgi. subst ign'.
  unfold bind at 1, update_db at 1, modify at 1.
  set (w1 := set_db w d1).
  destruct (sweep_spec ign (tasks u) w1) as (objs' & d' & Hsw & _ & _).
  { intros r Hr. subst w1. cbn. auto. }
  pose proof (sweep_tables ign (tasks u) w1 _ _ Hsw) as (Hi & _ & _ & Hst).
  unfold bind at 1. rewrite Hsw. cbn [db set_db set_task_objs] in Hi, Hst.
  unfold update_user. cbn [user_objs set_task_objs set_db].
  change (user_objs w1) with (user_objs w). rewrite Hu.
  eexists. split; [reflexivity|]. cbn.
  split; [reflexivity|]. split; [reflexivity|]. split; [reflexivity|].
  assert (Hd1 : d1 = snd (get_ignored now_s (u_name (_user u)) (db w))).
  { unfold gi in Egi. now rewrite Egi. }
  split.
  - exact Hi.
  - intros k. destruct (Hst k) as [Hk|Hk]; [left | now right].
    rewrite Hk. subst w1. cbn [db set_db]. rewrite Hd1. reflexivity.
Qed.

(** What [_update_tasks] writes on the task objects: the sweep's comments. *)
Lemma update_tasks_writes (self : user_ref) (w : World) (u : User) :
  user_objs w !! self = Some u ->
  (forall r, In r (tasks u) -> is_Some (task_objs w !! r)) ->
  let ign := fst (get_ignored (utc_now w / Util.SECOND) (u_name (_user u)) (db w)) in
  forall r, task_objs (snd (_update_tasks self w)) !! r
            = after_sweep ign (tasks u) (task_objs w) r.
Proof.
  intros Hu Hvalid ign r.
  unfold _update_tasks. unfold bind at 1. unfold the_user at 1. rewrite Hu.
  unfold bind at 1, gets at 1. unfold bind at 1, gets at 1.
  set (gi := get_ignored _ _ _). assert (Hgi : fst gi = ign) by reflexivity.
  destruct gi as [ign' d1] eqn:Egi. cbn [fst] in Hgi. subst ign'.
  unfold bind at 1, update_db at 1, modify at 1.
  set (w1 := set_db w d1).
  assert (Hv1 : forall r, In r (tasks u) -> is_Some (task_objs w1 !! r)).
  { intros r' Hr. subst w1. cbn. auto. }
  destruct (sweep_spec ign (tasks u) w1 Hv1) as (objs' & d' & Hsw & _ & _).
  destruct (sweep_writes ign (tasks u) w1 Hv1) as [Hobjs _].
  rewrite Hsw in Hobjs. cbn [snd] in Hobjs.
  unfold bind at 1. rewrite Hsw.
  unfold update_user. cbn [user_objs set_task_objs set_db].
  change (user_objs w1) with (user_objs w). rewrite Hu. cbn [snd task_objs set_user_objs].
  apply Hobjs.
Qed.

(** X19. The exit from [task_finished]. [_complete_task] sends the pending
    task to verification, leaves the session with no pending task and no
    last message, and sweeps the queue: the queue keeps the tasks whose
    title is not ignored, and every queued task with an ignored title gets
    the reason as its comment. It takes the user off the bot's active
    list, with [bye], exactly when the queue is then empty, and says
    [bwtm] otherwise. When the task object says the user did it, the
    task's title is ignored for the user for [BACKOFF_TIME] from now,
    before the sweep, which therefore drops the queued tasks of that
    title; the 2FA result is not looked at, so this is so also when the
    push was refused or never answered. When it says the user did not, no
    row is added to [ignored]. *)
Theorem complete_task_backs_off (self : user_ref) (w : World) (u : User)
    (l : task_ref) (t : Task) (bye bwtm : string) :
  user_objs w !! self = Some u ->
  pending_task u = Some l ->
  task_objs w !! l = Some t ->
  (forall r, In r (tasks u) -> is_Some (task_objs w !! r)) ->
  messages (bot w) !! "bye"%string = Some bye ->
  messages (bot w) !! "bwtm"%string = Some bwtm ->
  let d1 := if performed t
            then ignore_task (utc_now w) (u_name (_user u)) (title t)
                             "auto backoff after confirmation" BACKOFF_TIME (db w)
            else db w in
  let ign := fst (get_ignored (utc_now w / Util.SECOND) (u_name (_user u)) d1) in
  exists w' u',
    _complete_task self w = (Ok tt, w')
    /\ user_objs w' !! self = Some u'
    /\ pending_task u' = None
    /\ _last_message u' = Util.tuple_builder None None
    /\ tasks u' = List.filter (kept ign (task_objs w)) (tasks u)
    /\ (forall r, task_objs w' !! r = after_sweep ign (tasks u) (task_objs w) r)
    /\ (is_Some (alert_status (db w) !! hash t) ->
        alert_status (db w') !! hash t = Some VERIFICATION)
    /\ (if performed t then
          default ∅ (ignored (db w') !! u_name (_user u)) !! title t
          = Some (mk_ignored_row "auto backoff after confirmation"
                                 ((utc_now w + BACKOFF_TIME) / Util.SECOND))
        else
          forall user' title' row,
            default ∅ (ignored (db w') !! user') !! title' = Some row ->
            default ∅ (ignored (db w) !! user') !! title' = Some row)
    /\ match tasks u' with
       | [] => chat_log w' = chat_log w ++ [(ToUser self, Plain bye)]
               /\ active_users (bot w') = delete (u_id (_user u)) (active_users (bot w))
       | _ :: _ => chat_log w' = chat_log w ++ [(ToUser self, Plain bwtm)]
                   /\ active_users (bot w') = active_users (bot w)
       end.
Proof.
  intros Hu Hp Ht Hvalid Hbye Hbwtm d1 ign.
  set (name := u_name (_user u)) in *.
  set (u4 := set_last_message (set_pending_task u None) (Util.tuple_builder None None)).
  set (w4 := set_user_objs (set_db w (set_verifying t d1)) (<[self := u4]> (user_objs w))).
  assert (Hstart : _complete_task self w
                   = (_update_tasks self ;;;
                      u <- the_user self ;;
                      match tasks u with
                      | _ :: _ => send_message self "bwtm"
                      | [] => send_message self "bye" ;;; cleanup_user self
                      end)%py w4).
  { unfold _complete_task. unfold bind at 1. unfold the_user at 1. rewrite Hu.
    unfold bind at 1. unfold the_task at 1. rewrite Hp, Ht.
    unfold bind at 1.
    assert (E1 : (if performed t
                  then (now <- gets utc_now ;;
                        update_db (ignore_task now (u_name (_user u)) (title t)
                                     "auto backoff after confirmation" BACKOFF_TIME))%py
                  else ret tt) w = (Ok tt, set_db w d1)).
    { unfold d1. destruct (performed t); [reflexivity|].
      unfold ret. now destruct w. }
    rewrite E1.
    unfold bind at 1. unfold task_set_verifying at 1, bind at 1, the_task at 1.
    cbn [task_objs set_db]. rewrite Ht. unfold update_db at 1, modify at 1.
    cbn [db set_db].
    unfold bind at 1. unfold update_user at 1. cbn [user_objs set_db]. rewrite Hu.
    unfold bind at 1. unfold _reset_message, update_user at 1.
    cbn [user_objs set_user_objs]. rewrite lookup_insert_eq, insert_insert_eq.
    reflexivity. }
  assert (Hu4 : user_objs w4 !! self = Some u4) by (unfold w4; cbn; apply lookup_insert_eq).
  assert (Hv4 : forall r, In r (tasks u4) -> is_Some (task_objs w4 !! r)).
  { intros r Hr. apply Hvalid. exact Hr. }
  destruct (update_tasks_spec self w4 u4 Hu4 Hv4) as (w5 & E5 & Hb5 & Hc5 & Hu5 & Hi5 & Hs5).
  pose proof (update_tasks_writes self w4 u4 Hu4 Hv4) as Ho5.
  rewrite E5 in Ho5. cbn [snd] in Ho5.
  assert (Hobjs : forall r, task_objs w5 !! r = after_sweep ign (tasks u) (task_objs w) r)
    by exact Ho5.
  clear Ho5.
  assert (Hcl : exists cleaned,
            cleaned = List.filter (kept ign (task_objs w)) (tasks u)
            /\ user_objs w5 = <[self := set_tasks u4 cleaned]> (user_objs w4)).
  { eexists. split; [reflexivity|]. exact Hu5. }
  clear Hu5. destruct Hcl as (cleaned & Hcl & Hu5).
  set (u5 := set_tasks u4 cleaned) in Hu5.
  assert (Hl5 : user_objs w5 !! self = Some u5) by (rewrite Hu5; apply lookup_insert_eq).
  assert (Hstatus : is_Some (alert_status (db w) !! hash t) ->
                    alert_status (db w5) !! hash t = Some VERIFICATION).
  { intros Hs.
    assert (H4s : alert_status (db w4) !! hash t = Some VERIFICATION).
    { unfold w4. cbn [db set_db set_user_objs]. unfold set_verifying, _set_response.
      cbn [alert_status set_user_responses].
      apply (set_status_lookup VERIFICATION t d1).
      unfold d1. destruct (performed t); exact Hs. }
    destruct (Hs5 (hash t)) as [Hk|Hk]; [now rewrite Hk | exact Hk]. }
  assert (Hignored :
    if performed t then
      default ∅ (ignored (db w5) !! name) !! title t
      = Some (mk_ignored_row "auto backoff after confirmation"
                             ((utc_now w + BACKOFF_TIME) / Util.SECOND))
    else
      forall user' title' row,
        default ∅ (ignored (db w5) !! user') !! title' = Some row ->
        default ∅ (ignored (db w) !! user') !! title' = Some row).
  { rewrite Hi5. change (utc_now w4) with (utc_now w). change (u_name (_user u4)) with name.
    unfold d1 in w4. destruct (performed t).
    - apply IgnoredFacts.pruned_rows. unfold w4. cbn [db set_db set_user_objs].
      change (ignored (set_verifying t ?d)) with (ignored d).
      rewrite IgnoredFacts.ignore_task_lookup.
      rewrite bool_decide_eq_true_2 by auto. split; [reflexivity|].
      cbn [i_until]. unfold BACKOFF_TIME, Util.hours, Util.HOUR, Util.MINUTE.
      replace (utc_now w + 21 * (60 * (60 * Util.SECOND)))
        with (utc_now w + 75600 * Util.SECOND) by lia.
      rewrite Z.div_add by (unfold Util.SECOND; lia). lia.
    - intros user' title' row H. apply IgnoredFacts.pruned_rows in H as [H _]. exact H. }
  rewrite Hstart. unfold bind at 1. rewrite E5.
  unfold bind at 1. unfold the_user at 1. rewrite Hl5.
  change (tasks u5) with cleaned.
  subst u5. rewrite <- Hcl. clear Hcl. destruct cleaned as [|c cs].
  - unfold bind at 1. unfold send_message, bind at 1, message at 1. rewrite Hb5.
    change (bot w4) with (bot w). rewrite Hbye.
    unfold chat_send, modify.
    unfold cleanup_user, bind at 1. unfold user_id, bind, the_user.
    cbn [user_objs set_chat_log]. rewrite Hl5. unfold ret, modify.
    eexists. exists (set_tasks u4 []). split; [reflexivity|].
    cbn [user_objs task_objs set_bot set_chat_log db chat_log bot active_users
         set_active_users].
    rewrite Hb5, Hc5. repeat (split; [auto|]). split; reflexivity.
  - unfold send_message, bind, message. rewrite Hb5.
    change (bot w4) with (bot w). rewrite Hbwtm.
    unfold chat_send, modify.
    eexists. exists (set_tasks u4 (c :: cs)). split; [reflexivity|].
    cbn [user_objs task_objs set_chat_log db chat_log bot]. rewrite Hb5, Hc5.
    repeat (split; [auto|]). split; reflexivity.
Qed.

(** alice has said she did it, and her task object says the push was not
    approved; a second alert of the same title waits in her queue. On
    completion the alert goes to verification and its title is ignored for
    her for the next 21 hours; the sweep then takes the second alert out
    of the queue with that reason as its comment, and alice is told bye. *)
Lemma complete_task_backs_off_witness :
  let t := set_performed Scenario.ssh_root true in
  let again := mk_Task "EF56" "ssh_root" "alice" "root login on db" "ssh as root" "N/A"
                       false "" false OPEN in
  let u := set_tasks (set_pending_task (User.new Scenario.alice (Auth.new "alice"))
                                       (Some 0%nat)) [2%nat] in
  let w := set_task_objs (set_user_objs Scenario.world0 {[ Scenario.alice_ref := u ]})
                         (<[0%nat := t]> (<[2%nat := again]> (task_objs Scenario.world0))) in
  authenticated t = false
  /\ exists w',
       _complete_task Scenario.alice_ref w = (Ok tt, w')
       /\ alert_status (db w') !! "AB12"%string = Some VERIFICATION
       /\ default ∅ (ignored (db w') !! "alice"%string) !! "ssh_root"%string
          = Some (mk_ignored_row "auto backoff after confirmation"
                                 ((Scenario.noon + Util.hours 21) / Util.SECOND))
       /\ (tasks <$> user_objs w' !! Scenario.alice_ref) = Some []
       /\ (comment <$> task_objs w' !! 2%nat) = Some "auto backoff after confirmation"%string
       /\ nth_error (chat_log w') 0 = Some (ToUser Scenario.alice_ref, Plain "Bye.").
Proof.
  intros t again u w. split; [reflexivity|].
  destruct (complete_task_backs_off Scenario.alice_ref w u 0%nat t
              "Bye." "But wait, there is more.")
    as (w' & u' & E & Hu' & _ & _ & Hq & Ho & Hs & Hi & Hc).
  - reflexivity.
  - reflexivity.
  - reflexivity.
  - intros r [<-|[]]. vm_compute. eauto.
  - reflexivity.
  - reflexivity.
  - assert (Hq' : tasks u' = []) by (rewrite Hq; vm_compute; reflexivity).
    rewrite Hq' in Hc. destruct Hc as [Hc _].
    exists w'. split; [exact E|]. split; [apply Hs; vm_compute; eauto|].
    split; [exact Hi|].
    split; [etransitivity; [exact (f_equal (fmap tasks) Hu')|]; cbn; now rewrite Hq'|].
    split; [etransitivity; [exact (f_equal (fmap comment) (Ho 2%nat))|];
            vm_compute; reflexivity|].
    rewrite Hc. vm_compute. reflexivity.
Defined.

(** *** Leaving [action_performed_check] *)

Local Abbreviation from_action_performed_check self :=
  [ StateMachine.mk_transition_dict "action_performed_check" "task_finished"
      (Some (_already_authed self)) None;
    StateMachine.mk_transition_dict "action_performed_check" "task_finished"
      (Some (_cannot_2fa self)) (Some (send_message self "no_2fa"));
    StateMachine.mk_transition_dict "action_performed_check" "auth_permission_check"
      (Some (_performed_action self)) None;
    StateMachine.mk_transition_dict "action_performed_check" "task_finished"
      (Some (_did_not_perform_action self)) (Some (_act_on_not_performed self));
    StateMachine.mk_transition_dict "action_performed_check" "task_finished"
      (Some (_slow_response_time self)) (Some (_auto_escalate self)) ].

Lemma set_auth_same (self : user_ref) (w : World) (u : User) :
  user_objs w !! self = Some u ->
  set_user_objs w (<[self := set_auth u (auth u)]> (user_objs w)) = w.
Proof.
  intros Hu. replace (set_auth u (auth u)) with u by (now destruct u).
  rewrite insert_id by exact Hu. now destruct w.
Qed.

(** X20. A user who confirms the action while an earlier push still counts is
    not asked again: the step from [action_performed_check] goes straight
    to [task_finished], with no message and no call for a new push. The
    exit hook records the answer on the task; the task's [authenticated]
    field is not written on this path and keeps the value it was loaded
    with. *)
Theorem confirmed_while_authorized_skips_push (self : user_ref) (w : World) (u : User)
    (l : task_ref) (t : Task) :
  user_objs w !! self = Some u ->
  fsm_state u = "action_performed_check"%string ->
  Util.answer (_last_message u) = Some true ->
  state (auth u) = AUTHORIZED ->
  local_now w - auth_time (auth u) < AUTH_TIME ->
  pending_task u = Some l ->
  task_objs w !! l = Some t ->
  exists t',
    step self w
    = (Ok tt,
       set_user_objs (set_task_objs w (<[l := t']> (task_objs w)))
         (<[self := set_fsm_state (set_last_message u (Util.tuple_builder None None))
                                  "task_finished"]> (user_objs w)))
    /\ performed t' = true
    /\ comment t' = Util.text (_last_message u)
    /\ authenticated t' = authenticated t.
Proof.
  intros Hu Hs Ha Hst Hrecent Hp Ht.
  exists (set_comment (set_performed t true) (Util.text (_last_message u))).
  split; [|auto].
  rewrite (step_as_spec self w u Hu) by (rewrite Hs; in_states).
  rewrite Hs. rewrite StateMachineFacts.step_spec_unfold.
  change (hook (during self) "action_performed_check" w) with (Ok tt, w).
  change (declared_from (transitions self) "action_performed_check")
    with (from_action_performed_check self).
  cbv beta iota.
  assert (Hg : _already_authed self w = (Ok true, w)).
  { unfold _already_authed. unfold bind at 1.
    assert (Hpa : _performed_action self w = (Ok true, w)).
    { cbv [_performed_action bind the_user ret]. now rewrite Hu, Ha. }
    rewrite Hpa. unfold bind at 1. unfold auth_status.
    unfold bind at 1. unfold the_user at 1. rewrite Hu.
    unfold bind at 1, gets at 1. unfold bind at 1, gets at 1.
    assert (Hpoll : Auth.auth_status (duo w) (local_now w) (auth u) = (AUTHORIZED, auth u)).
    { unfold Auth.auth_status, _recently_authed. rewrite Hst.
      apply Z.ltb_lt in Hrecent. rewrite Hrecent. cbn [negb]. now rewrite Hst. }
    rewrite Hpoll. unfold bind at 1. unfold update_user. rewrite Hu.
    rewrite (set_auth_same self w u Hu). reflexivity. }
  next_guard Hg.
  assert (Hexit : _update_task_response self w
                  = (Ok tt,
                     set_user_objs
                       (set_task_objs w
                          (<[l := set_comment (set_performed t true) (Util.text (_last_message u))]>
                             (task_objs w)))
                       (<[self := set_last_message u (Util.tuple_builder None None)]>
                          (user_objs w)))).
  { cbv [_update_task_response _reset_message bind the_user update_user update_task ret].
    rewrite Hu, Hp, Ha, Ht. cbn [task_objs set_task_objs]. rewrite lookup_insert_eq.
    cbn [user_objs set_task_objs]. rewrite Hu, insert_insert_eq. reflexivity. }
  unfold take. cbv [effect StateMachine.d_action from_option id].
  change (hook (on_exit self) "action_performed_check") with (_update_task_response self).
  change (hook (on_enter self) (StateMachine.d_dest _)) with (@ret World unit tt).
  cbv [bind in_world ret modify]. cbn [fst snd]. rewrite Hexit. cbn [fst snd].
  cbn [user_objs set_user_objs]. rewrite lookup_insert_eq.
  cbn [user_objs set_user_objs]. rewrite insert_insert_eq. reflexivity.
Qed.

(** alice was authorized at 11:00 on the bot's clock; at noon she confirms
    her alert and the session finishes the task at once. *)
Lemma confirmed_while_authorized_skips_push_witness :
  let a := mk_DuoAuth "alice" (Some "txid-1") (Scenario.noon - Util.hours 8) AUTHORIZED in
  let u := mk_User Scenario.alice [] (Some 0%nat) a (Util.mk_response (Some true) "it was me")
                   NONE datetime_max_utc "action_performed_check" in
  let w := set_user_objs Scenario.world0 {[ Scenario.alice_ref := u ]} in
  exists w',
    step Scenario.alice_ref w = (Ok tt, w')
    /\ chat_log w' = []
    /\ (fsm_state <$> user_objs w' !! Scenario.alice_ref) = Some "task_finished"%string.
Proof.
  intros a u w.
  destruct (confirmed_while_authorized_skips_push Scenario.alice_ref w u 0%nat
              Scenario.ssh_root) as (t' & E & _).
  - reflexivity.
  - reflexivity.
  - reflexivity.
  - reflexivity.
  - vm_compute. reflexivity.
  - reflexivity.
  - reflexivity.
  - eexists. split; [exact E|]. split; [reflexivity|].
    cbn [user_objs set_user_objs]. rewrite lookup_insert_eq. reflexivity.
Defined.

(** *** The deadline *)

(** X21. A user who has not answered when the deadline has passed: the step
    from [action_performed_check] or [auth_permission_check] escalates in
    silence. The note is appended to the task's comment as it stands,
    without a separator; the task goes to verification with that comment;
    the deadline is put back to [datetime.max]; the user is told
    [no_response]; and the session is in [task_finished]. *)
Theorem overdue_step_escalates (self : user_ref) (w : World) (u : User)
    (l : task_ref) (t : Task) (m : string) :
  user_objs w !! self = Some u ->
  fsm_state u = "action_performed_check"%string
  \/ fsm_state u = "auth_permission_check"%string ->
  Util.answer (_last_message u) = None ->
  Util.utc_instant (_escalation_time u) < utc_now w ->
  pending_task u = Some l ->
  task_objs w !! l = Some t ->
  messages (bot w) !! "no_response"%string = Some m ->
  let t' := set_comment t (comment t +:+ "Automatically escalated. No response received.") in
  step self w
  = (Ok tt,
     set_user_objs
       (set_chat_log
          (set_db (set_task_objs w (<[l := t']> (task_objs w))) (set_verifying t' (db w)))
          (chat_log w ++ [(ToUser self, Plain m)]))
       (<[self := mk_User (_user u) (tasks u) (pending_task u) (auth u)
                          (Util.tuple_builder None None) (_last_auth u) datetime_max_utc
                          "task_finished"]> (user_objs w))).
Proof.
  intros Hu Hs Ha Hlate Hp Ht Hm t'.
  assert (Hsta : fsm_state u ∈ states) by (destruct Hs as [-> | ->]; in_states).
  rewrite (step_as_spec self w u Hu Hsta).
  assert (Hpa : _performed_action self w = (Ok false, w)).
  { cbv [_performed_action bind the_user ret]. now rewrite Hu, Ha. }
  assert (Hn : _did_not_perform_action self w = (Ok false, w)).
  { cbv [_did_not_perform_action bind the_user ret]. now rewrite Hu, Ha. }
  assert (Haa : _already_authed self w = (Ok false, w)).
  { unfold _already_authed, bind. now rewrite Hpa. }
  assert (Hc2 : _cannot_2fa self w = (Ok false, w)).
  { unfold _cannot_2fa, bind. now rewrite Hpa. }
  assert (Hal : _allows_authorization self w = (Ok false, w)).
  { cbv [_allows_authorization bind the_user ret]. now rewrite Hu, Ha. }
  assert (Hde : _denies_authorization self w = (Ok false, w)).
  { cbv [_denies_authorization bind the_user ret]. now rewrite Hu, Ha. }
  assert (Hslow : _slow_response_time self w = (Ok true, w)).
  { cbv [_slow_response_time bind the_user gets ret]. rewrite Hu.
    apply Z.ltb_lt in Hlate. now rewrite Hlate. }
  set (u1 := set_escalation_time u datetime_max_utc).
  set (w1 := set_user_objs
               (set_db (set_task_objs w (<[l := t']> (task_objs w))) (set_verifying t' (db w)))
               (<[self := u1]> (user_objs w))).
  set (w2 := set_chat_log w1 (chat_log w ++ [(ToUser self, Plain m)])).
  assert (Hesc : _auto_escalate self w = (Ok tt, w2)).
  { unfold _auto_escalate. unfold bind at 1. unfold the_user at 1. rewrite Hu.
    unfold bind at 1. unfold the_task at 1. rewrite Hp, Ht.
    unfold bind at 1. unfold update_task at 1. rewrite Ht. fold t'.
    unfold bind at 1. unfold task_set_verifying at 1, bind at 1, the_task at 1.
    cbn [task_objs set_task_objs]. rewrite lookup_insert_eq.
    unfold update_db at 1, modify at 1. cbn [db set_task_objs].
    unfold bind at 1. unfold update_user at 1. cbn [user_objs set_db set_task_objs].
    rewrite Hu. fold u1. fold w1.
    unfold send_message, bind, message. change (bot w1) with (bot w). rewrite Hm.
    reflexivity. }
  assert (Hu2 : user_objs w2 !! self = Some u1).
  { unfold w2, w1. cbn. apply lookup_insert_eq. }
  assert (Hreset : _reset_message self w2
                   = (Ok tt, set_user_objs w2
                               (<[self := set_last_message u1 (Util.tuple_builder None None)]>
                                  (user_objs w)))).
  { unfold _reset_message, update_user. rewrite Hu2.
    unfold w2 at 2, w1. cbn [user_objs set_user_objs set_chat_log].
    now rewrite insert_insert_eq. }
  assert (Hresp : _update_task_response self w2 = _reset_message self w2).
  { unfold _update_task_response. unfold bind at 1. unfold the_user at 1. rewrite Hu2.
    change (Util.answer (_last_message u1)) with (Util.answer (_last_message u)).
    rewrite Ha. reflexivity. }
  destruct Hs as [Hs | Hs]; rewrite Hs; rewrite StateMachineFacts.step_spec_unfold.
  - change (hook (during self) "action_performed_check" w) with (Ok tt, w).
    change (declared_from (transitions self) "action_performed_check")
      with (from_action_performed_check self).
    cbv beta iota.
    next_guard Haa. next_guard Hc2. next_guard Hpa. next_guard Hn. next_guard Hslow.
    unfold take. cbv [effect StateMachine.d_action from_option id].
    change (hook (on_exit self) "action_performed_check") with (_update_task_response self).
    change (hook (on_enter self) (StateMachine.d_dest _)) with (@ret World unit tt).
    cbv [bind in_world ret modify]. cbn [fst snd]. rewrite Hesc. cbn [fst snd].
    rewrite Hresp, Hreset. cbn [fst snd user_objs set_user_objs].
    rewrite lookup_insert_eq. cbn [user_objs set_user_objs]. rewrite insert_insert_eq.
    subst w2 w1 u1. reflexivity.
  - change (hook (during self) "auth_permission_check" w) with (Ok tt, w).
    change (declared_from (transitions self) "auth_permission_check")
      with [ StateMachine.mk_transition_dict "auth_permission_check" "waiting_on_auth"
               (Some (_allows_authorization self)) None;
             StateMachine.mk_transition_dict "auth_permission_check" "task_finished"
               (Some (_denies_authorization self)) (Some (send_message self "escalated"));
             StateMachine.mk_transition_dict "auth_permission_check" "task_finished"
               (Some (_slow_response_time self)) (Some (_auto_escalate self)) ].
    cbv beta iota.
    next_guard Hal. next_guard Hde. next_guard Hslow.
    unfold take. cbv [effect StateMachine.d_action from_option id].
    change (hook (on_exit self) "auth_permission_check") with (_reset_message self).
    change (hook (on_enter self) (StateMachine.d_dest _)) with (@ret World unit tt).
    cbv [bind in_world ret modify]. cbn [fst snd]. rewrite Hesc. cbn [fst snd].
    rewrite Hreset. cbn [fst snd user_objs set_user_objs].
    rewrite lookup_insert_eq. cbn [user_objs set_user_objs]. rewrite insert_insert_eq.
    subst w2 w1 u1. reflexivity.
Qed.

(** alice is alerted at noon and does not answer: the step just after
    14:00 escalates her alert. *)
Lemma overdue_step_escalates_witness :
  let w := SessionSpec.set_utc_now Scenario.alice_pending (Scenario.noon + Util.hours 2 + 1) in
  exists w',
    step Scenario.alice_ref w = (Ok tt, w')
    /\ (comment <$> task_objs w' !! 0%nat)
       = Some "Automatically escalated. No response received."%string
    /\ alert_status (db w') !! "AB12"%string = Some VERIFICATION
    /\ (fsm_state <$> user_objs w' !! Scenario.alice_ref) = Some "task_finished"%string.
Proof.
  intros w. eexists. split.
  - apply (overdue_step_escalates Scenario.alice_ref w
             (mk_User Scenario.alice [] (Some 0%nat) (Auth.new "alice")
                      (Util.tuple_builder None None) NONE
                      (Util.mk_datetime (Scenario.noon + Util.hours 2) (Some Util.pytz_utc))
                      "action_performed_check")
             0%nat Scenario.ssh_root "No response.").
    + vm_compute. reflexivity.
    + left. reflexivity.
    + reflexivity.
    + vm_compute. reflexivity.
    + reflexivity.
    + vm_compute. reflexivity.
    + vm_compute. reflexivity.
  - cbn [task_objs user_objs db set_user_objs set_chat_log set_db set_task_objs].
    rewrite !lookup_insert_eq. split; [reflexivity|]. split; [|reflexivity].
    vm_compute. reflexivity.
Defined.

(** *** The answer of the 2FA service *)

(** Taking a transition, hook by hook. *)
Lemma take_unfold (self : user_ref) (t : StateMachine.transition_dict World) (cur : string)
    (w : World) :
  take (on_enter self) (on_exit self) t cur (cur, w)
  = match effect t w with
    | (Ok _, w1) =>
        match hook (on_exit self) cur w1 with
        | (Ok _, w2) =>
            let '(r, w3) := hook (on_enter self) (StateMachine.d_dest t) w2 in
            (r, (StateMachine.d_dest t, w3))
        | (Raise e, w2) => (Raise e, (cur, w2))
        end
    | (Raise e, w1) => (Raise e, (cur, w1))
    end.
Proof.
  unfold take. cbv [bind in_world modify]. cbn [fst snd].
  destruct (effect t w) as [[[]|e] w1]; cbn [fst snd]; [|reflexivity].
  destruct (hook (on_exit self) cur w1) as [[[]|e] w2]; cbn [fst snd]; [|reflexivity].
  destruct (hook (on_enter self) (StateMachine.d_dest t) w2) as [r w3]. reflexivity.
Qed.

(** The step of a session in [waiting_on_auth], as one equation. *)
Lemma waiting_on_auth_step (self : user_ref) (w : World) (u : User)
    (l : task_ref) (t : Task) (good bad : string) :
  user_objs w !! self = Some u ->
  fsm_state u = "waiting_on_auth"%string ->
  pending_task u = Some l ->
  task_objs w !! l = Some t ->
  messages (bot w) !! "good_auth"%string = Some good ->
  messages (bot w) !! "bad_auth"%string = Some bad ->
  let r := fst (Auth.auth_status (duo w) (local_now w) (auth u)) in
  let a := snd (Auth.auth_status (duo w) (local_now w) (auth u)) in
  let u1 := set_last_auth (set_auth u a) r in
  step self w
  = (Ok tt,
     match r with
     | AUTHORIZED =>
         set_user_objs
           (set_task_objs (set_chat_log w (chat_log w ++ [(ToUser self, Plain good)]))
                          (<[l := set_authenticated t true]> (task_objs w)))
           (<[self := set_fsm_state u1 "task_finished"]> (user_objs w))
     | DENIED =>
         set_user_objs
           (set_task_objs (set_chat_log w (chat_log w ++ [(ToUser self, Plain bad)]))
                          (<[l := set_authenticated t false]> (task_objs w)))
           (<[self := set_fsm_state (set_auth u1 (Auth.reset a)) "task_finished"]>
              (user_objs w))
     | _ => set_user_objs w (<[self := set_fsm_state u1 "waiting_on_auth"]> (user_objs w))
     end).
Proof.
  intros Hu Hs Hp Ht Hgood Hbad r a u1.
  rewrite (step_as_spec self w u Hu) by (rewrite Hs; in_states).
  rewrite Hs. rewrite StateMachineFacts.step_spec_unfold.
  set (w1 := set_user_objs w (<[self := u1]> (user_objs w))).
  assert (Hduring : _update_auth self w = (Ok tt, w1)).
  { unfold _update_auth. unfold bind at 1. unfold auth_status.
    unfold bind at 1. unfold the_user at 1. rewrite Hu.
    unfold bind at 1, gets at 1. unfold bind at 1, gets at 1.
    rewrite (surjective_pairing (Auth.auth_status (duo w) (local_now w) (auth u))).
    fold r. fold a. unfold bind at 1. unfold update_user at 1. rewrite Hu.
    unfold ret at 1. unfold update_user. cbn [user_objs set_user_objs].
    rewrite lookup_insert_eq, insert_insert_eq. reflexivity. }
  change (hook (during self) "waiting_on_auth") with (_update_auth self).
  rewrite Hduring. cbv beta iota.
  change (declared_from (transitions self) "waiting_on_auth")
    with [ StateMachine.mk_transition_dict "waiting_on_auth" "task_finished"
             (Some (_auth_completed self)) None ].
  assert (Hu1 : user_objs w1 !! self = Some u1) by (unfold w1; cbn; apply lookup_insert_eq).
  assert (Hg : _auth_completed self w1
               = (Ok (bool_decide (r = AUTHORIZED) || bool_decide (r = DENIED)), w1)).
  { cbv [_auth_completed bind the_user ret]. rewrite Hu1. reflexivity. }
  rewrite StateMachineFacts.choose_and_take_cons.
  cbv [guard StateMachine.d_condition from_option id]. rewrite Hg.
  assert (Hidle : choose_and_take (on_enter self) (on_exit self) [] "waiting_on_auth"
                    ("waiting_on_auth"%string, w1)
                  = (Ok tt, ("waiting_on_auth"%string, w1))) by reflexivity.
  rewrite take_unfold. cbv [effect StateMachine.d_action from_option id ret].
  change (hook (on_exit self) "waiting_on_auth") with (_update_task_auth self).
  change (hook (on_enter self) (StateMachine.d_dest _)) with (@ret World unit tt).
  assert (Hexit : _update_task_auth self w1
                  = if bool_decide (r = AUTHORIZED) then
                      (Ok tt,
                       set_task_objs
                         (set_chat_log w1 (chat_log w ++ [(ToUser self, Plain good)]))
                         (<[l := set_authenticated t true]> (task_objs w)))
                    else
                      (Ok tt,
                       set_task_objs
                         (set_user_objs
                            (set_chat_log w1 (chat_log w ++ [(ToUser self, Plain bad)]))
                            (<[self := set_auth u1 (Auth.reset a)]> (user_objs w)))
                         (<[l := set_authenticated t false]> (task_objs w)))).
  { unfold _update_task_auth. unfold bind at 1. unfold the_user at 1. rewrite Hu1.
    change (_last_auth u1) with r. change (pending_task u1) with (pending_task u).
    rewrite Hp.
    destruct (bool_decide (r = AUTHORIZED)).
    - unfold bind at 1. unfold send_message, bind at 1, message at 1.
      change (bot w1) with (bot w). rewrite Hgood. unfold chat_send, modify.
      unfold update_task. cbn [task_objs set_chat_log]. change (task_objs w1) with (task_objs w).
      rewrite Ht. reflexivity.
    - unfold bind at 1. unfold send_message, bind at 1, message at 1.
      change (bot w1) with (bot w). rewrite Hbad. unfold chat_send, modify.
      unfold bind at 1. unfold reset_auth, update_user.
      cbn [user_objs set_chat_log]. rewrite Hu1.
      unfold update_task. cbn [task_objs set_user_objs set_chat_log].
      change (task_objs w1) with (task_objs w). rewrite Ht.
      unfold w1. cbn [user_objs set_user_objs chat_log set_chat_log].
      rewrite insert_insert_eq. reflexivity. }
  unfold ret. rewrite Hexit, Hidle. clear Hduring Hg Hexit Hidle.
  clearbody r a. destruct r.
  - rewrite !bool_decide_eq_false_2 by discriminate. cbn [orb]. cbv beta iota.
    rewrite Hu1. unfold w1. cbn [user_objs set_user_objs].
    rewrite insert_insert_eq. reflexivity.
  - rewrite !bool_decide_eq_false_2 by discriminate. cbn [orb]. cbv beta iota.
    rewrite Hu1. unfold w1. cbn [user_objs set_user_objs].
    rewrite insert_insert_eq. reflexivity.
  - rewrite !(bool_decide_eq_true_2 (AUTHORIZED = AUTHORIZED)) by reflexivity.
    cbn [orb]. cbv beta iota.
    cbn [user_objs set_user_objs set_task_objs set_chat_log]. rewrite Hu1.
    unfold w1. cbn [user_objs set_user_objs]. rewrite insert_insert_eq. reflexivity.
  - rewrite !(bool_decide_eq_false_2 (DENIED = AUTHORIZED)) by discriminate.
    rewrite !(bool_decide_eq_true_2 (DENIED = DENIED)) by reflexivity.
    cbn [orb]. cbv beta iota.
    cbn [user_objs set_user_objs set_task_objs set_chat_log]. rewrite lookup_insert_eq.
    unfold w1. cbn [user_objs set_user_objs]. rewrite insert_insert_eq. reflexivity.
Qed.

(** X24. The step of a session in [waiting_on_auth] keeps what
    [auth_status()] returns, through [_update_auth], as [_last_auth], and
    the auth object as that poll leaves it. While the answer is [PENDING]
    (or [NONE]) nothing else changes and the session waits on. On
    [AUTHORIZED] the user is told [good_auth] and the pending task gets
    [authenticated = True]; on [DENIED] the user is told [bad_auth], the
    auth object is reset and the task gets [authenticated = False]; in
    both cases the session enters [task_finished] and the task's other
    fields stay as they are. So a task is marked authenticated only by a
    poll that returned [AUTHORIZED]. *)
Theorem waiting_on_auth_step_records_answer (self : user_ref) (w : World) (u : User)
    (l : task_ref) (t : Task) (good bad : string) :
  user_objs w !! self = Some u ->
  fsm_state u = "waiting_on_auth"%string ->
  pending_task u = Some l ->
  task_objs w !! l = Some t ->
  messages (bot w) !! "good_auth"%string = Some good ->
  messages (bot w) !! "bad_auth"%string = Some bad ->
  let r := fst (Auth.auth_status (duo w) (local_now w) (auth u)) in
  let a := snd (Auth.auth_status (duo w) (local_now w) (auth u)) in
  let u1 := set_last_auth (set_auth u a) r in
  exists w',
    step self w = (Ok tt, w')
    /\ (r <> AUTHORIZED -> r <> DENIED ->
        w' = set_user_objs w (<[self := set_fsm_state u1 "waiting_on_auth"]> (user_objs w)))
    /\ (r = AUTHORIZED \/ r = DENIED ->
        exists t',
          w' = set_user_objs
                 (set_task_objs
                    (set_chat_log w
                       (chat_log w ++ [(ToUser self,
                                        Plain (if bool_decide (r = AUTHORIZED)
                                               then good else bad))]))
                    (<[l := t']> (task_objs w)))
                 (<[self := set_fsm_state
                              (if bool_decide (r = AUTHORIZED) then u1
                               else set_auth u1 (Auth.reset a))
                              "task_finished"]> (user_objs w))
          /\ authenticated t' = bool_decide (r = AUTHORIZED)
          /\ performed t' = performed t
          /\ comment t' = comment t
          /\ status t' = status t
          /\ (hash t', title t', Tasker.username t') = (hash t, title t, Tasker.username t)
          /\ (reason t', description t', url t') = (reason t, description t, url t)).
Proof.
  intros Hu Hs Hp Ht Hgood Hbad r a u1.
  pose proof (waiting_on_auth_step self w u l t good bad Hu Hs Hp Ht Hgood Hbad) as E.
  cbv zeta in E. fold r a in E. fold u1 in E.
  eexists. split; [exact E|]. split.
  - intros H1 H2. destruct r; try reflexivity; contradiction.
  - intros [Hr|Hr]; rewrite Hr.
    + exists (set_authenticated t true). repeat split.
    + exists (set_authenticated t false). repeat split.
Qed.

(** alice has agreed to a push and the service has approved it: the next
    step marks her task as authenticated and finishes it. *)
Lemma waiting_on_auth_step_records_answer_witness :
  let w := Scenario.session_end Scenario.alice_ref
             [ Bot._add_task 0%nat; User.positive_response Scenario.alice_ref "I did this";
               User.positive_response Scenario.alice_ref "" ] Scenario.world0 in
  (authenticated <$> task_objs w !! 0%nat) = Some false
  /\ exists w',
    step Scenario.alice_ref w = (Ok tt, w')
    /\ (authenticated <$> task_objs w' !! 0%nat) = Some true
    /\ (fsm_state <$> user_objs w' !! Scenario.alice_ref) = Some "task_finished"%string.
Proof.
  intros w. split; [vm_compute; reflexivity|].
  destruct (user_objs w !! Scenario.alice_ref) as [u|] eqn:Eu;
    [|vm_compute in Eu; discriminate].
  destruct (task_objs w !! 0%nat) as [t|] eqn:Et; [|vm_compute in Et; discriminate].
  assert (Eu' := Eu). vm_compute in Eu'. injection Eu' as Hu'.
  assert (Hr : fst (Auth.auth_status (duo w) (local_now w) (auth u)) = AUTHORIZED)
    by (rewrite <- Hu'; vm_compute; reflexivity).
  destruct (waiting_on_auth_step_records_answer Scenario.alice_ref w u 0%nat t
              "Thanks." "Denied." Eu) as (w' & E & _ & H).
  - rewrite <- Hu'; reflexivity.
  - rewrite <- Hu'; reflexivity.
  - exact Et.
  - vm_compute; reflexivity.
  - vm_compute; reflexivity.
  - destruct (H (or_introl Hr)) as (t' & Hw & Ha & _).
    rewrite Hr in Ha, Hw.
    rewrite (bool_decide_eq_true_2 (AUTHORIZED = AUTHORIZED)) in Ha, Hw by reflexivity.
    subst w'. eexists. split; [exact E|].
    cbn [task_objs user_objs set_user_objs set_task_objs set_chat_log].
    rewrite !lookup_insert_eq. cbn [fmap option_fmap option_map].
    rewrite Ha. split; reflexivity.
Defined.

(** *** The answers yes and no *)

(** X25. A user who answers that they did not do it: the step from
    [action_performed_check] tells the user [escalated], reports to the
    reporting channel, when the bot has one, the user's name, the task's
    title, description and url and the user's comment, quoted ([No comment
    provided.] when there is none), records [performed = False] and the
    comment on the task, and enters [task_finished]. No push is sent and
    the tables are not written in this step. *)
Theorem denial_is_reported (self : user_ref) (w : World) (u : User)
    (l : task_ref) (t : Task) (escalated report : string) :
  user_objs w !! self = Some u ->
  fsm_state u = "action_performed_check"%string ->
  Util.answer (_last_message u) = Some false ->
  pending_task u = Some l ->
  task_objs w !! l = Some t ->
  messages (bot w) !! "escalated"%string = Some escalated ->
  messages (bot w) !! "report"%string = Some report ->
  exists t',
    step self w
    = (Ok tt,
       set_user_objs
         (set_task_objs
            (set_chat_log w
               (chat_log w ++ (ToUser self, Plain escalated) ::
                  match reporting_channel (bot w) with
                  | Some ch =>
                      [(ToChannel ch,
                        Format report
                          [u_name (_user u); title t; description t;
                           SessionSpec.quoted_comment (Util.text (_last_message u)); url t])]
                  | None => []
                  end))
            (<[l := t']> (task_objs w)))
         (<[self := set_fsm_state (set_last_message u (Util.tuple_builder None None))
                                  "task_finished"]> (user_objs w)))
    /\ performed t' = false
    /\ comment t' = Util.text (_last_message u)
    /\ authenticated t' = authenticated t
    /\ status t' = status t
    /\ (hash t', title t', Tasker.username t') = (hash t, title t, Tasker.username t)
    /\ (reason t', description t', url t') = (reason t, description t, url t).
Proof.
  intros Hu Hs Ha Hp Ht Hesc Hrep.
  exists (set_comment (set_performed t false) (Util.text (_last_message u))).
  split; [|repeat split].
  rewrite (step_as_spec self w u Hu) by (rewrite Hs; in_states).
  rewrite Hs. rewrite StateMachineFacts.step_spec_unfold.
  change (hook (during self) "action_performed_check" w) with (Ok tt, w).
  change (declared_from (transitions self) "action_performed_check")
    with (from_action_performed_check self).
  cbv beta iota.
  assert (Hpa : _performed_action self w = (Ok false, w)).
  { cbv [_performed_action bind the_user ret]. now rewrite Hu, Ha. }
  assert (Haa : _already_authed self w = (Ok false, w)).
  { unfold _already_authed, bind. now rewrite Hpa. }
  assert (Hc2 : _cannot_2fa self w = (Ok false, w)).
  { unfold _cannot_2fa, bind. now rewrite Hpa. }
  assert (Hn : _did_not_perform_action self w = (Ok true, w)).
  { cbv [_did_not_perform_action bind the_user ret]. now rewrite Hu, Ha. }
  next_guard Haa. next_guard Hc2. next_guard Hpa. next_guard Hn.
  set (log := chat_log w ++ (ToUser self, Plain escalated) ::
                match reporting_channel (bot w) with
                | Some ch =>
                    [(ToChannel ch,
                      Format report
                        [u_name (_user u); title t; description t;
                         SessionSpec.quoted_comment (Util.text (_last_message u)); url t])]
                | None => []
                end).
  assert (Hact : _act_on_not_performed self w = (Ok tt, set_chat_log w log)).
  { unfold _act_on_not_performed. unfold bind at 1.
    unfold send_message, bind at 1, message at 1. rewrite Hesc.
    unfold chat_send at 1, modify at 1.
    unfold bind at 1, gets at 1. cbn [bot set_chat_log]. unfold log.
    destruct (reporting_channel (bot w)) as [ch|].
    - unfold bind at 1. unfold the_user at 1. cbn [user_objs set_chat_log]. rewrite Hu.
      unfold bind at 1, message at 1. cbn [bot set_chat_log]. rewrite Hrep.
      unfold bind at 1. unfold the_task at 1. rewrite Hp.
      cbn [task_objs set_chat_log]. rewrite Ht.
      unfold chat_send, modify. cbn [chat_log set_chat_log].
      rewrite <- app_assoc. reflexivity.
    - reflexivity. }
  assert (Hexit : _update_task_response self (set_chat_log w log)
                  = (Ok tt,
                     set_user_objs
                       (set_task_objs (set_chat_log w log)
                          (<[l := set_comment (set_performed t false)
                                              (Util.text (_last_message u))]> (task_objs w)))
                       (<[self := set_last_message u (Util.tuple_builder None None)]>
                          (user_objs w)))).
  { cbv [_update_task_response _reset_message bind the_user update_user update_task ret].
    change (user_objs (set_chat_log w log)) with (user_objs w). rewrite Hu, Hp, Ha.
    change (task_objs (set_chat_log w log)) with (task_objs w). rewrite Ht.
    cbn [task_objs set_task_objs]. rewrite lookup_insert_eq.
    cbn [user_objs set_task_objs set_chat_log]. rewrite Hu, insert_insert_eq. reflexivity. }
  rewrite take_unfold. cbv [effect StateMachine.d_action from_option id].
  rewrite Hact.
  change (hook (on_exit self) "action_performed_check") with (_update_task_response self).
  rewrite Hexit.
  change (hook (on_enter self) (StateMachine.d_dest _)) with (@ret World unit tt).
  unfold ret. cbv beta iota. cbn [user_objs set_user_objs]. rewrite lookup_insert_eq.
  cbn [user_objs set_user_objs]. rewrite insert_insert_eq. reflexivity.
Qed.

(** alice answers [no I did not] to an alert whose object says she did:
    the security channel gets the report, and the object then says she
    did not. *)
Lemma denial_is_reported_witness :
  let w0 := snd (User.negative_response Scenario.alice_ref "I did not"
                   Scenario.alice_pending) in
  let w := set_task_objs w0 (<[0%nat := set_performed Scenario.ssh_root true]>
                               (task_objs w0)) in
  (performed <$> task_objs w !! 0%nat) = Some true
  /\ exists w',
    step Scenario.alice_ref w = (Ok tt, w')
    /\ nth_error (chat_log w') 3
       = Some (ToChannel "C-security",
               Format "{username} {title} {description} {comment} {url}"
                      ["alice"; "ssh_root"; "ssh as root"; "> I did not"; "N/A"]%string)
    /\ (performed <$> task_objs w' !! 0%nat) = Some false
    /\ (comment <$> task_objs w' !! 0%nat) = Some "I did not"%string.
Proof.
  intros w0 w. split; [vm_compute; reflexivity|].
  destruct (user_objs w !! Scenario.alice_ref) as [u|] eqn:Eu;
    [|vm_compute in Eu; discriminate].
  assert (Eu' := Eu). vm_compute in Eu'. injection Eu' as Hu'.
  destruct (denial_is_reported Scenario.alice_ref w u 0%nat
              (set_performed Scenario.ssh_root true)
              "Escalated." "{username} {title} {description} {comment} {url}" Eu)
    as (t' & Hstep & Hperf & Hcomm & _).
  - rewrite <- Hu'; reflexivity.
  - rewrite <- Hu'; reflexivity.
  - rewrite <- Hu'; reflexivity.
  - vm_compute; reflexivity.
  - vm_compute; reflexivity.
  - vm_compute; reflexivity.
  - eexists. split; [exact Hstep|].
    cbn [task_objs chat_log set_user_objs set_task_objs set_chat_log].
    rewrite lookup_insert_eq. cbn [fmap option_fmap option_map].
    rewrite Hperf, Hcomm. split; [|split; [reflexivity|]].
    + rewrite <- Hu'. vm_compute. reflexivity.
    + rewrite <- Hu'. reflexivity.
Defined.

(** X26. A user who answers that they did it, when no earlier push counts:
    the first condition examined, [_already_authed], polls the 2FA
    service, and what the poll leaves of the auth object stays. If the
    user has no device that takes a push, they are told [no_2fa] and the
    session enters [task_finished]; otherwise it enters
    [auth_permission_check] and asks [2fa]. Either way the exit hook
    records [performed = True] and the comment on the task, and
    [authenticated] is not written. *)
Theorem confirmation_asks_for_push (self : user_ref) (w : World) (u : User)
    (l : task_ref) (t : Task) (no_2fa ask_2fa : string) :
  user_objs w !! self = Some u ->
  fsm_state u = "action_performed_check"%string ->
  Util.answer (_last_message u) = Some true ->
  pending_task u = Some l ->
  task_objs w !! l = Some t ->
  messages (bot w) !! "no_2fa"%string = Some no_2fa ->
  messages (bot w) !! "2fa"%string = Some ask_2fa ->
  fst (Auth.auth_status (duo w) (local_now w) (auth u)) <> AUTHORIZED ->
  let a := snd (Auth.auth_status (duo w) (local_now w) (auth u)) in
  let can := Auth.can_auth (duo w) a in
  exists t',
    step self w
    = (Ok tt,
       set_user_objs
         (set_task_objs
            (set_chat_log w
               (chat_log w ++ [(ToUser self, Plain (if can then ask_2fa else no_2fa))]))
            (<[l := t']> (task_objs w)))
         (<[self := set_fsm_state
                      (set_last_message (set_auth u a) (Util.tuple_builder None None))
                      (if can then "auth_permission_check" else "task_finished")]>
            (user_objs w)))
    /\ performed t' = true
    /\ comment t' = Util.text (_last_message u)
    /\ authenticated t' = authenticated t
    /\ status t' = status t
    /\ (hash t', title t', Tasker.username t') = (hash t, title t, Tasker.username t)
    /\ (reason t', description t', url t') = (reason t, description t, url t).
Proof.
  intros Hu Hs Ha Hp Ht Hno Hask Hr a can.
  exists (set_comment (set_performed t true) (Util.text (_last_message u))).
  split; [|repeat split].
  rewrite (step_as_spec self w u Hu) by (rewrite Hs; in_states).
  rewrite Hs. rewrite StateMachineFacts.step_spec_unfold.
  change (hook (during self) "action_performed_check" w) with (Ok tt, w).
  change (declared_from (transitions self) "action_performed_check")
    with (from_action_performed_check self).
  cbv beta iota.
  set (u1 := set_auth u a).
  set (w1 := set_user_objs w (<[self := u1]> (user_objs w))).
  assert (Hu1 : user_objs w1 !! self = Some u1) by (unfold w1; cbn; apply lookup_insert_eq).
  assert (Haa : _already_authed self w = (Ok false, w1)).
  { unfold _already_authed. unfold bind at 1.
    assert (Hpa : _performed_action self w = (Ok true, w)).
    { cbv [_performed_action bind the_user ret]. now rewrite Hu, Ha. }
    rewrite Hpa. unfold bind at 1. unfold auth_status.
    unfold bind at 1. unfold the_user at 1. rewrite Hu.
    unfold bind at 1, gets at 1. unfold bind at 1, gets at 1.
    rewrite (surjective_pairing (Auth.auth_status (duo w) (local_now w) (auth u))).
    fold a. unfold bind at 1. unfold update_user. rewrite Hu. fold u1. fold w1.
    unfold ret. now rewrite bool_decide_eq_false_2 by exact Hr. }
  assert (Hpa1 : _performed_action self w1 = (Ok true, w1)).
  { cbv [_performed_action bind the_user ret]. rewrite Hu1.
    change (_last_message u1) with (_last_message u). now rewrite Ha. }
  assert (Hc2 : _cannot_2fa self w1 = (Ok (negb can), w1)).
  { unfold _cannot_2fa. unfold bind at 1. rewrite Hpa1.
    cbv [bind the_user gets ret]. rewrite Hu1. reflexivity. }
  assert (Hexit : forall log,
    _update_task_response self (set_chat_log w1 log)
    = (Ok tt,
       set_user_objs
         (set_task_objs (set_chat_log w1 log)
            (<[l := set_comment (set_performed t true) (Util.text (_last_message u))]>
               (task_objs w)))
         (<[self := set_last_message u1 (Util.tuple_builder None None)]> (user_objs w)))).
  { intros log.
    cbv [_update_task_response _reset_message bind the_user update_user update_task ret].
    change (user_objs (set_chat_log w1 log)) with (user_objs w1). rewrite Hu1.
    change (pending_task u1) with (pending_task u).
    change (_last_message u1) with (_last_message u). rewrite Hp, Ha.
    change (task_objs (set_chat_log w1 log)) with (task_objs w). rewrite Ht.
    cbn [task_objs set_task_objs]. rewrite lookup_insert_eq.
    cbn [user_objs set_task_objs set_chat_log]. rewrite Hu1.
    unfold w1. cbn [user_objs set_user_objs set_chat_log set_task_objs].
    rewrite !insert_insert_eq. reflexivity. }
  next_guard Haa.
  rewrite StateMachineFacts.choose_and_take_cons.
  cbv [guard StateMachine.d_condition from_option id]. rewrite Hc2.
  destruct can; cbn [negb]; cbv beta iota.
  - next_guard Hpa1. rewrite take_unfold.
    cbv [effect StateMachine.d_action from_option id ret].
    change (hook (on_exit self) "action_performed_check") with (_update_task_response self).
    change (_update_task_response self w1)
      with (_update_task_response self (set_chat_log w1 (chat_log w1))).
    rewrite Hexit.
    change (hook (on_enter self) (StateMachine.d_dest _)) with (send_message self "2fa").
    unfold send_message, bind, message.
    cbn [bot set_user_objs set_task_objs set_chat_log]. change (bot w1) with (bot w).
    rewrite Hask. unfold chat_send, modify. cbn [fst snd].
    cbn [user_objs chat_log set_user_objs set_task_objs set_chat_log].
    rewrite lookup_insert_eq. cbn [user_objs set_user_objs]. rewrite insert_insert_eq.
    reflexivity.
  - rewrite take_unfold. cbv [effect StateMachine.d_action from_option id].
    assert (Hsend : send_message self "no_2fa" w1
                    = (Ok tt, set_chat_log w1 (chat_log w ++ [(ToUser self, Plain no_2fa)]))).
    { unfold send_message, bind, message. change (bot w1) with (bot w). now rewrite Hno. }
    rewrite Hsend.
    change (hook (on_exit self) "action_performed_check") with (_update_task_response self).
    rewrite Hexit.
    change (hook (on_enter self) (StateMachine.d_dest _)) with (@ret World unit tt).
    unfold ret. cbv beta iota.
    cbn [user_objs chat_log set_user_objs set_task_objs set_chat_log].
    rewrite lookup_insert_eq. cbn [user_objs set_user_objs]. rewrite insert_insert_eq.
    reflexivity.
Qed.

(** alice confirms her alert, whose object says she did not; she has a
    device that takes pushes, and is asked whether one may be sent. The
    object then says she did, in her words. *)
Lemma confirmation_asks_for_push_witness :
  let w := snd (User.positive_response Scenario.alice_ref "I did this"
                  Scenario.alice_pending) in
  (performed <$> task_objs w !! 0%nat) = Some false
  /\ exists w',
    step Scenario.alice_ref w = (Ok tt, w')
    /\ nth_error (chat_log w') 2 = Some (ToUser Scenario.alice_ref, Plain "May I send a push?")
    /\ (fsm_state <$> user_objs w' !! Scenario.alice_ref)
       = Some "auth_permission_check"%string
    /\ (performed <$> task_objs w' !! 0%nat) = Some true
    /\ (comment <$> task_objs w' !! 0%nat) = Some "I did this"%string.
Proof.
  intros w. split; [vm_compute; reflexivity|].
  destruct (user_objs w !! Scenario.alice_ref) as [u|] eqn:Eu;
    [|vm_compute in Eu; discriminate].
  assert (Eu' := Eu). vm_compute in Eu'. injection Eu' as Hu'.
  destruct (confirmation_asks_for_push Scenario.alice_ref w u 0%nat Scenario.ssh_root
                "No 2FA device." "May I send a push?" Eu)
    as (t' & H & Hperf & Hcomm & _).
  - rewrite <- Hu'; reflexivity.
  - rewrite <- Hu'; reflexivity.
  - rewrite <- Hu'; reflexivity.
  - vm_compute; reflexivity.
  - vm_compute; reflexivity.
  - vm_compute; reflexivity.
  - rewrite <- Hu'. vm_compute. discriminate.
  - assert (Hcan : Auth.can_auth (duo w)
                     (snd (Auth.auth_status (duo w) (local_now w) (auth u))) = true)
      by (rewrite <- Hu'; vm_compute; reflexivity).
    rewrite Hcan in H.
    eexists. split; [exact H|].
    cbn [user_objs task_objs chat_log set_user_objs set_task_objs set_chat_log].
    rewrite !lookup_insert_eq. cbn [fmap option_fmap option_map].
    rewrite Hperf, Hcomm. split; [|split; [reflexivity|split; [reflexivity|]]].
    + vm_compute. reflexivity.
    + rewrite <- Hu'. reflexivity.
Defined.

(** X27. The answer to the question whether a push may be sent. On yes the
    session enters [waiting_on_auth]: the user is told [sending_push] and a
    push is requested whose reason is the description of the pending task;
    the auth object is then pending under the new transaction, its time of
    last approval unchanged. On no the session enters [task_finished] and
    the user is told [escalated]; nothing goes to the reporting channel.
    In both cases the answer is cleared on leaving the state, and neither
    the task nor the tables are written. *)
Theorem permission_answer_pushes_or_escalates (self : user_ref) (w : World) (u : User)
    (l : task_ref) (t : Task) (b : bool) (sending_push escalated : string) :
  user_objs w !! self = Some u ->
  fsm_state u = "auth_permission_check"%string ->
  Util.answer (_last_message u) = Some b ->
  pending_task u = Some l ->
  task_objs w !! l = Some t ->
  messages (bot w) !! "sending_push"%string = Some sending_push ->
  messages (bot w) !! "escalated"%string = Some escalated ->
  let u' := set_last_message u (Util.tuple_builder None None) in
  step self w
  = (Ok tt,
     set_user_objs
       (set_chat_log w
          (chat_log w ++ [(ToUser self, Plain (if b then sending_push else escalated))]))
       (<[self := if b
                  then set_fsm_state
                         (set_auth u' (Auth.auth (duo w) (Some (description t)) (auth u)))
                         "waiting_on_auth"
                  else set_fsm_state u' "task_finished"]> (user_objs w))).
Proof.
  intros Hu Hs Ha Hp Ht Hpush Hesc u'.
  rewrite (step_as_spec self w u Hu) by (rewrite Hs; in_states).
  rewrite Hs. rewrite StateMachineFacts.step_spec_unfold.
  change (hook (during self) "auth_permission_check" w) with (Ok tt, w).
  change (declared_from (transitions self) "auth_permission_check")
    with [ StateMachine.mk_transition_dict "auth_permission_check" "waiting_on_auth"
             (Some (_allows_authorization self)) None;
           StateMachine.mk_transition_dict "auth_permission_check" "task_finished"
             (Some (_denies_authorization self)) (Some (send_message self "escalated"));
           StateMachine.mk_transition_dict "auth_permission_check" "task_finished"
             (Some (_slow_response_time self)) (Some (_auto_escalate self)) ].
  cbv beta iota.
  assert (Hal : _allows_authorization self w = (Ok b, w)).
  { cbv [_allows_authorization bind the_user ret]. rewrite Hu, Ha. now destruct b. }
  assert (Hden : _denies_authorization self w = (Ok (negb b), w)).
  { cbv [_denies_authorization bind the_user ret]. rewrite Hu, Ha. now destruct b. }
  assert (Hexit : forall w0, user_objs w0 = user_objs w ->
    _reset_message self w0 = (Ok tt, set_user_objs w0 (<[self := u']> (user_objs w)))).
  { intros w0 E. cbv [_reset_message update_user]. now rewrite E, Hu. }
  next_guard Hal. destruct b; cbv beta iota.
  - rewrite take_unfold. cbv [effect StateMachine.d_action from_option id ret].
    change (hook (on_exit self) "auth_permission_check") with (_reset_message self).
    rewrite Hexit by reflexivity.
    change (hook (on_enter self) (StateMachine.d_dest _)) with (begin_auth self).
    unfold begin_auth. unfold bind at 1.
    unfold send_message, bind at 1, message at 1.
    cbn [bot set_user_objs set_chat_log]. rewrite Hpush.
    unfold chat_send at 1, modify at 1.
    unfold bind at 1. unfold the_user at 1.
    cbn [user_objs set_user_objs set_chat_log]. rewrite lookup_insert_eq.
    unfold bind at 1. unfold the_task at 1.
    change (pending_task u') with (pending_task u). rewrite Hp.
    cbn [task_objs set_user_objs set_chat_log]. rewrite Ht.
    unfold bind at 1, gets at 1. unfold update_user.
    cbn [user_objs duo chat_log set_user_objs set_chat_log]. rewrite lookup_insert_eq.
    cbn [fst snd user_objs set_user_objs]. rewrite lookup_insert_eq.
    cbn [user_objs set_user_objs]. rewrite !insert_insert_eq. reflexivity.
  - cbn [negb] in Hden. next_guard Hden. rewrite take_unfold.
    cbv [effect StateMachine.d_action from_option id].
    assert (Hsend : send_message self "escalated" w
                    = (Ok tt, set_chat_log w (chat_log w ++ [(ToUser self, Plain escalated)]))).
    { unfold send_message, bind, message. now rewrite Hesc. }
    rewrite Hsend.
    change (hook (on_exit self) "auth_permission_check") with (_reset_message self).
    rewrite Hexit by reflexivity.
    change (hook (on_enter self) (StateMachine.d_dest _)) with (@ret World unit tt).
    unfold ret. cbv beta iota. cbn [user_objs set_user_objs]. rewrite lookup_insert_eq.
    cbn [user_objs set_user_objs]. rewrite insert_insert_eq. reflexivity.
Qed.

(** alice has confirmed her alert and allows the push: it is requested with
    the alert's description as the reason. *)
Lemma permission_answer_pushes_or_escalates_witness :
  let w := snd (User.positive_response Scenario.alice_ref "go ahead"
                  (Scenario.session_end Scenario.alice_ref
                     [User.positive_response Scenario.alice_ref "I did this"]
                     Scenario.alice_pending)) in
  exists w',
    step Scenario.alice_ref w = (Ok tt, w')
    /\ nth_error (chat_log w') 3 = Some (ToUser Scenario.alice_ref, Plain "Sending a push.")
    /\ (Auth.state <$> (auth <$> user_objs w' !! Scenario.alice_ref)) = Some PENDING.
Proof.
  intros w.
  destruct (user_objs w !! Scenario.alice_ref) as [u|] eqn:Eu;
    [|vm_compute in Eu; discriminate].
  assert (Eu' := Eu). vm_compute in Eu'. injection Eu' as Hu'.
  pose proof (permission_answer_pushes_or_escalates Scenario.alice_ref w u 0%nat
                (set_comment (set_performed Scenario.ssh_root true) "I did this") true
                "Sending a push." "Escalated." Eu) as H.
  cbv zeta in H.
  eexists. split.
  - apply H.
    + rewrite <- Hu'; reflexivity.
    + rewrite <- Hu'; reflexivity.
    + rewrite <- Hu'; reflexivity.
    + vm_compute; reflexivity.
    + vm_compute; reflexivity.
    + vm_compute; reflexivity.
  - cbn [user_objs chat_log set_user_objs set_chat_log].
    rewrite lookup_insert_eq. split.
    + vm_compute. reflexivity.
    + reflexivity.
Defined.

End SessionFacts.

(** ** util.py and commands.py: a test alert *)

Module AlertFacts.
Import Tasker World Commands TaskerFacts.
Local Open Scope Z_scope.

(** X22. The [test] command files an alert under a fresh key in all three
    tables, and the tasker's next poll lists it among the new tasks, for
    the user who asked, beside the tasks it listed before. Each of the
    three [INSERT]s is committed on its own: when the key is taken in
    [alerts] the command fails with nothing written, and when it is free
    there but taken in [user_responses] the command fails with the row
    in [alerts] written. *)
Theorem test_alert_is_listed (user : user_ref) (uo : User) (args : list string)
    (w : World) :
  user_objs w !! user = Some uo ->
  let key := fresh_key w in
  let row := mk_alert_row (u_name (_user uo)) "testing_alert" "Testing alert"
                          "Testing Securitybot" "N/A" (utc_now w) in
  (alerts (db w) !! key = None ->
   user_responses (db w) !! key = None ->
   alert_status (db w) !! key = None ->
   exists w',
     test user args w = (Ok (Some true), w')
     /\ mk_Task key "testing_alert" (u_name (_user uo)) "Testing Securitybot" "Testing alert"
                "N/A" false EmptyString false OPEN ∈ get_new_tasks (db w')
     /\ (forall level t, t ∈ _get_tasks level (db w) -> t ∈ _get_tasks level (db w'))
     /\ chat_log w' = chat_log w /\ user_objs w' = user_objs w)
  /\ (is_Some (alerts (db w) !! key) ->
      exists msg, test user args w = (Raise (SQLEngineException msg), w))
  /\ (alerts (db w) !! key = None -> is_Some (user_responses (db w) !! key) ->
      exists msg w',
        test user args w = (Raise (SQLEngineException msg), w')
        /\ alerts (db w') = <[key := row]> (alerts (db w))
        /\ user_responses (db w') = user_responses (db w)
        /\ alert_status (db w') = alert_status (db w)).
Proof.
  intros Hu key row.
  assert (Hname : User.user_name user w = (Ok (u_name (_user uo)), w)).
  { unfold User.user_name, bind, the_user. now rewrite Hu. }
  split; [|split].
  - intros Ha Hr Hs.
    unfold test. unfold bind at 1. rewrite Hname.
    unfold bind at 1. unfold create_new_alert.
    cbv [bind gets update_db modify ret]. cbn [db set_db fresh_key utc_now].
    fold key. rewrite Ha. cbn [db set_db user_responses]. rewrite Hr.
    cbn [db set_db alert_status set_user_responses]. rewrite Hs.
    eexists. split; [reflexivity|]. cbn [db set_db chat_log user_objs].
    split; [|split; [|auto]].
    + apply get_tasks_spec. cbn [hash alerts user_responses alert_status set_user_responses
                                 set_alert_status].
      exists row, (mk_response_row EmptyString false false).
      rewrite !lookup_insert_eq. repeat split; reflexivity.
    + intros level t Hin. apply get_tasks_spec in Hin as (a & r & Ha' & Hr' & Hs' & Ht').
      apply get_tasks_spec. exists a, r.
      cbn [alerts user_responses alert_status set_user_responses set_alert_status].
      assert (Hne : key <> hash t) by (intros E; rewrite <- E in Ha'; congruence).
      rewrite !lookup_insert_ne by exact Hne. auto.
  - intros [a Ha].
    unfold test. unfold bind at 1. rewrite Hname.
    unfold bind at 1. unfold create_new_alert.
    cbv [bind gets update_db modify ret raise]. fold key. rewrite Ha. eauto.
  - intros Ha [r Hr].
    unfold test. unfold bind at 1. rewrite Hname.
    unfold bind at 1. unfold create_new_alert.
    cbv [bind gets update_db modify ret raise]. cbn [db set_db fresh_key utc_now].
    fold key. rewrite Ha. cbn [db set_db user_responses]. rewrite Hr.
    do 2 eexists. split; [reflexivity|]. cbn. auto.
Qed.

(** alice asks for a test alert: the tasker now lists three new tasks. *)
Lemma test_alert_is_listed_witness :
  exists w',
    test Scenario.alice_ref [] Scenario.world0 = (Ok (Some true), w')
    /\ mk_Task "EF56" "testing_alert" "alice" "Testing Securitybot" "Testing alert"
               "N/A" false EmptyString false OPEN ∈ get_new_tasks (db w').
Proof.
  destruct (test_alert_is_listed Scenario.alice_ref
              (User.new Scenario.alice (Auth.new "alice")) [] Scenario.world0 eq_refl)
    as [H _].
  destruct (H eq_refl eq_refl eq_refl) as (w' & E & Hin & _).
  exists w'. split; [exact E | exact Hin].
Defined.

End AlertFacts.

(** ** commands.py: how [TIME_REGEX] reads a duration *)

Module DurationFacts.
Import Text Commands TextFacts.
Local Open Scope Z_scope.

Lemma span_digits_run (ds : list ascii) (c : ascii) (rest : list ascii) :
  Forall (fun d => is_digit d = true) ds -> is_digit c = false ->
  span_digits (ds ++ c :: rest) = (ds, c :: rest).
Proof.
  intros Hds Hc. induction Hds as [|d ds Hd _ IH]; cbn [app span_digits].
  - now rewrite Hc.
  - now rewrite Hd, IH.
Qed.

Lemma letter_is_no_digit (c letter : ascii) :
  lower_byte c = letter -> is_digit letter = false -> is_digit c = false.
Proof.
  intros Hl Hn. destruct (is_digit c) eqn:Ed; [|reflexivity].
  assert (lower_byte c = c).
  { unfold lower_byte, is_upper. unfold is_digit in Ed.
    apply andb_prop in Ed as [_ E2]. apply Z.leb_le in E2.
    rewrite (proj2 (Z.leb_gt 65 (code c))) by lia. reflexivity. }
  congruence.
Qed.

(** One group of the pattern: digits followed by the unit's letter, in
    either case, are the group; anything else leaves the group out and the
    text where it was. *)
Lemma optional_group_reads (letter : ascii) (ds : list ascii) (c : ascii)
    (rest : list ascii) :
  is_digit letter = false ->
  Forall (fun d => is_digit d = true) ds -> ds <> [] -> is_digit c = false ->
  optional_group letter (ds ++ c :: rest)
  = if Ascii.eqb (lower_byte c) letter then (Some (ds ++ [c]), rest)
    else (None, ds ++ c :: rest).
Proof.
  intros Hletter Hds Hne Hc. unfold optional_group.
  rewrite (span_digits_run ds c rest Hds Hc).
  destruct ds as [|d ds]; [contradiction|]. reflexivity.
Qed.

Lemma group_value_reads (ds : list ascii) (c : ascii) :
  group_value (Some (ds ++ [c])) = int_of_digits ds.
Proof. unfold group_value. now rewrite removelast_last. Qed.

(** X23. [TIME_REGEX] on a duration written as hours then minutes, as hours
    only, and as minutes only, the unit letters in either case: the groups
    are the digits read, and their values the numbers the digits write.
    What follows the minutes is not read, whatever it is; so minutes
    written before hours are read as minutes only. What follows hours
    written alone is not read when it does not start with a digit. *)
Theorem time_regex_reads_hours_then_minutes (hs ms : list ascii) (hc mc : ascii)
    (rest : list ascii) :
  Forall (fun d => is_digit d = true) hs -> hs <> [] ->
  Forall (fun d => is_digit d = true) ms -> ms <> [] ->
  lower_byte hc = "h"%char -> lower_byte mc = "m"%char ->
  (exists g, TIME_REGEX_match (of_bytes (hs ++ hc :: ms ++ mc :: rest)) = Some g
             /\ group_value (group1 g) = int_of_digits hs
             /\ group_value (group2 g) = int_of_digits ms)
  /\ (match rest with
      | c :: _ => is_digit c = false
      | [] => True
      end ->
      exists g, TIME_REGEX_match (of_bytes (hs ++ hc :: rest)) = Some g
                /\ group_value (group1 g) = int_of_digits hs
                /\ group_value (group2 g) = 0)
  /\ (exists g, TIME_REGEX_match (of_bytes (ms ++ mc :: rest)) = Some g
                /\ group_value (group1 g) = 0
                /\ group_value (group2 g) = int_of_digits ms)
  /\ (exists g, TIME_REGEX_match (of_bytes (ms ++ mc :: hs ++ hc :: rest)) = Some g
                /\ group_value (group1 g) = 0
                /\ group_value (group2 g) = int_of_digits ms).
Proof.
  intros Hhs Hhne Hms Hmne Hh Hm.
  assert (Hhd : is_digit hc = false) by (apply (letter_is_no_digit hc "h" Hh); reflexivity).
  assert (Hmd : is_digit mc = false) by (apply (letter_is_no_digit mc "m" Hm); reflexivity).
  assert (Hminutes : forall after,
    exists g, TIME_REGEX_match (of_bytes (ms ++ mc :: after)) = Some g
              /\ group_value (group1 g) = 0
              /\ group_value (group2 g) = int_of_digits ms).
  { intros after. unfold TIME_REGEX_match. rewrite bytes_of_bytes.
    rewrite (optional_group_reads "h" ms mc _ eq_refl Hms Hmne Hmd), Hm.
    change (Ascii.eqb "m" "h") with false. cbv iota.
    rewrite (optional_group_reads "m" ms mc _ eq_refl Hms Hmne Hmd), Hm.
    change (Ascii.eqb "m" "m") with true. cbv iota.
    eexists. split; [reflexivity|]. cbn [group1 group2].
    now rewrite group_value_reads. }
  split; [|split; [|split]].
  - unfold TIME_REGEX_match. rewrite bytes_of_bytes.
    rewrite (optional_group_reads "h" hs hc _ eq_refl Hhs Hhne Hhd), Hh.
    change (Ascii.eqb "h" "h") with true. cbv iota.
    rewrite (optional_group_reads "m" ms mc _ eq_refl Hms Hmne Hmd), Hm.
    change (Ascii.eqb "m" "m") with true. cbv iota.
    eexists. split; [reflexivity|]. cbn [group1 group2].
    now rewrite !group_value_reads.
  - intros Hrest. unfold TIME_REGEX_match. rewrite bytes_of_bytes.
    rewrite (optional_group_reads "h" hs hc _ eq_refl Hhs Hhne Hhd), Hh.
    change (Ascii.eqb "h" "h") with true. cbv iota.
    assert (Hnone : optional_group "m" rest = (None, rest)).
    { unfold optional_group. destruct rest as [|c rest']; [reflexivity|].
      cbn [span_digits]. now rewrite Hrest. }
    rewrite Hnone. eexists. split; [reflexivity|]. cbn [group1 group2].
    now rewrite group_value_reads.
  - apply Hminutes.
  - apply Hminutes.
Qed.

(** [1H30m] is an hour and a half; [30m] is half an hour; [45m2h] is 45
    minutes. *)
Lemma time_regex_reads_hours_then_minutes_witness :
  (exists g, TIME_REGEX_match "1H30m" = Some g
             /\ group_value (group1 g) = 1 /\ group_value (group2 g) = 30)
  /\ (exists g, TIME_REGEX_match "30m" = Some g
                /\ group_value (group1 g) = 0 /\ group_value (group2 g) = 30)
  /\ (exists g, TIME_REGEX_match "45m2h" = Some g
                /\ group_value (group1 g) = 0 /\ group_value (group2 g) = 45).
Proof.
  assert (D : forall l, forallb is_digit l = true -> Forall (fun d => is_digit d = true) l).
  { intros l H. apply Forall_forall. intros x Hx.
    rewrite forallb_forall in H. apply H. now apply list_elem_of_In. }
  split; [|split].
  - destruct (time_regex_reads_hours_then_minutes ["1"%char] ["3"; "0"]%char "H" "m" [])
      as [H _]; try reflexivity; try discriminate; try (apply D; reflexivity).
    exact H.
  - destruct (time_regex_reads_hours_then_minutes ["1"%char] ["3"; "0"]%char "H" "m" [])
      as (_ & _ & H & _); try reflexivity; try discriminate; try (apply D; reflexivity).
    exact H.
  - destruct (time_regex_reads_hours_then_minutes ["2"%char] ["4"; "5"]%char "h" "m" [])
      as (_ & _ & _ & H); try reflexivity; try discriminate; try (apply D; reflexivity).
    exact H.
Defined.

End DurationFacts.
